(** * WalletStorage: the wallet container and its reconciliation engine

    A shallow embedding of
    [plasma/libraries/@graphene/wallet-client/src/WalletStorage.js].

    The container ([this]) is a record, the persisted storage state is a
    finite map from field names to JavaScript values, and every operation is
    a function from the container to an outcome, the new container and the
    trace of effects it performed (storage writes, crypto and transport
    calls, subscriber notifications), in the order the source performs them.
    A thrown exception is the outcome [Err]; a returned promise is its
    settlement, the effects of its callbacks being placed where the event
    loop runs them. One operation runs at a time.

    The external collaborators (elliptic-curve keys, encryption, SHA-256,
    Buffer/base64, the string methods [trim] and [toLowerCase], the
    transport) are interfaces, see [Crypto] and [Transport]. The state store's [setState] and the persistent-map
    library's [mergeDeep] are not in the sources and follow the spec. *)

From Stdlib Require Import ZArith Ascii String List Bool.
From stdpp Require Import base option list strings gmap fin_maps.

Local Open Scope string_scope.
Set Warnings "-register-all".

(** ** JavaScript values *)

(** A string-valued field that may be missing ([undefined]) or [null]:
    status texts, hashes and dates as they arrive from the server. *)
Inductive jtext :=
| Undefined
| Null
| Text (s : string).

(** The values kept in the storage state and passed as arguments. *)
Inductive jsval :=
| JBool (b : bool)
| JText (t : jtext).

Abbreviation JUndefined := (JText Undefined).
Abbreviation JNull := (JText Null).
Abbreviation JStr s := (JText (Text s)).

#[global] Instance jtext_eq_dec : EqDecision jtext.
Proof. solve_decision. Defined.
#[global] Instance jsval_eq_dec : EqDecision jsval.
Proof. solve_decision. Defined.

(** [a === b] *)
Definition strict_eq (a b : jsval) : bool := bool_decide (a = b).

(** [v == null] *)
Definition text_nullish (t : jtext) : bool :=
  match t with Undefined | Null => true | Text _ => false end.

Definition nullish (v : jsval) : bool :=
  match v with JText t => text_nullish t | JBool _ => false end.

(** ToBoolean *)
Definition text_truthy (t : jtext) : bool :=
  match t with
  | Undefined | Null => false
  | Text s => negb (String.eqb s "")
  end.

Definition truthy (v : jsval) : bool :=
  match v with JBool b => b | JText t => text_truthy t end.

(** ToString, as string concatenation and [RegExp.test] apply it. *)
Definition text_to_string (t : jtext) : string :=
  match t with
  | Undefined => "undefined"
  | Null => "null"
  | Text s => s
  end.

Definition to_string (v : jsval) : string :=
  match v with
  | JBool true => "true"
  | JBool false => "false"
  | JText t => text_to_string t
  end.

(** [a == b] on string-valued fields: [null] and [undefined] are equal to
    each other and to nothing else, strings compare by content. *)
Definition loose_eq (a b : jtext) : bool :=
  match a, b with
  | Text x, Text y => String.eqb x y
  | Text _, _ | _, Text _ => false
  | _, _ => true
  end.

(** ** Strings *)

Fixpoint is_prefix (p s : string) : bool :=
  match p, s with
  | EmptyString, _ => true
  | String a p', String b s' => Ascii.eqb a b && is_prefix p' s'
  | String _ _, EmptyString => false
  end.

(** [s] contains [p] as a substring. *)
Fixpoint includes (p s : string) : bool :=
  is_prefix p s ||
  match s with
  | EmptyString => false
  | String _ s' => includes p s'
  end.

(** [/a|b|c/.test(s)] for literal alternatives. *)
Definition regex_test (alternatives : list string) (s : string) : bool :=
  existsb (fun p => includes p s) alternatives.

(** ["\t"] *)
Definition tab : string := String (ascii_of_nat 9) EmptyString.

(** ** The wallet object *)

(** A JSON tree. An object is the list of its entries, in the order the
    keys were first set; operations keep the keys distinct. *)
Inductive tree :=
| TNull
| TBool (b : bool)
| TNum (n : Z)
| TStr (s : string)
| TList (l : list tree)
| TMap (m : list (string * tree)).

Abbreviation wmap := (list (string * tree)).

Fixpoint wget (k : string) (m : wmap) : option tree :=
  match m with
  | [] => None
  | (k', v) :: m' => if String.eqb k k' then Some v else wget k m'
  end.

(** [m.has(k)] *)
Definition whas (k : string) (m : wmap) : bool :=
  match wget k m with Some _ => true | None => false end.

(** [m.update(k, NOT_SET, existing => existing === NOT_SET ? v : f existing)]:
    an existing entry is replaced in place, a new one is added. *)
Fixpoint wupdate (k : string) (f : tree -> tree) (v : tree) (m : wmap) : wmap :=
  match m with
  | [] => [(k, v)]
  | (k', e) :: m' =>
      if String.eqb k k' then (k', f e) :: m' else (k', e) :: wupdate k f v m'
  end.

(** [m.set(k, v)] *)
Definition wset (k : string) (v : tree) (m : wmap) : wmap :=
  wupdate k (fun _ => v) v m.

(** [m.merge(entries)]: a shallow merge, entry by entry. *)
Definition wmerge (m : wmap) (entries : wmap) : wmap :=
  fold_left (fun acc kv => wset (fst kv) (snd kv) acc) entries m.

(** Modelled from the spec: the deep merge of the persistent-map library
    ([Immutable.Map.mergeDeep]), which is not part of the sources. Objects
    under the same key merge recursively; every other value overwrites. *)
Fixpoint deepMerger (existing value : tree) {struct value} : tree :=
  match value with
  | TMap mb =>
      match existing with
      | TMap ma =>
          TMap ((fix go (mb : wmap) (acc : wmap) {struct mb} : wmap :=
                   match mb with
                   | [] => acc
                   | (k, x) :: rest =>
                       go rest (wupdate k (fun e => deepMerger e x) x acc)
                   end) mb ma)
      | _ => value
      end
  | _ => value
  end.

Definition mergeDeep (m : wmap) (value : wmap) : wmap :=
  fold_left (fun acc kv => wupdate (fst kv) (fun e => deepMerger e (snd kv)) (snd kv) acc)
            value m.

#[global] Instance tree_eq_dec : EqDecision tree.
Proof.
  refine (fix go (a b : tree) {struct a} : Decision (a = b) :=
    let _ : EqDecision tree := go in
    match a, b with
    | TNull, TNull => left eq_refl
    | TBool x, TBool y => cast_if (decide (x = y))
    | TNum x, TNum y => cast_if (decide (x = y))
    | TStr x, TStr y => cast_if (decide (x = y))
    | TList x, TList y => cast_if (decide (x = y))
    | TMap x, TMap y => cast_if (decide (x = y))
    | _, _ => right _
    end); abstract congruence.
Defined.

(** [a === b] for two persistent maps of which [b] results from merging into
    [a]: the library hands back [a] itself exactly when no entry changed, and
    a merge that changes no entry leaves the entry list as it was. *)
Definition same_map (a b : wmap) : bool := bool_decide (a = b).

(** The keys of an object are distinct, at every level that a merge reaches,
    as those of a JavaScript object are. *)
Fixpoint distinct_keys (t : tree) : Prop :=
  match t with
  | TMap m =>
      NoDup (map fst m) /\
      (fix all (m : wmap) : Prop :=
         match m with
         | [] => True
         | (_, v) :: m' => distinct_keys v /\ all m'
         end) m
  | _ => True
  end.

Definition distinct_keys_map (m : wmap) : Prop := distinct_keys (TMap m).

(** [m] already holds everything [x] would merge into it. *)
Definition absorbs (m x : wmap) : Prop :=
  Forall (fun kv => exists e, wget (fst kv) m = Some e /\ deepMerger e (snd kv) = e) x.

(** ** External collaborators *)

Abbreviation bytes := (list Byte.byte).

(** The crypto library ([@graphene/ecc], [./Backup]), the [Buffer]
    conversions and the two methods of [String.prototype] that the key
    derivation calls, by interface. A call is a function of its arguments:
    what randomness an encryption or a signature draws plays no part in the
    statements below. Of [trim] and [toLowerCase] nothing is used but that
    they leave the empty string as it is: which characters are white space
    and which letters have a lower case is the host's matter. *)
Class Crypto := {
  PrivateKey : Type;
  PublicKey : Type;
  Signature : Type;
  (** [PrivateKey.fromSeed(seed)] *)
  fromSeed : string -> PrivateKey;
  (** [private_key.toPublicKey()] *)
  toPublicKey : PrivateKey -> PublicKey;
  (** [public_key.toString()] *)
  publicKeyString : PublicKey -> string;
  (** [encrypt(wallet_object, public_key)] *)
  encrypt : wmap -> PublicKey -> bytes;
  (** [decrypt(backup_buffer, private_key)]; [None] when it rejects *)
  decrypt : bytes -> PrivateKey -> option wmap;
  (** [hash.sha256(buffer)] *)
  sha256 : bytes -> bytes;
  (** [Signature.signBufferSha256(buffer, private_key)] *)
  signBufferSha256 : bytes -> PrivateKey -> Signature;
  (** [buffer.toString('base64')] *)
  toBase64String : bytes -> string;
  (** [new Buffer(string, 'base64')] *)
  fromBase64String : string -> bytes;
  (** [string.trim()] *)
  trim : string -> string;
  (** [string.toLowerCase()] *)
  toLowerCase : string -> string;
  trim_empty : trim "" = "";
  toLowerCase_empty : toLowerCase "" = "";
}.

(** A record as the server sends it: the answer to a request, or the
    [server_wallet] handed to the fetch callback. *)
Record server_wallet := {
  statusText : jtext;
  local_hash : jtext;
  encrypted_data : jtext;
  created : jtext;
  updated : jtext;
}.

Inductive error :=
| Error (message : string)
| AssertionError (message : string)
| TypeError (message : string)
| ReferenceError (identifier : string)
| Payload (json : server_wallet)
| TransportError (message : string)
| DecryptError.

(** What a promise settles to. *)
Inductive settled (A : Type) :=
| Fulfilled (a : A)
| RejectedWith (e : error).
Arguments Fulfilled {A} a.
Arguments RejectedWith {A} e.

(** How a synchronous piece of code ends: with a value, or with the
    exception it throws. *)
Inductive result (A : Type) :=
| Ok (a : A)
| Err (e : error).
Arguments Ok {A} a.
Arguments Err {A} e.

(** The values promises of this class are fulfilled with. *)
Inductive value :=
| VUndefined
| VWallet (w : wmap)
| VString (s : string).

Section WalletStorage.

Context `{Crypto}.

(** The transport ([WalletApi] over [WalletWebSocket]): each request is
    answered by the promise's settlement. A reply arrives in a later turn of
    the event loop than the one that sent the request. *)
Record Transport := {
  api_createWallet : jsval -> bytes -> Signature -> settled server_wallet;
  api_saveWallet : bytes -> bytes -> Signature -> settled server_wallet;
  api_deleteWallet : bytes -> Signature -> settled unit;
  api_changePassword : bytes -> Signature -> bytes -> Signature -> settled server_wallet;
  api_fetchWalletUnsubscribe : PublicKey -> settled unit;
  (** [ws_rpc.getSubscriptionId(method, key)] is truthy *)
  hasSubscriptionId : string -> string -> bool;
}.

(** The container, [this]. *)
Record container := {
  wallet_object : wmap;
  (** [this.storage.state] *)
  storage : gmap string jsval;
  private_key : option PrivateKey;
  remote_status : jtext;
  local_status : jtext;
  notify : bool;
  (** [this.api != null] *)
  api : bool;
  instance : string;
}.

Definition set_wallet_object (w : wmap) (c : container) : container :=
  {| wallet_object := w; storage := storage c; private_key := private_key c;
     remote_status := remote_status c; local_status := local_status c;
     notify := notify c; api := api c; instance := instance c |}.

Definition set_storage (s : gmap string jsval) (c : container) : container :=
  {| wallet_object := wallet_object c; storage := s; private_key := private_key c;
     remote_status := remote_status c; local_status := local_status c;
     notify := notify c; api := api c; instance := instance c |}.

Definition set_private_key (k : option PrivateKey) (c : container) : container :=
  {| wallet_object := wallet_object c; storage := storage c; private_key := k;
     remote_status := remote_status c; local_status := local_status c;
     notify := notify c; api := api c; instance := instance c |}.

Definition set_remote_status (t : jtext) (c : container) : container :=
  {| wallet_object := wallet_object c; storage := storage c; private_key := private_key c;
     remote_status := t; local_status := local_status c;
     notify := notify c; api := api c; instance := instance c |}.

Definition set_local_status (t : jtext) (c : container) : container :=
  {| wallet_object := wallet_object c; storage := storage c; private_key := private_key c;
     remote_status := remote_status c; local_status := t;
     notify := notify c; api := api c; instance := instance c |}.

Definition set_notify (b : bool) (c : container) : container :=
  {| wallet_object := wallet_object c; storage := storage c; private_key := private_key c;
     remote_status := remote_status c; local_status := local_status c;
     notify := b; api := api c; instance := instance c |}.

(** The effects an operation performs, in order. *)
Inductive event :=
| EStore (partial : list (string * jsval))
| EStatusText (s : string)
| EEncrypt (w : wmap) (k : PublicKey)
| EDecrypt (data : bytes) (k : PrivateKey)
| ECreateWallet (code : jsval) (data : bytes) (sig : Signature)
| ESaveWallet (remote_hash : bytes) (data : bytes) (sig : Signature)
| EDeleteWallet (hash : bytes) (sig : Signature)
| EChangePassword (original_hash : bytes) (original_sig : Signature)
                  (data : bytes) (new_sig : Signature)
| EUnsubscribe (k : PublicKey)
| ENotify.

(** ** Computations: the container threaded through, exceptions, a trace *)

Definition M (A : Type) : Type := container -> result A * container * list event.

#[global] Instance M_ret : MRet M := fun A (a : A) c => (Ok a, c, []).

#[global] Instance M_bind : MBind M := fun A B (f : A -> M B) (m : M A) c =>
  match m c with
  | (Ok a, c1, t1) =>
      match f a c1 with
      | (r, c2, t2) => (r, c2, (t1 ++ t2)%list)
      end
  | (Err e, c1, t1) => (Err e, c1, t1)
  end.

Definition throw {A} (e : error) : M A := fun c => (Err e, c, []).
Definition get : M container := fun c => (Ok c, c, []).
Definition modify (f : container -> container) : M unit := fun c => (Ok tt, f c, []).
Definition emit (e : event) : M unit := fun c => (Ok tt, c, [e]).

(** [assert(condition, message)] *)
Definition assert (condition : bool) (message : string) : M unit :=
  if condition then mret tt else throw (AssertionError message).

(** A promise made of an asynchronous computation: what the computation
    throws becomes the rejection. *)
Definition promise {A} (m : M A) : M (settled A) :=
  fun c =>
    match m c with
    | (Ok a, c1, t1) => (Ok (Fulfilled a), c1, t1)
    | (Err e, c1, t1) => (Ok (RejectedWith e), c1, t1)
    end.

(** Inside a [then] chain: continue with the value, or fail with the
    rejection. *)
Definition await {A} (p : settled A) : M A :=
  match p with
  | Fulfilled a => mret a
  | RejectedWith e => throw e
  end.

(** ** Storage *)

(** [this.storage.state.get(key)] *)
Definition sget (key : string) (s : gmap string jsval) : jsval :=
  default JUndefined (s !! key).

(** [this.storage.state.has(key)] *)
Definition shas (key : string) (s : gmap string jsval) : bool :=
  bool_decide (is_Some (s !! key)).

(** Modelled from the spec: the state store's [setState], which is not part
    of the sources. A merge that overwrites; an [undefined] value deletes
    the field. *)
Definition storage_merge (partial : list (string * jsval)) (s : gmap string jsval)
  : gmap string jsval :=
  fold_left (fun acc kv =>
               match snd kv with
               | JUndefined => delete (fst kv) acc
               | v => <[fst kv := v]> acc
               end) partial s.

(** [this.storage.setState(partial)] *)
Definition storage_setState (partial : list (string * jsval)) : M unit :=
  modify (fun c => set_storage (storage_merge partial (storage c)) c);;
  emit (EStore partial).

(** ** The semi-private functions *)

Variable T : Transport.

(** [new Buffer(value, 'base64')]: only a string converts. *)
Definition new_Buffer (v : jsval) : M bytes :=
  match v with
  | JStr s => mret (fromBase64String s)
  | _ => throw (TypeError "First argument must be a string or a buffer")
  end.

(** [localHash()]: a buffer, or [None] for [undefined]. *)
Definition localHash : M (option bytes) :=
  c ← get;
  let encrypted_wallet := sget "encrypted_wallet" (storage c) in
  if negb (truthy encrypted_wallet) then mret None
  else
    buffer ← new_Buffer encrypted_wallet;
    mret (Some (sha256 buffer)).

(** [toBase64(data)] on what [localHash] returns. *)
Definition toBase64 (data : option bytes) : jsval :=
  match data with
  | None => JUndefined
  | Some buffer => JStr (toBase64String buffer)
  end.

(** [req(data, field_name)] *)
Definition req (data : jsval) (field_name : string) : M jsval :=
  if nullish data then throw (Error (field_name +:+ "_required")) else mret data.

(** [notifySubscribers()]: the callbacks are external code, the trace records
    that they were called. *)
Definition notifySubscribers : M unit :=
  c ← get;
  if negb (notify c) then mret tt
  else
    modify (set_notify false);;
    emit ENotify.

(** [notifyResolve(promise)]; [None] is the call without argument. *)
Definition notifyResolve (p : option (settled value)) : M (settled value) :=
  match p with
  | None => notifySubscribers;; mret (Fulfilled VUndefined)
  | Some (Fulfilled ret) => notifySubscribers;; mret (Fulfilled ret)
  | Some (RejectedWith error) => notifySubscribers;; mret (RejectedWith error)
  end.

(** The [hash] argument of [deleteRemoteWallet]: a buffer or any other value. *)
Inductive hash_arg :=
| HashBuffer (b : bytes)
| HashValue (v : jsval).

(** [deleteRemoteWallet(private_key, hash = this.localHash())] *)
Definition deleteRemoteWallet (private_key : PrivateKey) (hash : hash_arg)
  : M (settled value) :=
  hash ← match hash with
         | HashValue JUndefined =>
             h ← localHash;
             mret (match h with
                   | Some b => HashBuffer b
                   | None => HashValue JUndefined
                   end)
         | _ => mret hash
         end;
  hash ← match hash with
         | HashBuffer b => mret b
         | HashValue v => new_Buffer v
         end;
  let signature := signBufferSha256 hash private_key in
  c ← get;
  (if api c then mret tt else throw (TypeError "Cannot read property of null"));;
  emit (EDeleteWallet hash signature);;
  promise (
    await (api_deleteWallet T hash signature);;
    modify (set_notify true);;
    storage_setState [("remote_hash", JUndefined);
                      ("remote_created_date", JUndefined);
                      ("remote_updated_date", JUndefined)];;
    mret VUndefined).

(** [saveServerWallet(server_wallet, private_key)] *)
Definition saveServerWallet (server_wallet : server_wallet) (private_key : PrivateKey)
  : M (settled value) :=
  backup_buffer ← new_Buffer (JText (encrypted_data server_wallet));
  emit (EDecrypt backup_buffer private_key);;
  promise (
    match decrypt backup_buffer private_key with
    | None => throw DecryptError
    | Some wallet_object =>
        storage_setState [("remote_token", JNull);
                          ("remote_hash", JText (local_hash server_wallet));
                          ("encrypted_wallet", JText (encrypted_data server_wallet));
                          ("remote_updated_date", JText (updated server_wallet));
                          ("remote_created_date", JText (created server_wallet))];;
        modify (set_wallet_object wallet_object);;
        modify (set_local_status Null);;
        modify (set_notify true);;
        mret VUndefined
    end).

(** [updateWallet(private_key = this.private_key)] *)
Definition updateWallet (private_key : option PrivateKey) : M (settled value) :=
  match private_key with
  | None => throw (Error "Wallet is locked")
  | Some private_key =>
      let public_key := toPublicKey private_key in
      c ← get;
      let remote_copy := sget "remote_copy" (storage c) in
      let code := sget "remote_token" (storage c) in
      let encrypted_data := encrypt (wallet_object c) public_key in
      emit (EEncrypt (wallet_object c) public_key);;
      promise (
        (* Save locally first *)
        storage_setState [("encrypted_wallet", JStr (toBase64String encrypted_data))];;
        modify (set_local_status Null);;
        modify (set_notify true);;
        c ← get;
        (if negb (api c) || negb (strict_eq remote_copy (JBool true)) then mret tt
         else if nullish code && bool_decide (remote_status c = Text "No Content") then mret tt
         else
           (* Try to save remotely *)
           let local_hash_buffer := sha256 encrypted_data in
           let local_hash' := toBase64String local_hash_buffer in
           let signature := signBufferSha256 local_hash_buffer private_key in
           let remote_hash := sget "remote_hash" (storage c) in
           if negb (nullish code) && nullish remote_hash then
             assert (loose_eq (remote_status c) (Text "No Content")) "remote_status";;
             emit (ECreateWallet code encrypted_data signature);;
             json ← await (api_createWallet T code encrypted_data signature);
             assert (loose_eq (local_hash json) (Text local_hash')) "local_hash";;
             assert (text_truthy (created json)) "created";;
             storage_setState [("remote_token", JNull);
                               ("remote_hash", JStr local_hash');
                               ("remote_created_date", JText (created json));
                               ("remote_updated_date", JText (created json))];;
             modify (set_remote_status (Text "Not Modified"));;
             modify (set_notify true)
           else
             assert (truthy remote_hash)
               "Can't update the server wallet.  A remote token may be required to create the wallet.";;
             assert (regex_test ["OK"; "Not Modified"] (text_to_string (remote_status c)))
               "remote_status";;
             remote_hash_buffer ← new_Buffer remote_hash;
             emit (ESaveWallet remote_hash_buffer encrypted_data signature);;
             json ← await (api_saveWallet T remote_hash_buffer encrypted_data signature);
             if bool_decide (statusText json = Text "OK") then
               assert (loose_eq (local_hash json) (Text local_hash')) "local_hash";;
               assert (text_truthy (updated json)) "updated";;
               storage_setState [("remote_hash", JStr local_hash');
                                 ("remote_updated_date", JText (updated json))];;
               modify (set_remote_status (Text "Not Modified"));;
               modify (set_notify true)
             else
               modify (set_notify true);;
               modify (set_remote_status (statusText json));;
               c ← get;
               throw (Error (instance c +:+ ":Unexpected WalletApi.saveWallet status: "
                             +:+ text_to_string (statusText json))));;
        c ← get;
        mret (VWallet (wallet_object c)))
  end.

(** [fetchWallet(server_wallet, private_key)]: throws, returns [undefined]
    ([None]) or returns a promise. The assignment to
    [server_wallet.statusText] is recorded in the trace. *)
Definition fetchWallet (server_wallet : server_wallet) (private_key : PrivateKey)
  : M (option (settled value)) :=
  c ← get;
  let has_local := shas "encrypted_wallet" (storage c) in
  local_hash' ← (if has_local then
                   h ← localHash;
                   match h with
                   | Some buffer => mret (Text (toBase64String buffer))
                   | None => throw (TypeError "Cannot read property 'toString' of undefined")
                   end
                 else mret Null);
  let old_hash := sget "remote_hash" (storage c) in
  let new_hash := local_hash server_wallet in
  let has_remote := negb (text_nullish new_hash) in
  storage_setState [("remote_hash", JText new_hash)];;
  (* No status? Subscription requests *)
  status ← (if negb (text_truthy (statusText server_wallet)) then
              let s := if negb has_remote then "No Content"
                       else if strict_eq (JText local_hash') (JText new_hash)
                            then "Not Modified" else "OK" in
              emit (EStatusText s);;
              mret (Text s)
            else mret (statusText server_wallet));
  c ← get;
  assert (regex_test ["OK"; "No Content"; "Not Modified"] (text_to_string status))
    (instance c +:+ " Invalid status: " +:+ text_to_string status);;
  (if negb (loose_eq (remote_status c) status) then
     modify (set_remote_status status);;
     modify (set_notify true)
   else mret tt);;
  c ← get;
  if has_remote && strict_eq (sget "remote_copy" (storage c)) (JBool false) then
    modify (set_notify true);;
    p ← deleteRemoteWallet private_key (HashValue (JText new_hash));
    mret (Some p)
  else if negb has_remote && negb has_local then
    assert (regex_test ["No Content"] (text_to_string status)) "false == true";;
    mret None
  else
    modify (set_notify true);;
    (* Another connecton deleted the wallet, but this connection is still
       backing up.. So, push it anyways. *)
    if negb has_remote then
      p ← updateWallet (Some private_key);
      p ← promise (await p;;
                   modify (set_remote_status (Text "Not Modified"));;
                   mret (VString "Not Modified"));
      mret (Some p)
    else if negb has_local then
      p ← saveServerWallet server_wallet private_key;
      p ← promise (await p;;
                   modify (set_remote_status (Text "Not Modified"));;
                   mret (VString "Not Modified"));
      mret (Some p)
    (* Two wallets and a new wallet is arriving *)
    else if strict_eq (JText local_hash') (JText new_hash) then
      mret None
    else
      let local_mod := negb (strict_eq (JText local_hash') old_hash) in
      let server_mod := negb (strict_eq old_hash (JText new_hash)) in
      if local_mod && server_mod then
        (* Both wallets modified. *)
        modify (set_remote_status (Text "Conflict"));;
        c ← get;
        throw (Error ("WalletWebSocket(" +:+ instance c
                      +:+ ") Conflict, both server and local wallet modified"))
      else if local_mod then
        p ← updateWallet (Some private_key);
        mret (Some p)
      else if server_mod then
        p ← saveServerWallet server_wallet private_key;
        p ← promise (await p;;
                     modify (set_remote_status (Text "Not Modified"));;
                     mret (VString "Not Modified"));
        mret (Some p)
      else
        assert (strict_eq old_hash (JText new_hash)) "Conflict";;
        mret None.

(** [fetchWalletCallback(server_wallet, private_key)] *)
Definition fetchWalletCallback (server_wallet : server_wallet) (private_key : PrivateKey)
  : M (settled value) :=
  (* A subscribe callback does not have a statusText but the initial fetch does *)
  let subscriptionRequest := negb (text_truthy (statusText server_wallet)) in
  fetchPromise ← promise (r ← fetchWallet server_wallet private_key;
                          match r with
                          | None => mret VUndefined
                          | Some p => await p
                          end);
  if subscriptionRequest then notifyResolve (Some fetchPromise)
  else mret fetchPromise.

(** ** The public methods *)

(** [setState(wallet_object)]; [now] is [new Date().toISOString()]. *)
Definition setState (now : string) (wallet_object' : wmap) : M (settled value) :=
  c ← get;
  match private_key c with
  | None => throw (Error "wallet_locked")
  | Some _ => mret tt
  end;;
  assert (whas "created" (wallet_object c)) "Login to create wallet";;
  (* Immutable js merge is good at keeping object equality *)
  let wallet_object' := mergeDeep (wallet_object c) wallet_object' in
  (* Still the same after merging? *)
  if same_map (wallet_object c) wallet_object' then mret (Fulfilled VUndefined)
  else
    modify (set_notify true);;
    modify (set_local_status (Text "Pending"));;
    modify (set_wallet_object wallet_object');;
    modify (fun c => set_wallet_object (wset "last_modified" (TStr now) (wallet_object c)) c);;
    c ← get;
    p ← updateWallet (private_key c);
    p ← promise (await p);
    notifyResolve (Some p).

(** The fate of the promise that [changePassword] constructs with
    [new Promise((resolve, reject) => ...)]. Once [resolve] or [reject] has
    been called, later calls of either do nothing; [resolve] called with a
    promise makes the constructed promise follow that one. *)
Inductive fate :=
| Pending
| Settled (s : settled value)
| Following.

Definition resolve_with (s : fate) (cell : fate) : fate :=
  match cell with
  | Pending => s
  | _ => cell
  end.

Definition reject (e : error) (cell : fate) : fate :=
  resolve_with (Settled (RejectedWith e)) cell.

(** What the callback of [encrypt(...).then] leaves behind when it returns:
    the fate of the constructed promise, and the replies still to come. *)
Record in_flight := {
  promise_cell : fate;
  unsubscribe_reply : option (settled unit);
  change_reply : option (settled server_wallet);
}.

(** How the constructed promise ends, [followed] being the settlement of the
    promise it may follow; [None] when it never settles. *)
Definition outcome (cell : fate) (followed : option (settled value))
  : option (settled value) :=
  match cell with
  | Pending => None
  | Settled s => Some s
  | Following => followed
  end.

(** The binding of the identifier [old_private_key], which [changePassword]
    reads and no scope of the file declares: [None] when the enclosing scopes
    do not bind it either. *)
Variable old_private_key : option PrivateKey.

(** The callback given to [this.api.changePassword(...).then]. *)
Definition changePassword_reply (json : server_wallet) (cell : fate) : M fate :=
  if negb (bool_decide (statusText json = Text "OK")) then
    mret (reject (Payload json) cell)
  else
    assert (text_truthy (local_hash json)) "local_hash";;
    assert (text_truthy (updated json)) "updated";;
    storage_setState [("remote_hash", JText (local_hash json));
                      ("remote_updated", JText (updated json))];;
    modify (set_notify true);;
    mret cell.

(** What happens in [changePassword] once the callback of
    [encrypt(...).then] has returned: the replies arrive, first the one to
    the unsubscribe request, whose rejection calls [reject], then the one to
    the change-password request, which [changePromise] handles and
    [notifyResolve] follows. *)
Definition changePassword_replies (f : in_flight) : M (option (settled value)) :=
  (* fetchWalletUnsubscribe(old_public_key).catch( error => reject(error)) *)
  let cell :=
    match unsubscribe_reply f with
    | Some (RejectedWith error) => reject error (promise_cell f)
    | _ => promise_cell f
    end in
  match change_reply f with
  | None => mret (outcome cell None)
  | Some reply =>
      changePromise ← promise (json ← await reply; changePassword_reply json cell);
      p ← notifyResolve (Some (match changePromise with
                               | Fulfilled _ => Fulfilled VUndefined
                               | RejectedWith error => RejectedWith error
                               end));
      let cell := match changePromise with
                  | Fulfilled cell => cell
                  | RejectedWith _ => cell
                  end in
      mret (outcome cell (Some p))
  end.

(** [email.trim()] *)
Definition js_trim (v : jsval) : M string :=
  match v with
  | JStr s => mret (trim s)
  | _ => throw (TypeError "trim is not a function")
  end.

(** A parameter with the default value [""]. *)
Definition or_empty (v : jsval) : jsval :=
  match v with
  | JUndefined => JStr ""
  | _ => v
  end.

(** [changePassword(password, email = "", username = "")]; [now] is
    [new Date().toISOString()]. The result is the settlement of the returned
    promise, [None] if it never settles. *)
Definition changePassword (now : string) (password email username : jsval)
  : M (option (settled value)) :=
  let email := or_empty email in
  let username := or_empty username in
  req password "password";;
  c ← get;
  match private_key c with
  | None => throw (Error "Wallet is locked")
  | Some this_private_key =>
      (if negb (truthy (sget "encrypted_wallet" (storage c))) then
         throw (Error "wallet_empty")
       else mret tt);;
      email_trim ← js_trim email;
      username_trim ← js_trim username;
      let new_private_key :=
        fromSeed (toLowerCase email_trim +:+ tab +:+
                  toLowerCase username_trim +:+ tab +:+
                  to_string password) in
      let weak_password := String.eqb email_trim "" || String.eqb username_trim "" in
      assert (negb weak_password || negb (truthy (sget "remote_copy" (storage c))))
        "Remote copies are enabled, but an email or username is missing from this wallet's encryption key.";;
      let old_public_key := toPublicKey this_private_key in
      original_local_hash ← localHash;
      let remote_copy := sget "remote_copy" (storage c) in
      (if strict_eq remote_copy (JBool true) then
         let remote_hash := sget "remote_hash" (storage c) in
         if negb (strict_eq (toBase64 original_local_hash) remote_hash) then
           throw (Error "wallet_modified: Can't change password, this wallet has a remote copy that has not been updated")
         else mret tt
       else mret tt);;
      let new_public_key := toPublicKey new_private_key in
      modify (fun c => set_wallet_object
                         (wmerge (wallet_object c)
                                 [("last_modified", TStr now);
                                  ("weak_password", TBool weak_password)]) c);;
      (* new Promise( (resolve, reject) => { *)
      c ← get;
      let encrypted_data := encrypt (wallet_object c) new_public_key in
      emit (EEncrypt (wallet_object c) new_public_key);;
      callback ← promise (
        (* Save locally first *)
        storage_setState [("encrypted_wallet", JStr (toBase64String encrypted_data))];;
        modify (set_local_status Null);;
        modify (set_notify true);;
        c ← get;
        if negb (api c) || negb (strict_eq remote_copy (JBool true)) then
          modify (set_private_key (Some new_private_key));;
          p ← notifyResolve None;
          mret {| promise_cell := resolve_with (Settled p) Pending;
                  unsubscribe_reply := None; change_reply := None |}
        else
          unsubscribe_reply ←
            (if hasSubscriptionId T "fetchWallet" (publicKeyString old_public_key) then
               emit (EUnsubscribe old_public_key);;
               mret (Some (api_fetchWalletUnsubscribe T old_public_key))
             else mret None);
          old_private_key ← match old_private_key with
                            | Some k => mret k
                            | None => throw (ReferenceError "old_private_key")
                            end;
          original_local_hash ← match original_local_hash with
                                | Some buffer => mret buffer
                                | None => throw (TypeError "buffer required")
                                end;
          let original_signature := signBufferSha256 original_local_hash old_private_key in
          new_local_hash ← localHash;
          new_local_hash ← match new_local_hash with
                           | Some buffer => mret buffer
                           | None => throw (TypeError "buffer required")
                           end;
          let new_signature := signBufferSha256 new_local_hash new_private_key in
          emit (EChangePassword original_local_hash original_signature
                                encrypted_data new_signature);;
          let change_reply := api_changePassword T original_local_hash original_signature
                                                 encrypted_data new_signature in
          modify (set_private_key (Some new_private_key));;
          mret {| promise_cell := resolve_with Following Pending;
                  unsubscribe_reply := unsubscribe_reply;
                  change_reply := Some change_reply |});
      match callback with
      | RejectedWith error =>
          (* }).catch( error => reject(error)) *)
          mret (outcome (reject error Pending) None)
      | Fulfilled f => changePassword_replies f
      end
  end.

(** ** Vocabulary of the statements *)

(** The local ciphertext hash: SHA-256 over the bytes of the persisted
    [encrypted_wallet], when there is one. *)
Definition local_ciphertext_hash (s : gmap string jsval) : option bytes :=
  match s !! "encrypted_wallet" with
  | Some (JStr ew) => if String.eqb ew "" then None else Some (sha256 (fromBase64String ew))
  | _ => None
  end.

(** The hash [deleteRemoteWallet] is to sign: the one given, as a buffer or
    in base64, and the local ciphertext hash when none is given. *)
Definition hash_to_sign (s : gmap string jsval) (hash : hash_arg) : option bytes :=
  match hash with
  | HashBuffer b => Some b
  | HashValue JUndefined => local_ciphertext_hash s
  | HashValue (JStr h) => Some (fromBase64String h)
  | HashValue _ => None
  end.

(** The storage state holds what its data model says: [encrypted_wallet],
    when present, is a ciphertext in base64 (a string that is not empty), *)
Definition ciphertext_typed (s : gmap string jsval) : bool :=
  match s !! "encrypted_wallet" with
  | None => true
  | Some (JStr ew) => negb (String.eqb ew "")
  | Some _ => false
  end.

(** and [remote_copy], when present, is a boolean. *)
Definition remote_copy_typed (s : gmap string jsval) : bool :=
  match s !! "remote_copy" with
  | None | Some (JBool _) => true
  | Some _ => false
  end.

Definition storage_typed (s : gmap string jsval) : bool :=
  ciphertext_typed s && remote_copy_typed s.

(** The local ciphertext hash as the fetch handler compares it: in base64,
    [null] without a local wallet. *)
Definition local_hash_text (s : gmap string jsval) : jtext :=
  match local_ciphertext_hash s with
  | Some h => Text (toBase64String h)
  | None => Null
  end.

(** The status text of a push event, in the spec's words: ["No Content"] if
    the server hash is null, ["Not Modified"] if the local ciphertext hash
    equals the server hash, ["OK"] otherwise. *)
Definition synthesized_status (s : gmap string jsval) (sw : server_wallet) : string :=
  if text_nullish (local_hash sw) then "No Content"
  else if bool_decide (local_hash_text s = local_hash sw) then "Not Modified"
  else "OK".

(** The wallet object and the key are the same. *)
Definition same_session (c c' : container) : Prop :=
  wallet_object c' = wallet_object c /\ private_key c' = private_key c.

(** A computation that leaves the wallet object and the key alone. *)
Definition keeps {A} (m : M A) : Prop := forall c, same_session c (m c).1.2.

(** The error of a reconciliation that found both wallets modified. *)
Definition conflict (c : container) : error :=
  Error ("WalletWebSocket(" +:+ instance c
         +:+ ") Conflict, both server and local wallet modified").

(** The error of a password change refused for an unsynchronised wallet. *)
Definition wallet_modified : error :=
  Error "wallet_modified: Can't change password, this wallet has a remote copy that has not been updated".

(** The status text is missing, or passes the handler's validation. *)
Definition status_accepted (t : jtext) : bool :=
  negb (text_truthy t) ||
  regex_test ["OK"; "No Content"; "Not Modified"] (text_to_string t).

End WalletStorage.

(** ** The session: connecting, logging in and out, reconciling *)

(** What [getState] and [verifyPassword] answer: on a locked container
    [Promise.reject(reason)], a promise rejected with the string itself. *)
Inductive answer (A : Type) :=
| RejectedString (reason : string)
| Answer (a : A).
Arguments RejectedString {A} reason.
Arguments Answer {A} a.

Section Session.

Context `{Crypto}.

(** What else the public methods use of their collaborators and of the
    runtime, by interface. As with the transport, a request is answered by
    its settlement, in a later turn of the event loop. *)
Record Host := {
  (** [private_key.toWif()] *)
  toWif : PrivateKey -> string;
  (** [ws_rpc.getSubscriptionId(method, key) == null] *)
  noSubscriptionId : string -> string -> bool;
  (** [api.fetchWallet(public_key, local_hash, callback)]: the record the
      callback is first called with, or the rejection of the request *)
  api_fetchWallet : PublicKey -> option bytes -> settled server_wallet;
  (** [ws_rpc.close()] *)
  ws_close : settled value;
  (** [new WalletWebSocket(remote_url, ...).instance], as string
      concatenation shows it *)
  ws_instance : jsval -> string;
  (** ToString of a number or of a collection *)
  ToString : tree -> string;
  (** [s == b] for a string and a boolean *)
  string_equals_bool : string -> bool -> bool;
}.

(** [this.api] and [this.instance] are assigned together. The instance only
    ever appears in string concatenations: it is kept as the string it
    gives there (["null"], ["undefined"]). *)
Definition set_connection (a : bool) (i : string) (c : container) : container :=
  {| wallet_object := wallet_object c; storage := storage c; private_key := private_key c;
     remote_status := remote_status c; local_status := local_status c;
     notify := notify c; api := a; instance := i |}.

(** The effects of the public methods: those of the semi-private functions,
    and the calls that open a subscription, close and open a connection. *)
Inductive session_event :=
| Effect (e : event)
| EFetchWallet (k : PublicKey) (local_hash : option bytes)
| EClose
| EConnect (remote_url : jsval).

Definition Session (A : Type) : Type := container -> result A * container * list session_event.

#[global] Instance Session_ret : MRet Session := fun A (a : A) c => (Ok a, c, []).

#[global] Instance Session_bind : MBind Session := fun A B (f : A -> Session B) (m : Session A) c =>
  match m c with
  | (Ok a, c1, t1) =>
      match f a c1 with
      | (r, c2, t2) => (r, c2, (t1 ++ t2)%list)
      end
  | (Err e, c1, t1) => (Err e, c1, t1)
  end.

(** A computation of the semi-private layer, run within a public method. *)
Definition lift {A} (m : M A) : Session A :=
  fun c => match m c with (r, c1, t1) => (r, c1, map Effect t1) end.

Definition perform (e : session_event) : Session unit := fun c => (Ok tt, c, [e]).

(** As [promise], for the public methods. *)
Definition promised {A} (m : Session A) : Session (settled A) :=
  fun c =>
    match m c with
    | (Ok a, c1, t1) => (Ok (Fulfilled a), c1, t1)
    | (Err e, c1, t1) => (Ok (RejectedWith e), c1, t1)
    end.

(** ToBoolean of [wallet_object.get(key)] *)
Definition tree_truthy (t : option tree) : bool :=
  match t with
  | None | Some TNull => false
  | Some (TBool b) => b
  | Some (TNum n) => negb (n =? 0)%Z
  | Some (TStr s) => negb (String.eqb s "")
  | Some (TList _) | Some (TMap _) => true
  end.

(** [v === wallet_object.get(key)] for an argument [v] *)
Definition tree_strict_eq (v : jsval) (t : option tree) : bool :=
  match v, t with
  | JBool b, Some (TBool b') => Bool.eqb b b'
  | JStr s, Some (TStr s') => String.eqb s s'
  | JNull, Some TNull => true
  | JUndefined, None => true
  | _, _ => false
  end.

(** [Map().isEmpty()] *)
Definition wempty (m : wmap) : bool :=
  match m with [] => true | _ => false end.

Variable T : Transport.
Variable N : Host.

(** ToString of [wallet_object.get(key)] *)
Definition tree_to_string (t : option tree) : string :=
  match t with
  | None => "undefined"
  | Some TNull => "null"
  | Some (TBool true) => "true"
  | Some (TBool false) => "false"
  | Some (TStr s) => s
  | Some t => ToString N t
  end.

(** [a == b] *)
Definition loose_eq_val (a b : jsval) : bool :=
  match a, b with
  | JText x, JText y => loose_eq x y
  | JBool x, JBool y => Bool.eqb x y
  | JStr s, JBool b | JBool b, JStr s => string_equals_bool N s b
  | _, _ => false
  end.

(** [new WalletStorage(storage)]: the container and the connection it
    opens. Fields that the constructor leaves unassigned read [undefined]. *)
Definition constructor (storage : gmap string jsval) : container * list session_event :=
  let remote_url := sget "remote_url" storage in
  if truthy remote_url then
    ({| wallet_object := []; storage := storage; private_key := None;
        remote_status := Undefined; local_status := Null; notify := false;
        api := true; instance := ws_instance N remote_url |},
     [EConnect remote_url])
  else
    ({| wallet_object := []; storage := storage; private_key := None;
        remote_status := Undefined; local_status := Null; notify := false;
        api := false; instance := "undefined" |},
     []).

(** [sync(private_key = this.private_key)] *)
Definition sync (private_key : option PrivateKey) : Session (settled value) :=
  c ← lift get;
  match private_key with
  | None => mret (Fulfilled VUndefined)
  | Some private_key =>
      (* Wallet is locked OR it is an offline wallet *)
      if negb (api c) then mret (Fulfilled VUndefined)
      else
        let public_key := toPublicKey private_key in
        if noSubscriptionId N "fetchWallet" (publicKeyString public_key) then
          (* Create subscription .. `resolve` is for the server wallet's callback *)
          promised (
            local_hash ← lift localHash;
            perform (EFetchWallet public_key local_hash);;
            server_wallet ← lift (await (api_fetchWallet N public_key local_hash));
            p ← lift (fetchWalletCallback T server_wallet private_key);
            lift (await p))
        else
          lift (assert (negb (noSubscriptionId N "fetchWallet" (publicKeyString public_key)))
                  "Subscription required");;
          lift (assert (regex_test ["No Content"; "Not Modified"]
                          (text_to_string (remote_status c)))
                  ("Expecting No Content or Not Modified, got "
                   +:+ text_to_string (remote_status c)));;
          if bool_decide (remote_status c = Text "Not Modified")
             && strict_eq (sget "remote_copy" (storage c)) (JBool false)
          then lift (deleteRemoteWallet T private_key (HashValue JUndefined))
          else lift (updateWallet T (Some private_key))
  end.

(** [useBackupServer(remote_url = this.storage.state.get("remote_url"))] *)
Definition useBackupServer (remote_url : jsval) : Session (settled value) :=
  c ← lift get;
  let remote_url := match remote_url with
                    | JUndefined => sget "remote_url" (storage c)
                    | _ => remote_url
                    end in
  (* close (if applicable) *)
  p ← (if api c then perform EClose;; mret (Some (ws_close N)) else mret None);
  (if negb (nullish remote_url) then
     perform (EConnect remote_url);;
     lift (modify (set_connection true (ws_instance N remote_url)))
   else lift (modify (set_connection false "null")));;
  (if negb (loose_eq_val remote_url (sget "remote_url" (storage c))) then
     lift (modify (set_notify true));;
     lift (storage_setState [("remote_url", remote_url)])
   else mret tt);;
  lift (notifyResolve p).

(** [keepRemoteCopy(remote_copy = true,
                    remote_token = this.storage.state.get("remote_token"))] *)
Definition keepRemoteCopy (remote_copy remote_token : jsval) : Session (settled value) :=
  c ← lift get;
  let remote_copy := match remote_copy with
                     | JUndefined => JBool true
                     | _ => remote_copy
                     end in
  let remote_token := match remote_token with
                      | JUndefined => sget "remote_token" (storage c)
                      | _ => remote_token
                      end in
  if strict_eq remote_copy (sget "remote_copy" (storage c))
     && strict_eq remote_token (sget "remote_token" (storage c))
  then mret (Fulfilled VUndefined)
  else
    (if strict_eq remote_copy (JBool true) && negb (truthy (sget "remote_url" (storage c)))
     then lift (throw (Error (instance c
                              +:+ ":configuration_error, remote_copy without remote_url")))
     else mret tt);;
    (if strict_eq remote_copy (JBool true) && negb (bool_decide (is_Some (private_key c)))
     then
       let weak_password := wget "weak_password" (wallet_object c) in
       lift (assert (negb (tree_truthy weak_password))
               "Remote copies are enabled, but an email or username is missing from this wallet's encryption key.")
     else mret tt);;
    lift (modify (set_notify true));;
    let state :=
      ((if negb (strict_eq remote_copy JNull) then [("remote_copy", remote_copy)] else [])
       ++ (if negb (strict_eq remote_token JNull) then [("remote_token", remote_token)] else []))%list in
    lift (storage_setState state);;
    c ← lift get;
    p ← sync (private_key c);
    lift (notifyResolve (Some p)).

(** The seed of the key: [email.trim().toLowerCase() + "\t" +
    username.trim().toLowerCase() + "\t" + password] *)
Definition key_seed (email_trim username_trim : string) (password : jsval) : string :=
  toLowerCase email_trim +:+ tab +:+ toLowerCase username_trim +:+ tab +:+ to_string password.

(** The error of a login whose chain id is not the wallet's. *)
Definition chain_mismatch (wallet_chain_id : option tree) (chain_id : jsval) : error :=
  Error ("Missmatched chain id, wallet has " +:+ tree_to_string wallet_chain_id
         +:+ " but login is expecting " +:+ to_string chain_id).

(** [login(email, username, password, chain_id = null)]; [now] is
    [new Date().toISOString()]. *)
Definition login (now : string) (email username password chain_id : jsval)
  : Session (settled value) :=
  let chain_id := match chain_id with
                  | JUndefined => JNull
                  | _ => chain_id
                  end in
  lift (req email "email");;
  lift (req username "username");;
  lift (req password "password");;
  email_trim ← lift (js_trim email);
  username_trim ← lift (js_trim username);
  let private_key := fromSeed (key_seed email_trim username_trim password) in
  lift (modify (set_notify true));;
  (* if there is a local wallet, get it ready first *)
  c ← lift get;
  let encrypted_wallet := sget "encrypted_wallet" (storage c) in
  if truthy encrypted_wallet then
    (* Setup wallet_object so sync will have something too look at *)
    backup_buffer ← lift (new_Buffer encrypted_wallet);
    perform (Effect (EDecrypt backup_buffer private_key));;
    promised (
      match decrypt backup_buffer private_key with
      | None => lift (throw DecryptError)
      | Some wallet_object' =>
          (if truthy chain_id
              && negb (tree_strict_eq chain_id (wget "chain_id" wallet_object'))
           then lift (throw (chain_mismatch (wget "chain_id" wallet_object') chain_id))
           else mret tt);;
          (* A merge is a bit safer incase the user updated the wallet before
             this login completes *)
          lift (modify (fun c => set_wallet_object
                                   (mergeDeep (wallet_object c) wallet_object') c));;
          lift (modify (set_private_key (Some private_key)));;
          lift (modify (set_notify true));;
          p ← sync (Some private_key);
          p ← lift (notifyResolve (Some p));
          lift (await p)
      end)
  else
    (* New wallet locally, weak && remote check *)
    let weak_password := String.eqb email_trim "" || String.eqb username_trim "" in
    lift (assert (negb weak_password || negb (truthy (sget "remote_copy" (storage c))))
            "Remote copies are enabled, but an email or username is missing from this wallet's encryption key.");;
    let dt := now in
    let init : Session unit :=
      (* Provide default values (don't over-write) *)
      let defaults := [("chain_id", match chain_id with
                                    | JBool b => TBool b
                                    | JStr s => TStr s
                                    | _ => TNull
                                    end);
                       ("created", TStr dt);
                       ("last_modified", TStr dt);
                       ("weak_password", TBool weak_password)] in
      lift (modify (fun c => set_wallet_object (wmerge defaults (wallet_object c)) c)) in
    let prePopulated := negb (wempty (wallet_object c)) in
    if prePopulated then
      init;;
      p ← lift (updateWallet T (Some private_key));
      promised (
        lift (await p);;
        p ← sync (Some private_key);
        lift (await p);;
        lift (modify (set_private_key (Some private_key)));;
        p ← lift (notifyResolve None);
        lift (await p))
    else
      (if wempty (wallet_object c) then init else mret tt);;
      p ← sync (Some private_key);
      promised (
        lift (await p);;
        c ← lift get;
        (* Need a chain_id from somewhere *)
        (if negb (whas "chain_id" (wallet_object c)) then
           lift (assert (truthy chain_id) "Chain ID is required on first login")
         else mret tt);;
        (if truthy chain_id && whas "chain_id" (wallet_object c) then
           if negb (tree_strict_eq chain_id (wget "chain_id" (wallet_object c))) then
             lift (throw (chain_mismatch (wget "chain_id" (wallet_object c)) chain_id))
           else mret tt
         else mret tt);;
        lift (modify (set_private_key (Some private_key)));;
        p ← lift (notifyResolve None);
        lift (await p)).

(** [logout()] *)
Definition logout : Session (settled value) :=
  c ← lift get;
  lift (modify (set_wallet_object []));;
  lift (modify (set_remote_status Null));;
  (* capture the public key first: *)
  let public_key := option_map toPublicKey (private_key c) in
  lift (modify (set_private_key None));;
  unsub ← match public_key with
          | Some public_key =>
              if api c && hasSubscriptionId T "fetchWallet" (publicKeyString public_key) then
                perform (Effect (EUnsubscribe public_key));;
                mret (api_fetchWalletUnsubscribe T public_key)
              else mret (Fulfilled tt)
          | None => mret (Fulfilled tt)
          end;
  p ← promised (
        lift (await unsub);;
        (* useBackupServer() will close the connection (this does not change
           the configuration) *)
        p ← useBackupServer JUndefined;
        lift (await p));
  lift (notifyResolve (Some p)).

(** [verifyPassword(email, username, password)] *)
Definition verifyPassword (email username password : jsval) : M (answer bool) :=
  c ← get;
  match private_key c with
  | None => mret (RejectedString "Wallet is locked")
  | Some this_private_key =>
      req email "email";;
      req username "username";;
      req password "password";;
      email_trim ← js_trim email;
      username_trim ← js_trim username;
      let private_key := fromSeed (key_seed email_trim username_trim password) in
      mret (Answer (String.eqb (toWif N private_key) (toWif N this_private_key)))
  end.

(** [getState()] *)
Definition getState : Session (answer (settled value)) :=
  c ← lift get;
  match private_key c with
  | None => mret (RejectedString "Wallet is locked")
  | Some _ =>
      p ← sync (private_key c);
      p ← promised (lift (await p);; c ← lift get; mret (VWallet (wallet_object c)));
      p ← lift (notifyResolve (Some p));
      mret (Answer p)
  end.

(** ** Vocabulary of the statements about the session *)

(** A computation that keeps a property of the container. *)
Definition preserves {A} (P : container -> Prop) (m : M A) : Prop :=
  forall c, P c -> P (m c).1.2.

(** A computation all of whose effects are of one kind. *)
Definition emits_only {A} (Q : event -> Prop) (m : M A) : Prop :=
  forall c, Forall Q (m c).2.

(** A call to the server that writes the wallet there. *)
Definition server_write (e : event) : bool :=
  match e with
  | ECreateWallet _ _ _ | ESaveWallet _ _ _ => true
  | _ => false
  end.


(** A write to the storage state. *)
Definition is_store (e : event) : bool :=
  match e with
  | EStore _ => true
  | _ => false
  end.

(** The storage state that the writes of a trace make of [s], one after the
    other. *)
Fixpoint replay (trace : list event) (s : gmap string jsval) : gmap string jsval :=
  match trace with
  | [] => s
  | EStore partial :: trace' => replay trace' (storage_merge partial s)
  | _ :: trace' => replay trace' s
  end.

(** A computation that changes the storage state by the writes of its trace
    and in no other way. *)
Definition replays {A} (m : M A) : Prop :=
  forall c, storage (m c).1.2 = replay (m c).2 (storage c).

(** A computation that, when it throws, has not written to the storage
    state. *)
Definition throws_unwritten {A} (m : M A) : Prop :=
  forall c e, (m c).1.1 = Err e -> Forall (fun e => is_store e = false) (m c).2.

(** A computation that does not throw. *)
Definition returns {A} (m : M A) : Prop :=
  forall c, exists a, (m c).1.1 = Ok a.

(** What [updateWallet] leaves behind once the ciphertext is saved locally. *)
Definition saved_locally (key : PrivateKey) (c : container) : container :=
  set_notify true
    (set_local_status Null
       (set_storage (<["encrypted_wallet" :=
                         JStr (toBase64String (encrypt (wallet_object c) (toPublicKey key)))]>
                       (storage c)) c)).

(** The key and the connection are the same. *)
Definition same_connection (c c' : container) : Prop :=
  private_key c' = private_key c /\ api c' = api c /\ instance c' = instance c.

(** The ciphertext of [w] for [k] is persisted, and the statuses say so. *)
Definition locally_saved (w : wmap) (k : PublicKey) (c : container) : Prop :=
  storage c !! "encrypted_wallet" = Some (JStr (toBase64String (encrypt w k)))
  /\ local_status c = Null /\ notify c = true.

(** The status text the fetch handler goes by: the one it received, or the
    one it fills in. *)
Definition fetch_status_text (s : gmap string jsval) (sw : server_wallet) : jtext :=
  if text_truthy (statusText sw) then statusText sw else Text (synthesized_status s sw).

(** The container once the fetch handler has persisted the server hash and
    taken the status over, *)
Definition fetched (sw : server_wallet) (c : container) : container :=
  let status := fetch_status_text (storage c) sw in
  let c1 := set_storage (storage_merge [("remote_hash", JText (local_hash sw))] (storage c)) c in
  if loose_eq (remote_status c) status then c1
  else set_notify true (set_remote_status status c1).

(** and its effects up to there. *)
Definition fetch_trace (sw : server_wallet) (c : container) : list event :=
  EStore [("remote_hash", JText (local_hash sw))]
  :: (if text_truthy (statusText sw) then []
      else [EStatusText (synthesized_status (storage c) sw)]).

(** What [saveServerWallet] leaves behind. *)
Definition pulled (sw : server_wallet) (w : wmap) (c : container) : container :=
  set_notify true
    (set_local_status Null
       (set_wallet_object w
          (set_storage
             (storage_merge [("remote_token", JNull);
                             ("remote_hash", JText (local_hash sw));
                             ("encrypted_wallet", JText (encrypted_data sw));
                             ("remote_updated_date", JText (updated sw));
                             ("remote_created_date", JText (created sw))]
                            (storage c)) c))).

(** The state object that [keepRemoteCopy] hands to the state store. *)
Definition remote_configuration (remote_copy remote_token : jsval) : list (string * jsval) :=
  ((if negb (strict_eq remote_copy JNull) then [("remote_copy", remote_copy)] else [])
   ++ (if negb (strict_eq remote_token JNull) then [("remote_token", remote_token)] else []))%list.

(** A parameter whose default is the persisted value of a field. *)
Definition or_stored (field : string) (c : container) (v : jsval) : jsval :=
  match v with
  | JUndefined => sget field (storage c)
  | _ => v
  end.

(** How many times the subscribers were called. *)
Fixpoint notifications (trace : list session_event) : nat :=
  match trace with
  | [] => 0
  | Effect ENotify :: trace' => 1 + notifications trace'
  | _ :: trace' => notifications trace'
  end.

End Session.

(** ** A small instance of the collaborators, to run the model on *)

(** The two string methods on strings whose UTF-16 code units are all below
    256, one character of the string per code unit. Of the white space that
    [trim] strips (tab, line feed, vertical tab, form feed, carriage return,
    space, no-break space and, from U+1680 on, the other Unicode spaces),
    those below 256 are the code units 9 to 13, 32 and 160. The letters below
    256 that have a lower case are A to Z and U+00C0 to U+00DE except the
    multiplication sign U+00D7; each one's lower case is 32 further on. *)
Module Latin1.

Definition spaces : list ascii := map ascii_of_nat [9; 10; 11; 12; 13; 32; 160]%nat.

(** The no-break space, U+00A0. *)
Definition nbsp : string := String (ascii_of_nat 160) EmptyString.

Definition is_space (c : ascii) : bool := existsb (Ascii.eqb c) spaces.

Fixpoint trim_start (s : string) : string :=
  match s with
  | EmptyString => EmptyString
  | String c s' => if is_space c then trim_start s' else s
  end.

Fixpoint trim_end (s : string) : string :=
  match s with
  | EmptyString => EmptyString
  | String c s' =>
      match trim_end s' with
      | EmptyString => if is_space c then EmptyString else String c EmptyString
      | t => String c t
      end
  end.

Definition trim (s : string) : string := trim_end (trim_start s).

(** The letters that have a lower case, each with it. *)
Definition cased : list (ascii * ascii) :=
  map (fun n => (ascii_of_nat n, ascii_of_nat (n + 32)))
      (seq 65 26 ++ seq 192 23 ++ seq 216 7)%list.

Definition lower_char (c : ascii) : ascii :=
  match find (fun letter => Ascii.eqb c (fst letter)) cased with
  | Some letter => snd letter
  | None => c
  end.

Fixpoint toLowerCase (s : string) : string :=
  match s with
  | EmptyString => EmptyString
  | String c s' => String (lower_char c) (toLowerCase s')
  end.

End Latin1.

Module Toy.

(** Keys are their seeds, a signature shows what was signed and by whom, the
    hash marks its input, base64 reads bytes as characters, and a ciphertext
    names the key it was made for, with a star for each entry it holds. *)
Definition crypto : Crypto := {|
  PrivateKey := string;
  PublicKey := string;
  Signature := bytes * string;
  fromSeed := fun seed => seed;
  toPublicKey := fun k => "pub:" +:+ k;
  publicKeyString := fun k => k;
  encrypt := fun w k => (list_byte_of_string k ++ map (fun _ => Byte.x2a) w)%list;
  decrypt := fun _ _ => None;
  sha256 := fun b => (Byte.x23 :: b);
  signBufferSha256 := fun b k => (b, k);
  toBase64String := string_of_list_byte;
  fromBase64String := list_byte_of_string;
  trim := Latin1.trim;
  toLowerCase := Latin1.toLowerCase;
  trim_empty := eq_refl;
  toLowerCase_empty := eq_refl;
|}.

(** A transport without subscriptions whose change-password reply is given
    and whose other requests fail. *)
Definition transport (reply : settled server_wallet) : @Transport crypto := {|
  api_createWallet := fun _ _ _ => RejectedWith (TransportError "offline");
  api_saveWallet := fun _ _ _ => RejectedWith (TransportError "offline");
  api_deleteWallet := fun _ _ => Fulfilled tt;
  api_changePassword := fun _ _ _ _ => reply;
  api_fetchWalletUnsubscribe := fun _ => Fulfilled tt;
  hasSubscriptionId := fun _ _ => false;
|}.

Definition offline : @Transport crypto := transport (RejectedWith (TransportError "offline")).

Definition seed (s : string) : @PrivateKey crypto := @fromSeed crypto s.

Definition public (k : @PrivateKey crypto) : @PublicKey crypto := @toPublicKey crypto k.

Definition key : @PrivateKey crypto := seed ("a@x" +:+ tab +:+ "alice" +:+ tab +:+ "pw").

Definition hash_of (encrypted_wallet : string) : bytes :=
  @sha256 crypto (@fromBase64String crypto encrypted_wallet).

Definition sign (h : bytes) (k : @PrivateKey crypto) : @Signature crypto :=
  @signBufferSha256 crypto h k.

Definition now : string := "2016-02-01T00:00:00.000Z".

(** What the server sends: a status text and a hash. *)
Definition reply (status hash : jtext) : server_wallet :=
  {| statusText := status; local_hash := hash; encrypted_data := Undefined;
     created := Undefined; updated := Text "2016-03-01T00:00:00.000Z" |}.

(** A wallet created by a login. *)
Definition wallet : wmap :=
  [("chain_id", TStr "chainA"); ("created", TStr "2016-01-01T00:00:00.000Z");
   ("last_modified", TStr "2016-01-01T00:00:00.000Z"); ("weak_password", TBool false)].

(** An unlocked container with transport, whose local ciphertext is ["X"],
    with the given [remote_copy] and [remote_hash]. *)
Definition unlocked (remote_copy remote_hash : jsval) : @container crypto := {|
  wallet_object := wallet;
  storage := storage_merge [("encrypted_wallet", JStr "X");
                            ("remote_copy", remote_copy);
                            ("remote_hash", remote_hash)] ∅;
  private_key := Some key;
  remote_status := Text "Not Modified";
  local_status := Null;
  notify := false;
  api := true;
  instance := "1";
|}.

(** The same container after [logout]. *)
Definition locked : @container crypto := {|
  wallet_object := [];
  storage := storage_merge [("encrypted_wallet", JStr "X")] ∅;
  private_key := None;
  remote_status := Null;
  local_status := Null;
  notify := false;
  api := true;
  instance := "1";
|}.

End Toy.

(** ** A second instance, with a decryption and a server that answer *)

Module Demo.

(** The wallet of the examples once a field has been added to it. *)
Definition edited : wmap :=
  [("chain_id", TStr "chainA"); ("created", TStr "2016-01-01T00:00:00.000Z");
   ("last_modified", TStr Toy.now); ("weak_password", TBool false); ("k", TNum 1)].

(** As [Toy.crypto], with a decryption that knows the wallets of the
    examples: it gives back the one whose ciphertext for the key it is
    handed. *)
Definition crypto : Crypto := {|
  PrivateKey := string;
  PublicKey := string;
  Signature := bytes * string;
  fromSeed := fun seed => seed;
  toPublicKey := fun k => "pub:" +:+ k;
  publicKeyString := fun k => k;
  encrypt := fun w k => (list_byte_of_string k ++ map (fun _ => Byte.x2a) w)%list;
  decrypt := fun data k =>
    List.find (fun w : wmap =>
                 String.eqb (string_of_list_byte data)
                            ("pub:" +:+ k +:+ string_of_list_byte (map (fun _ => Byte.x2a) w)))
              [Toy.wallet; edited];
  sha256 := fun b => (Byte.x23 :: b);
  signBufferSha256 := fun b k => (b, k);
  toBase64String := string_of_list_byte;
  fromBase64String := list_byte_of_string;
  trim := Latin1.trim;
  toLowerCase := Latin1.toLowerCase;
  trim_empty := eq_refl;
  toLowerCase_empty := eq_refl;
|}.

Definition date : string := "2016-03-01T00:00:00.000Z".

(** What a server that accepts a ciphertext answers, with the given status
    text. *)
Definition acknowledged (status : string) (data : bytes) : server_wallet :=
  {| statusText := Text status;
     local_hash := Text (@toBase64String crypto (@sha256 crypto data));
     encrypted_data := Undefined; created := Text date; updated := Text date |}.

(** A transport whose server creates what it is sent, answers a save with
    the given status text and a password change with the given reply. *)
Definition transport (save_status : string) (change : settled server_wallet)
    (subscribed : bool) : @Transport crypto := {|
  api_createWallet := fun _ data _ => Fulfilled (acknowledged "OK" data);
  api_saveWallet := fun _ data _ => Fulfilled (acknowledged save_status data);
  api_deleteWallet := fun _ _ => Fulfilled tt;
  api_changePassword := fun _ _ _ _ => change;
  api_fetchWalletUnsubscribe := fun _ => Fulfilled tt;
  hasSubscriptionId := fun _ _ => subscribed;
|}.

Definition server : @Transport crypto :=
  transport "OK" (RejectedWith (TransportError "closed")) true.

Definition wif (k : @PrivateKey crypto) : string := "wif:" +:+ (k : string).

(** The rest of the collaborators: the answer to the first fetch is given. *)
Definition host (fetch : settled server_wallet) (subscribed : bool) : @Host crypto := {|
  toWif := wif;
  noSubscriptionId := fun _ _ => negb subscribed;
  api_fetchWallet := fun _ _ => fetch;
  ws_close := Fulfilled VUndefined;
  ws_instance := fun _ => "2";
  ToString := fun _ => "[object Object]";
  string_equals_bool := fun _ _ => false;
|}.

Definition offline : @Host crypto := host (RejectedWith (TransportError "closed")) false.

Definition key : @PrivateKey crypto :=
  @fromSeed crypto ("a@x" +:+ tab +:+ "alice" +:+ tab +:+ "pw").

(** The ciphertext of the wallet of the examples, in base64. *)
Definition ciphertext : string := "pub:a@x" +:+ tab +:+ "alice" +:+ tab +:+ "pw****".

(** What the server holds of it. *)
Definition remote : server_wallet :=
  {| statusText := Text "OK"; local_hash := Text ("#" +:+ ciphertext);
     encrypted_data := Text ciphertext; created := Text date; updated := Text date |}.

(** An unlocked container that holds the wallet of the examples and its
    ciphertext, with more fields in the storage state. *)
Definition unlocked (fields : list (string * jsval)) (status : jtext) (online : bool)
  : @container crypto := {|
  wallet_object := Toy.wallet;
  storage := storage_merge (("encrypted_wallet", JStr ciphertext) :: fields) ∅;
  private_key := Some key;
  remote_status := status;
  local_status := Null;
  notify := false;
  api := online;
  instance := "1";
|}.

(** A container before the first login. *)
Definition fresh (fields : list (string * jsval)) (online : bool) : @container crypto := {|
  wallet_object := [];
  storage := storage_merge fields ∅;
  private_key := None;
  remote_status := Undefined;
  local_status := Null;
  notify := false;
  api := online;
  instance := "1";
|}.

End Demo.

(** * Properties *)

(** Unfolds the plumbing of computations. *)
Ltac run :=
  unfold mbind, M_bind, mret, M_ret, get, modify, emit, throw, assert, promise, await;
  cbn beta iota.

Section Properties.

Context `{Crypto}.
Variable T : Transport.

(** ** Running a computation step by step *)

Lemma bind_run {A B} (m : M A) (f : A -> M B) c a c1 t1 r c2 t2 :
  m c = (Ok a, c1, t1) ->
  f a c1 = (r, c2, t2) ->
  (m ≫= f) c = (r, c2, (t1 ++ t2)%list).
Proof. intros Hm Hf. unfold mbind, M_bind. rewrite Hm, Hf. reflexivity. Qed.

Lemma bind_run_err {A B} (m : M A) (f : A -> M B) c e c1 t1 :
  m c = (Err e, c1, t1) -> (m ≫= f) c = (Err e, c1, t1).
Proof. intros Hm. unfold mbind, M_bind. rewrite Hm. reflexivity. Qed.

Lemma run_eta {A} (x : result A * container * list event) : x = (x.1.1, x.1.2, x.2).
Proof. destruct x as [[? ?] ?]. reflexivity. Qed.

Lemma promise_run {A} (m : M A) c r c1 t1 :
  m c = (r, c1, t1) ->
  promise m c =
    (Ok (match r with Ok a => Fulfilled a | Err e => RejectedWith e end), c1, t1).
Proof. intros Hm. unfold promise. rewrite Hm. destruct r; reflexivity. Qed.

(** One step of a sequence whose first computation runs by evaluation. *)
Ltac mstep := eapply bind_run; [reflexivity|cbn beta].

(** ** Values and the storage state *)

Lemma text_truthy_Text (t : jtext) :
  text_truthy t = true -> exists s, t = Text s /\ s <> "".
Proof.
  destruct t as [| |s]; try discriminate. cbn. intros Hs. exists s. split; [reflexivity|].
  apply String.eqb_neq. apply negb_true_iff in Hs. exact Hs.
Qed.

Lemma sget_insert_ne (s : gmap string jsval) (k k' : string) (v : jsval) :
  k <> k' -> sget k' (<[k := v]> s) = sget k' s.
Proof. intros Hk. unfold sget. rewrite lookup_insert_ne by exact Hk. reflexivity. Qed.

(** After [setState({k: v})] the state store answers [v] for [k]. *)
Lemma sget_storage_merge (s : gmap string jsval) (k : string) (v : jsval) :
  sget k (storage_merge [(k, v)] s) = v.
Proof.
  unfold sget, storage_merge. cbn.
  destruct v as [b|[| |t]]; by simplify_map_eq.
Qed.

Lemma wget_wset (k : string) (v : tree) (m : wmap) : wget k (wset k v m) = Some v.
Proof.
  unfold wset. induction m as [|[k' e] m IH]; cbn.
  - rewrite String.eqb_refl. reflexivity.
  - destruct (String.eqb k k') eqn:Hk; cbn; rewrite Hk; [reflexivity|exact IH].
Qed.

(** ** [localHash] *)

Lemma localHash_typed (c : container) (h : bytes) :
  local_ciphertext_hash (storage c) = Some h ->
  localHash c = (Ok (Some h), c, []).
Proof.
  unfold local_ciphertext_hash, localHash, sget. run.
  destruct (storage c !! "encrypted_wallet") as [[b|[| |ew]]|]; try discriminate.
  cbn. destruct (String.eqb ew ""); [discriminate|].
  intros [= <-]. reflexivity.
Qed.

Lemma local_ciphertext_hash_insert (s : gmap string jsval) (b : bytes) :
  fromBase64String (toBase64String b) = b ->
  toBase64String b <> "" ->
  s !! "encrypted_wallet" = Some (JStr (toBase64String b)) ->
  local_ciphertext_hash s = Some (sha256 b).
Proof.
  intros Hround Hne Hs. apply String.eqb_neq in Hne.
  unfold local_ciphertext_hash. rewrite Hs, Hne, Hround. reflexivity.
Qed.

(** ** The deep merge *)

(** Induction on trees that reaches the values of an object. *)
Lemma tree_values_ind (P : tree -> Prop) :
  P TNull -> (forall b, P (TBool b)) -> (forall n, P (TNum n)) -> (forall s, P (TStr s)) ->
  (forall l, P (TList l)) ->
  (forall m, Forall (fun kv => P (snd kv)) m -> P (TMap m)) ->
  forall t, P t.
Proof.
  intros HNull HBool HNum HStr HList HMap.
  fix IH 1. intros [| b | n | s | l | m].
  - exact HNull.
  - apply HBool.
  - apply HNum.
  - apply HStr.
  - apply HList.
  - apply HMap. induction m as [|[k v] m IHm]; constructor.
    + apply IH.
    + exact IHm.
Qed.

Lemma distinct_keys_map_cons k v m :
  distinct_keys_map ((k, v) :: m) <->
  (k ∉ map fst m) /\ distinct_keys v /\ distinct_keys_map m.
Proof.
  unfold distinct_keys_map. cbn. rewrite NoDup_cons. tauto.
Qed.

Lemma deepMerger_map ma mb : deepMerger (TMap ma) (TMap mb) = TMap (mergeDeep ma mb).
Proof.
  cbn. f_equal. unfold mergeDeep. revert ma.
  induction mb as [|[k x] mb IH]; intros ma; [reflexivity|]. cbn. apply IH.
Qed.

Lemma wget_wupdate_eq k f v m :
  wget k (wupdate k f v m) = Some (match wget k m with Some e => f e | None => v end).
Proof.
  induction m as [|[k' e] m IH]; cbn.
  - rewrite String.eqb_refl. reflexivity.
  - destruct (String.eqb k k') eqn:Hk; cbn; rewrite Hk; [reflexivity|exact IH].
Qed.

Lemma wget_wupdate_ne k k' f v m :
  k <> k' -> wget k' (wupdate k f v m) = wget k' m.
Proof.
  intros Hne. induction m as [|[k0 e] m IH]; cbn.
  - apply String.eqb_neq in Hne. rewrite String.eqb_sym, Hne. reflexivity.
  - destruct (String.eqb k k0) eqn:Hk; cbn.
    + apply String.eqb_eq in Hk. subst k0.
      apply String.eqb_neq in Hne. rewrite String.eqb_sym, Hne. reflexivity.
    + destruct (String.eqb k' k0); [reflexivity|exact IH].
Qed.

Lemma wupdate_fixed k f v m e :
  wget k m = Some e -> f e = e -> wupdate k f v m = m.
Proof.
  induction m as [|[k' e'] m IH]; cbn; [discriminate|].
  destruct (String.eqb k k') eqn:Hk.
  - intros [= ->] ->. reflexivity.
  - intros Hget Hf. rewrite IH by assumption. reflexivity.
Qed.

Lemma mergeDeep_absorbed m x : absorbs m x -> mergeDeep m x = m.
Proof.
  unfold absorbs, mergeDeep. induction x as [|[k v] x IH]; intros Hx; [reflexivity|].
  apply Forall_cons in Hx as [(e & Hget & He) Hx]. cbn in *.
  rewrite (wupdate_fixed _ _ _ _ e) by assumption. apply IH, Hx.
Qed.

Lemma wget_mergeDeep_ne k m x :
  k ∉ map fst x -> wget k (mergeDeep m x) = wget k m.
Proof.
  unfold mergeDeep. revert m. induction x as [|[k' v] x IH]; intros m Hk; [reflexivity|].
  cbn in *. apply not_elem_of_cons in Hk as [Hne Hk].
  rewrite IH by exact Hk. apply wget_wupdate_ne. congruence.
Qed.

(** Merging a tree into the result of merging it changes nothing, and so does
    merging a tree into itself. *)
Lemma deepMerger_absorbed v :
  distinct_keys v ->
  (forall e, deepMerger (deepMerger e v) v = deepMerger e v) /\ deepMerger v v = v.
Proof.
  induction v as [| b | n | s | l | mb IH] using tree_values_ind; intros Hwf;
    try (split; [intros e; destruct e|]; reflexivity).
  fold (distinct_keys_map mb) in Hwf.
  (* every object absorbs [mb] once [mb] has been merged into it *)
  assert (Hmerged : forall ma, absorbs (mergeDeep ma mb) mb).
  { clear -IH Hwf. unfold absorbs.
    induction mb as [|[k v] mb IHmb]; intros ma; [constructor|].
    apply distinct_keys_map_cons in Hwf as (Hk & Hv & Hmb).
    apply Forall_cons in IH as [IHv IH]. cbn [snd] in IHv.
    destruct (IHv Hv) as [Hagain Hself].
    constructor.
    - cbn [fst snd]. unfold mergeDeep. cbn [fold_left fst snd].
      fold (mergeDeep (wupdate k (fun e => deepMerger e v) v ma) mb).
      rewrite wget_mergeDeep_ne by exact Hk. rewrite wget_wupdate_eq.
      eexists. split; [reflexivity|].
      destruct (wget k ma); [apply Hagain|exact Hself].
    - unfold mergeDeep. cbn [fold_left fst snd]. apply IHmb; assumption. }
  (* an object with distinct keys absorbs itself *)
  assert (Hself : absorbs mb mb).
  { clear -IH Hwf. unfold absorbs.
    enough (forall pre, (forall k, k ∈ map fst mb -> k ∉ map fst pre) ->
              Forall (fun kv => exists e, wget (fst kv) (pre ++ mb) = Some e
                                          /\ deepMerger e (snd kv) = e) mb) as Hgen.
    { apply (Hgen []). intros k _ Hin. by apply elem_of_nil in Hin. }
    induction mb as [|[k v] mb IHmb]; intros pre Hpre; [constructor|].
    apply distinct_keys_map_cons in Hwf as (Hk & Hv & Hmb).
    apply Forall_cons in IH as [IHv IH]. cbn [snd] in IHv.
    constructor.
    - cbn [fst snd]. exists v. split; [|apply IHv, Hv].
      assert (Hnot : k ∉ map fst pre) by (apply Hpre, list_elem_of_here).
      clear -Hnot. induction pre as [|[k' e] pre IHpre]; cbn.
      + rewrite String.eqb_refl. reflexivity.
      + cbn in Hnot. apply not_elem_of_cons in Hnot as [Hne Hnot].
        apply String.eqb_neq in Hne. rewrite Hne. apply IHpre, Hnot.
    - replace (pre ++ (k, v) :: mb)%list with ((pre ++ [(k, v)]) ++ mb)%list
        by (rewrite <- app_assoc; reflexivity).
      apply IHmb; [assumption..|].
      intros k' Hk' Hin. rewrite map_app in Hin. apply elem_of_app in Hin as [Hin|Hin].
      + revert Hin. apply Hpre. cbn. apply list_elem_of_further, Hk'.
      + cbn in Hin. apply list_elem_of_singleton in Hin. subst k'. contradiction. }
  split.
  - assert (Hown : deepMerger (TMap mb) (TMap mb) = TMap mb)
      by (rewrite deepMerger_map, mergeDeep_absorbed by exact Hself; reflexivity).
    intros [| b | n | s | l | ma]; try exact Hown.
    rewrite !deepMerger_map. rewrite mergeDeep_absorbed by apply Hmerged. reflexivity.
  - rewrite deepMerger_map, mergeDeep_absorbed by exact Hself. reflexivity.
Qed.

Lemma absorbs_mergeDeep m x : distinct_keys_map x -> absorbs (mergeDeep m x) x.
Proof.
  unfold absorbs. revert m.
  induction x as [|[k v] x IH]; intros m Hwf; [constructor|].
  apply distinct_keys_map_cons in Hwf as (Hk & Hv & Hx).
  destruct (deepMerger_absorbed v Hv) as [Hagain Hself].
  constructor.
  - cbn [fst snd]. unfold mergeDeep. cbn [fold_left fst snd].
    fold (mergeDeep (wupdate k (fun e => deepMerger e v) v m) x).
    rewrite wget_mergeDeep_ne by exact Hk. rewrite wget_wupdate_eq.
    eexists. split; [reflexivity|].
    destruct (wget k m); [apply Hagain|exact Hself].
  - unfold mergeDeep. cbn [fold_left fst snd]. apply IH, Hx.
Qed.

(** The deep merge is idempotent. *)
Lemma mergeDeep_idempotent m x :
  distinct_keys_map x -> mergeDeep (mergeDeep m x) x = mergeDeep m x.
Proof. intros Hwf. apply mergeDeep_absorbed, absorbs_mergeDeep, Hwf. Qed.

Lemma absorbs_wset k t m x :
  k ∉ map fst x -> absorbs m x -> absorbs (wset k t m) x.
Proof.
  unfold absorbs. induction x as [|[k' v] x IH]; intros Hk Hx; [constructor|].
  cbn in Hk. apply not_elem_of_cons in Hk as [Hne Hk].
  apply Forall_cons in Hx as [(e & Hget & He) Hx].
  constructor; [|apply IH; assumption].
  exists e. split; [|exact He]. cbn [fst]. unfold wset.
  rewrite wget_wupdate_ne by exact Hne. exact Hget.
Qed.

Lemma whas_wupdate k k' f v m : whas k m = true -> whas k (wupdate k' f v m) = true.
Proof.
  unfold whas. destruct (String.eqb_spec k' k) as [->|Hne].
  - rewrite wget_wupdate_eq. reflexivity.
  - rewrite wget_wupdate_ne by exact Hne. trivial.
Qed.

Lemma whas_mergeDeep k m x : whas k m = true -> whas k (mergeDeep m x) = true.
Proof.
  unfold mergeDeep. revert m. induction x as [|[k' v] x IH]; intros m Hm; [exact Hm|].
  cbn. apply IH, whas_wupdate, Hm.
Qed.

(** ** What leaves the wallet object and the key alone *)

Lemma keeps_ret {A} (a : A) : keeps (mret a).
Proof. intros c. split; reflexivity. Qed.

Lemma keeps_throw {A} (e : error) : keeps (throw (A := A) e).
Proof. intros c. split; reflexivity. Qed.

Lemma keeps_get : keeps get.
Proof. intros c. split; reflexivity. Qed.

Lemma keeps_emit (e : event) : keeps (emit e).
Proof. intros c. split; reflexivity. Qed.

Lemma keeps_modify (f : container -> container) :
  (forall c, same_session c (f c)) -> keeps (modify f).
Proof. intros Hf c. apply Hf. Qed.

Lemma keeps_bind {A B} (m : M A) (f : A -> M B) :
  keeps m -> (forall a, keeps (f a)) -> keeps (m ≫= f).
Proof.
  intros Hm Hf c. specialize (Hm c). unfold mbind, M_bind.
  destruct (m c) as [[[a|e] c1] t1]; cbn in *; [|exact Hm].
  specialize (Hf a c1). destruct (f a c1) as [[r c2] t2]. cbn in *.
  destruct Hm as [Hw Hk], Hf as [Hw' Hk']. split; congruence.
Qed.

Lemma keeps_promise {A} (m : M A) : keeps m -> keeps (promise m).
Proof.
  intros Hm c. specialize (Hm c). unfold promise.
  destruct (m c) as [[[a|e] c1] t1]; exact Hm.
Qed.

Lemma keeps_assert (b : bool) (msg : string) : keeps (assert b msg).
Proof. destruct b; [apply keeps_ret|apply keeps_throw]. Qed.

Lemma keeps_await {A} (p : settled A) : keeps (await p).
Proof. destruct p; [apply keeps_ret|apply keeps_throw]. Qed.

Ltac keeps_step :=
  first
    [ apply keeps_bind; [|intros ?]
    | apply keeps_ret | apply keeps_throw | apply keeps_get | apply keeps_emit
    | apply keeps_assert | apply keeps_await | apply keeps_promise
    | apply keeps_modify; intros ?; split; reflexivity
    | match goal with
      | |- keeps (if ?b then _ else _) => destruct b
      | |- keeps (match ?x with _ => _ end) => destruct x
      end ].

Lemma keeps_storage_setState (partial : list (string * jsval)) :
  keeps (storage_setState partial).
Proof. unfold storage_setState. repeat keeps_step. Qed.

Lemma keeps_new_Buffer (v : jsval) : keeps (new_Buffer v).
Proof. unfold new_Buffer. repeat keeps_step. Qed.

Lemma keeps_updateWallet (key : option PrivateKey) : keeps (updateWallet T key).
Proof.
  unfold updateWallet. destruct key as [key|]; [|apply keeps_throw].
  repeat first [apply keeps_storage_setState | apply keeps_new_Buffer | keeps_step].
Qed.

Lemma keeps_notifyResolve (p : option (settled value)) : keeps (notifyResolve p).
Proof. unfold notifyResolve, notifySubscribers. repeat keeps_step. Qed.

(** ** [setState] *)

(** C8. On a locked container (no private key) [setState] throws the
    [wallet_locked] error synchronously and has done nothing before: the
    container (wallet object, statuses, storage state, notify flag) is the
    one it was called on and the trace is empty, so no subscriber was
    notified. *)
Theorem setState_locked (now : string) (x : wmap) (c : container) :
  private_key c = None ->
  setState T now x c = (Err (Error "wallet_locked"), c, []).
Proof.
  intros Hlocked. unfold setState. run. rewrite Hlocked. reflexivity.
Qed.

Lemma setState_same (now : string) (x : wmap) (c : container) :
  is_Some (private_key c) ->
  whas "created" (wallet_object c) = true ->
  mergeDeep (wallet_object c) x = wallet_object c ->
  setState T now x c = (Ok (Fulfilled VUndefined), c, []).
Proof.
  intros [k Hk] Hcreated Hsame. unfold setState. run. rewrite Hk, Hcreated. cbn.
  unfold same_map. rewrite Hsame, bool_decide_eq_true_2 by reflexivity.
  reflexivity.
Qed.

(** C7. On an unlocked, initialized container, when the deep merge of the
    argument into the wallet object gives the wallet object back, [setState]
    does nothing at all: it returns a fulfilled promise, the container is
    unchanged ([last_modified], [local_status], the notify flag) and the
    trace is empty (no notification, no [updateWallet]). So a call whose
    trace holds a notification, the second of two equal calls included, is
    one whose merge changed the tree. *)
Theorem setState_unchanged_noop (now : string) (x : wmap) (c : container) :
  is_Some (private_key c) ->
  whas "created" (wallet_object c) = true ->
  (mergeDeep (wallet_object c) x = wallet_object c ->
   setState T now x c = (Ok (Fulfilled VUndefined), c, []))
  /\ (forall r c' trace,
        setState T now x c = (r, c', trace) ->
        In ENotify trace -> mergeDeep (wallet_object c) x <> wallet_object c).
Proof.
  intros Hkey Hcreated. split.
  - apply setState_same; assumption.
  - intros r c' trace Hrun Hin Hsame.
    rewrite (setState_same now x c Hkey Hcreated Hsame) in Hrun.
    inversion Hrun; subst. destruct Hin.
Qed.

(** What a call of [setState] that changes the tree leaves in the wallet
    object. *)
Lemma setState_changed (now : string) (x : wmap) (c : container) :
  is_Some (private_key c) ->
  whas "created" (wallet_object c) = true ->
  mergeDeep (wallet_object c) x <> wallet_object c ->
  exists r c' trace,
    setState T now x c = (r, c', trace)
    /\ private_key c' = private_key c
    /\ wallet_object c' = wset "last_modified" (TStr now) (mergeDeep (wallet_object c) x).
Proof.
  intros [k Hk] Hcreated Hdiff.
  set (c1 := set_wallet_object
               (wset "last_modified" (TStr now) (mergeDeep (wallet_object c) x))
               (set_wallet_object (mergeDeep (wallet_object c) x)
                  (set_local_status (Text "Pending") (set_notify true c)))).
  enough (exists r c' trace, setState T now x c = (r, c', trace) /\ same_session c1 c')
    as (r & c' & trace & Hrun & Hw & Hk').
  { exists r, c', trace. split; [exact Hrun|]. split; [rewrite Hk'; reflexivity|].
    rewrite Hw. reflexivity. }
  eexists _, _, _. split.
  - unfold setState. mstep. rewrite Hk. mstep. rewrite Hcreated. mstep.
    unfold same_map. rewrite bool_decide_eq_false_2 by congruence.
    mstep. mstep. mstep. mstep. apply run_eta.
  - match goal with
    | |- same_session _ (snd (fst (?m _))) => enough (keeps m) as Hm by exact (Hm c1)
    end.
    repeat first [apply keeps_updateWallet | apply keeps_notifyResolve | keeps_step].
Qed.

(** Of two calls of [setState] with the same argument, one that does not
    name [last_modified] and whose objects have distinct keys, the second
    changes nothing and notifies nobody, whatever the first one did. *)
Theorem setState_twice (now now' : string) (x : wmap) (c : container) :
  is_Some (private_key c) ->
  whas "created" (wallet_object c) = true ->
  distinct_keys_map x ->
  "last_modified" ∉ map fst x ->
  forall r c' trace,
    setState T now x c = (r, c', trace) ->
    setState T now' x c' = (Ok (Fulfilled VUndefined), c', []).
Proof.
  intros Hkey Hcreated Hwf Hlm r c' trace Hrun.
  destruct (decide (mergeDeep (wallet_object c) x = wallet_object c)) as [Hsame|Hdiff].
  - rewrite (setState_same now x c Hkey Hcreated Hsame) in Hrun.
    injection Hrun as <- <- <-. apply setState_same; assumption.
  - destruct (setState_changed now x c Hkey Hcreated Hdiff) as (r0 & c0 & t0 & Hrun0 & Hk & Hw).
    rewrite Hrun in Hrun0. injection Hrun0 as <- <- <-.
    apply setState_same.
    + rewrite Hk. exact Hkey.
    + rewrite Hw. unfold wset. apply whas_wupdate, whas_mergeDeep, Hcreated.
    + rewrite Hw. apply mergeDeep_absorbed, absorbs_wset; [exact Hlm|].
      apply absorbs_mergeDeep, Hwf.
Qed.

(** ** [deleteRemoteWallet] *)

(** C9. [deleteRemoteWallet] signs the hash it is given (the local ciphertext
    hash when it is given none) with the key, calls the transport's
    [deleteWallet] with that hash and signature, and when that succeeds it
    writes [undefined] to [remote_hash], [remote_created_date] and
    [remote_updated_date] and to nothing else: these three fields are gone
    and every other field of the storage state, [encrypted_wallet] among
    them, is as before. *)
Theorem deleteRemoteWallet_clears (key : PrivateKey) (hash : hash_arg)
    (c : container) (h : bytes) :
  api c = true ->
  hash_to_sign (storage c) hash = Some h ->
  api_deleteWallet T h (signBufferSha256 h key) = Fulfilled tt ->
  let cleared := ["remote_hash"; "remote_created_date"; "remote_updated_date"] in
  exists c',
    deleteRemoteWallet T key hash c =
      (Ok (Fulfilled VUndefined), c',
       [EDeleteWallet h (signBufferSha256 h key);
        EStore (map (fun k => (k, JUndefined)) cleared)])
    /\ (forall k, k ∈ cleared -> storage c' !! k = None)
    /\ (forall k, k ∉ cleared -> storage c' !! k = storage c !! k)
    /\ wallet_object c' = wallet_object c
    /\ private_key c' = private_key c.
Proof.
  intros Hapi Hhash Hreply cleared.
  exists (set_storage
            (delete "remote_updated_date"
               (delete "remote_created_date" (delete "remote_hash" (storage c))))
            (set_notify true c)).
  split.
  - unfold deleteRemoteWallet.
    destruct hash as [b|[b|[| |s]]]; cbn in Hhash; try discriminate.
    + injection Hhash as <-. run. rewrite Hapi. cbn. rewrite Hreply. reflexivity.
    + run. rewrite (localHash_typed _ _ Hhash). cbn. rewrite Hapi. cbn.
      rewrite Hreply. reflexivity.
    + injection Hhash as <-. run. cbn. rewrite Hapi. cbn. rewrite Hreply. reflexivity.
  - cbn. repeat split.
    + intros k Hk. unfold cleared in Hk.
      repeat (apply elem_of_cons in Hk as [->|Hk]); try (by apply elem_of_nil in Hk);
        by simplify_map_eq.
    + intros k Hk. unfold cleared in Hk.
      rewrite !lookup_delete_ne; [done|..]; intros <-; apply Hk; set_solver.
Qed.

(** ** [fetchWallet] *)

Lemma fetch_local_hash (c : container) :
  ciphertext_typed (storage c) = true ->
  (if shas "encrypted_wallet" (storage c)
   then localHash ≫= λ h : option bytes,
          match h with
          | Some buffer => mret (Text (toBase64String buffer))
          | None => throw (TypeError "Cannot read property 'toString' of undefined")
          end
   else mret Null) c = (Ok (local_hash_text (storage c)), c, []).
Proof.
  intros Hew. unfold ciphertext_typed in Hew.
  unfold shas, local_hash_text.
  destruct (local_ciphertext_hash (storage c)) as [h|] eqn:Hh.
  - assert (Hsome : is_Some (storage c !! "encrypted_wallet")).
    { unfold local_ciphertext_hash in Hh.
      destruct (storage c !! "encrypted_wallet"); [eauto|discriminate]. }
    rewrite bool_decide_eq_true_2 by exact Hsome.
    eapply (bind_run _ _ _ _ _ []); [apply localHash_typed, Hh|reflexivity].
  - unfold local_ciphertext_hash in Hh.
    destruct (storage c !! "encrypted_wallet") as [[b|[| |ew]]|]; try discriminate.
    + destruct (String.eqb ew ""); discriminate.
    + rewrite bool_decide_eq_false_2 by (intros [? ?]; discriminate). reflexivity.
Qed.

Lemma fetch_status (sw : server_wallet) (lh : jtext) (c : container) :
  (if negb (text_truthy (statusText sw)) then
     let s := if negb (negb (text_nullish (local_hash sw))) then "No Content"
              else if strict_eq (JText lh) (JText (local_hash sw))
                   then "Not Modified" else "OK" in
     emit (EStatusText s);; mret (Text s)
   else mret (statusText sw)) c =
  let s := if text_nullish (local_hash sw) then "No Content"
           else if bool_decide (lh = local_hash sw) then "Not Modified" else "OK" in
  (Ok (if text_truthy (statusText sw) then statusText sw else Text s), c,
   if text_truthy (statusText sw) then [] else [EStatusText s]).
Proof.
  destruct (text_truthy (statusText sw)); cbn [negb]; [reflexivity|].
  rewrite negb_involutive. unfold strict_eq.
  destruct (text_nullish (local_hash sw)); [reflexivity|].
  repeat case_bool_decide; try congruence; reflexivity.
Qed.

Lemma fetch_remote_status (status : jtext) (c : container) :
  (if negb (loose_eq (remote_status c) status) then
     modify (set_remote_status status);; modify (set_notify true)
   else mret tt) c =
  (Ok tt,
   if loose_eq (remote_status c) status then c
   else set_notify true (set_remote_status status c),
   []).
Proof. destruct (loose_eq (remote_status c) status); reflexivity. Qed.

Section Conflict.

Variables (sw : server_wallet) (key : PrivateKey) (c : container) (ew nh : string).

Let lh := toBase64String (sha256 (fromBase64String ew)).
Let old_hash := sget "remote_hash" (storage c).

Hypothesis local_wallet : storage c !! "encrypted_wallet" = Some (JStr ew).
Hypothesis local_wallet_not_empty : ew <> "".
Hypothesis server_wallet_reported : local_hash sw = Text nh.
Hypothesis remote_copy : sget "remote_copy" (storage c) = JBool true.
Hypothesis local_mod : JStr lh <> old_hash.
Hypothesis server_mod : old_hash <> JStr nh.
Hypothesis hashes_differ : lh <> nh.
Hypothesis status_valid : status_accepted (statusText sw) = true.

Let trace : list event :=
  EStore [("remote_hash", JStr nh)]
    :: (if text_truthy (statusText sw) then [] else [EStatusText "OK"]).

Lemma fetchWallet_conflict_run :
  exists c',
    fetchWallet T sw key c = (Err (conflict c), c', trace)
    /\ remote_status c' = Text "Conflict"
    /\ storage c' = <["remote_hash" := JStr nh]> (storage c)
    /\ wallet_object c' = wallet_object c
    /\ private_key c' = private_key c
    /\ notify c' = true.
Proof.
  pose proof local_wallet as Hew. pose proof local_wallet_not_empty as Hne.
  pose proof server_wallet_reported as Hnh. pose proof remote_copy as Hcopy.
  pose proof local_mod as Hlocal. pose proof server_mod as Hserver.
  pose proof hashes_differ as Hdiff. pose proof status_valid as Hstatus.
  assert (Hcopy' : storage c !! "remote_copy" = Some (JBool true)).
  { unfold sget in Hcopy. destruct (storage c !! "remote_copy"); cbn in Hcopy; congruence. }
  apply String.eqb_neq in Hne.
  assert (Htyped : ciphertext_typed (storage c) = true).
  { unfold ciphertext_typed. rewrite Hew, Hne. reflexivity. }
  assert (Hlh : local_hash_text (storage c) = Text lh).
  { unfold local_hash_text, local_ciphertext_hash. rewrite Hew, Hne. reflexivity. }
  set (status := if text_truthy (statusText sw) then statusText sw else Text "OK").
  assert (Hregex : regex_test ["OK"; "No Content"; "Not Modified"] (text_to_string status) = true).
  { unfold status, status_accepted in *. destruct (text_truthy (statusText sw)); [|reflexivity].
    exact Hstatus. }
  set (c1 := set_storage (<["remote_hash" := JStr nh]> (storage c)) c).
  set (c2 := if loose_eq (remote_status c1) status then c1
             else set_notify true (set_remote_status status c1)).
  assert (Hc2 : storage c2 = <["remote_hash" := JStr nh]> (storage c)
                /\ wallet_object c2 = wallet_object c /\ private_key c2 = private_key c
                /\ instance c2 = instance c).
  { unfold c2. destruct (loose_eq (remote_status c1) status); repeat split. }
  destruct Hc2 as (Hs2 & Hw2 & Hk2 & Hi2).
  enough (exists r c' trace',
            fetchWallet T sw key c = (r, c', trace')
            /\ r = Err (conflict c)
            /\ trace' = trace
            /\ c' = set_remote_status (Text "Conflict") (set_notify true c2))
    as (r & c' & trace' & Hrun & -> & -> & ->).
  { eexists. split; [exact Hrun|]. cbn. auto 6. }
  eexists _, _, _. split.
  - unfold fetchWallet. mstep.
    eapply bind_run; [apply fetch_local_hash, Htyped|cbn beta].
    mstep.
    eapply bind_run; [apply fetch_status|cbn beta zeta].
    rewrite Hlh, Hnh. cbn [text_nullish].
    rewrite bool_decide_eq_false_2 by congruence.
    fold status.
    mstep. rewrite Hregex. mstep.
    eapply bind_run; [apply fetch_remote_status|cbn beta].
    cbn [storage_merge fold_left fst snd set_storage storage]. fold c1. fold c2.
    mstep. rewrite Hs2. unfold sget at 1. rewrite lookup_insert_ne by discriminate.
    rewrite Hcopy'. cbn [default from_option id negb andb]. unfold strict_eq.
    rewrite (bool_decide_eq_false_2 (JBool true = JBool false)) by discriminate.
    cbn [andb].
    unfold shas. rewrite bool_decide_eq_true_2 by eauto. cbn [negb andb].
    mstep. rewrite (bool_decide_eq_false_2 (JStr lh = JStr nh)) by congruence.
    fold old_hash.
    rewrite (bool_decide_eq_false_2 (JStr lh = old_hash)) by assumption.
    rewrite (bool_decide_eq_false_2 (old_hash = JStr nh)) by assumption.
    cbn [negb andb].
    mstep. mstep. reflexivity.
  - split; [unfold conflict; cbn; rewrite Hi2; reflexivity|]. split; [|reflexivity].
    unfold trace. rewrite Hnh, Hlh. cbn [text_nullish].
    rewrite bool_decide_eq_false_2 by congruence.
    destruct (text_truthy (statusText sw)); reflexivity.
Qed.

(** C1, amended. When the server reports a wallet, [remote_copy] is true, a
    local [encrypted_wallet] is persisted, the local hash differs from the
    previously persisted [remote_hash], that one differs from the server
    hash, and moreover the local hash differs from the server hash and the
    status text is missing or passes the validation, the handler throws the
    Conflict error with [remote_status] set to ["Conflict"], after the write
    of [remote_hash] (and the status assignment of a push event) and nothing
    else: no push, no pull. The promise of the fetch callback is rejected
    with that error, subscribers being notified on a push event. *)
Theorem fetchWallet_conflict :
  (exists c',
     fetchWallet T sw key c = (Err (conflict c), c', trace)
     /\ remote_status c' = Text "Conflict"
     /\ storage c' = <["remote_hash" := JStr nh]> (storage c)
     /\ wallet_object c' = wallet_object c
     /\ private_key c' = private_key c)
  /\ (exists c',
        fetchWalletCallback T sw key c =
          (Ok (RejectedWith (conflict c)), c',
           (trace ++ (if text_truthy (statusText sw) then [] else [ENotify]))%list)
        /\ remote_status c' = Text "Conflict").
Proof.
  destruct fetchWallet_conflict_run as (c' & Hrun & Hstatus & Hstorage & Hwallet & Hkey & Hnotify).
  split.
  - exists c'. auto 6.
  - unfold fetchWalletCallback.
    destruct (text_truthy (statusText sw)) eqn:Htext; cbn [negb].
    + exists c'. split; [|exact Hstatus].
      eapply bind_run.
      { apply (promise_run _ _ (Err (conflict c))).
        apply bind_run_err. exact Hrun. }
      cbn beta iota. reflexivity.
    + exists (set_notify false c'). split; [|exact Hstatus].
      eapply bind_run.
      { apply (promise_run _ _ (Err (conflict c))).
        apply bind_run_err. exact Hrun. }
      cbn beta iota. unfold notifyResolve, notifySubscribers. run.
      rewrite Hnotify. reflexivity.
Qed.

End Conflict.

(** ** [updateWallet]: the two server writes *)

Section Push.

Variables (key : PrivateKey) (c : container).
Let ciphertext := encrypt (wallet_object c) (toPublicKey key).
Let hash := sha256 ciphertext.
Let signature := signBufferSha256 hash key.

Hypothesis base64_round_trip : fromBase64String (toBase64String ciphertext) = ciphertext.
Hypothesis ciphertext_not_empty : toBase64String ciphertext <> "".
Hypothesis remote : api c = true.
Hypothesis remote_copy : sget "remote_copy" (storage c) = JBool true.

(** After a successful [createWallet] the persisted [remote_hash] is the
    base64 of the local ciphertext hash. *)
Lemma updateWallet_create (json : server_wallet) :
  nullish (sget "remote_token" (storage c)) = false ->
  nullish (sget "remote_hash" (storage c)) = true ->
  loose_eq (remote_status c) (Text "No Content") = true ->
  api_createWallet T (sget "remote_token" (storage c)) ciphertext signature = Fulfilled json ->
  loose_eq (local_hash json) (Text (toBase64String hash)) = true ->
  text_truthy (created json) = true ->
  exists c',
    updateWallet T (Some key) c =
      (Ok (Fulfilled (VWallet (wallet_object c))), c',
       [EEncrypt (wallet_object c) (toPublicKey key);
        EStore [("encrypted_wallet", JStr (toBase64String ciphertext))];
        ECreateWallet (sget "remote_token" (storage c)) ciphertext signature;
        EStore [("remote_token", JNull);
                ("remote_hash", JStr (toBase64String hash));
                ("remote_created_date", JText (created json));
                ("remote_updated_date", JText (created json))]])
    /\ sget "remote_hash" (storage c') = toBase64 (local_ciphertext_hash (storage c')).
Proof.
  intros Hcode Hnone Hstatus Hreply Hhash Hcreated.
  destruct (text_truthy_Text _ Hcreated) as (date & Hdate & _).
  enough (Hrun : exists r c' trace,
            updateWallet T (Some key) c = (r, c', trace)
            /\ r = Ok (Fulfilled (VWallet (wallet_object c)))
            /\ trace = [EEncrypt (wallet_object c) (toPublicKey key);
                        EStore [("encrypted_wallet", JStr (toBase64String ciphertext))];
                        ECreateWallet (sget "remote_token" (storage c)) ciphertext signature;
                        EStore [("remote_token", JNull);
                                ("remote_hash", JStr (toBase64String hash));
                                ("remote_created_date", JText (created json));
                                ("remote_updated_date", JText (created json))]]
            /\ storage c' !! "encrypted_wallet" = Some (JStr (toBase64String ciphertext))
            /\ storage c' !! "remote_hash" = Some (JStr (toBase64String hash))).
  { destruct Hrun as (r & c' & trace & Hrun & -> & -> & Hew & Hrh).
    exists c'. split; [exact Hrun|].
    rewrite (local_ciphertext_hash_insert _ ciphertext) by assumption.
    unfold sget. rewrite Hrh. reflexivity. }
  eexists _, _, _. split.
  - unfold updateWallet. mstep. mstep.
    apply promise_run. mstep. mstep. mstep. mstep.
    cbn [api set_notify set_local_status set_storage storage remote_status].
    rewrite remote, remote_copy. unfold strict_eq.
    rewrite (bool_decide_eq_true_2 (JBool true = JBool true)) by reflexivity.
    cbn [negb orb]. rewrite Hcode. cbn [andb negb].
    cbn [storage_merge fold_left fst snd].
    rewrite !sget_insert_ne by discriminate.
    rewrite Hnone. cbn [andb].
    eapply bind_run.
    { eapply bind_run; [rewrite Hstatus; reflexivity|cbn beta].
      mstep. fold ciphertext hash signature. rewrite Hreply.
      mstep. eapply bind_run; [rewrite Hhash; reflexivity|cbn beta].
      eapply bind_run; [rewrite Hcreated; reflexivity|cbn beta].
      mstep. mstep. reflexivity. }
    cbn beta. mstep. reflexivity.
  - split; [reflexivity|]. split; [rewrite Hdate; reflexivity|].
    rewrite Hdate. cbn. split; by simplify_map_eq.
Qed.

(** After a [saveWallet] acknowledged with ["OK"] the persisted [remote_hash]
    is the base64 of the local ciphertext hash. *)
Lemma updateWallet_save (json : server_wallet) (remote_hash : string) :
  sget "remote_hash" (storage c) = JStr remote_hash -> remote_hash <> "" ->
  remote_status c = Text "OK" \/ remote_status c = Text "Not Modified" ->
  api_saveWallet T (fromBase64String remote_hash) ciphertext signature = Fulfilled json ->
  statusText json = Text "OK" ->
  loose_eq (local_hash json) (Text (toBase64String hash)) = true ->
  text_truthy (updated json) = true ->
  exists c',
    updateWallet T (Some key) c =
      (Ok (Fulfilled (VWallet (wallet_object c))), c',
       [EEncrypt (wallet_object c) (toPublicKey key);
        EStore [("encrypted_wallet", JStr (toBase64String ciphertext))];
        ESaveWallet (fromBase64String remote_hash) ciphertext signature;
        EStore [("remote_hash", JStr (toBase64String hash));
                ("remote_updated_date", JText (updated json))]])
    /\ sget "remote_hash" (storage c') = toBase64 (local_ciphertext_hash (storage c')).
Proof.
  intros Hold Hne Hstatus Hreply Hok Hhash Hupdated.
  destruct (text_truthy_Text _ Hupdated) as (date & Hdate & _).
  apply String.eqb_neq in Hne.
  enough (Hrun : exists r c' trace,
            updateWallet T (Some key) c = (r, c', trace)
            /\ r = Ok (Fulfilled (VWallet (wallet_object c)))
            /\ trace = [EEncrypt (wallet_object c) (toPublicKey key);
                        EStore [("encrypted_wallet", JStr (toBase64String ciphertext))];
                        ESaveWallet (fromBase64String remote_hash) ciphertext signature;
                        EStore [("remote_hash", JStr (toBase64String hash));
                                ("remote_updated_date", JText (updated json))]]
            /\ storage c' !! "encrypted_wallet" = Some (JStr (toBase64String ciphertext))
            /\ storage c' !! "remote_hash" = Some (JStr (toBase64String hash))).
  { destruct Hrun as (r & c' & trace & Hrun & -> & -> & Hew & Hrh).
    exists c'. split; [exact Hrun|].
    rewrite (local_ciphertext_hash_insert _ ciphertext) by assumption.
    unfold sget. rewrite Hrh. reflexivity. }
  assert (Hearly : nullish (sget "remote_token" (storage c)) &&
                   bool_decide (remote_status c = Text "No Content") = false).
  { rewrite bool_decide_eq_false_2; [apply andb_false_r|].
    destruct Hstatus as [-> | ->]; discriminate. }
  assert (Hregex : regex_test ["OK"; "Not Modified"] (text_to_string (remote_status c)) = true).
  { destruct Hstatus as [-> | ->]; reflexivity. }
  eexists _, _, _. split.
  - unfold updateWallet. mstep. mstep.
    apply promise_run. mstep. mstep. mstep. mstep.
    cbn [api set_notify set_local_status set_storage storage remote_status].
    rewrite remote, remote_copy. unfold strict_eq.
    rewrite (bool_decide_eq_true_2 (JBool true = JBool true)) by reflexivity.
    cbn [negb orb]. rewrite Hearly.
    cbn [storage_merge fold_left fst snd].
    rewrite !sget_insert_ne by discriminate.
    rewrite Hold. cbn [nullish text_nullish andb]. rewrite andb_false_r.
    eapply bind_run.
    { eapply bind_run; [cbn [truthy text_truthy]; rewrite Hne; reflexivity|cbn beta].
      eapply bind_run; [rewrite Hregex; reflexivity|cbn beta].
      mstep. mstep. fold ciphertext hash signature. rewrite Hreply.
      mstep. rewrite Hok. rewrite bool_decide_eq_true_2 by reflexivity.
      eapply bind_run; [rewrite Hhash; reflexivity|cbn beta].
      eapply bind_run; [rewrite Hupdated; reflexivity|cbn beta].
      mstep. mstep. reflexivity. }
    cbn beta. mstep. reflexivity.
  - split; [reflexivity|]. split; [rewrite Hdate; reflexivity|].
    rewrite Hdate. cbn. split; by simplify_map_eq.
Qed.

End Push.

(** ** [changePassword] *)

(** C4, amended. On an unlocked container with a persisted
    [encrypted_wallet], [remote_copy] true and a persisted [remote_hash] that
    differs from the base64 of the local ciphertext hash, [changePassword]
    throws synchronously whatever its arguments, having encrypted nothing and
    changed nothing (the container is the same, the trace empty); and the
    error is [wallet_modified] when a password is given and email and
    username are strings that are not blank. *)
Theorem changePassword_wallet_modified (okey : option PrivateKey) (now : string)
    (password email username : jsval) (c : container) (k : PrivateKey) (ew : string) :
  private_key c = Some k ->
  storage c !! "encrypted_wallet" = Some (JStr ew) -> ew <> "" ->
  sget "remote_copy" (storage c) = JBool true ->
  sget "remote_hash" (storage c) <> JStr (toBase64String (sha256 (fromBase64String ew))) ->
  (exists e, changePassword T okey now password email username c = (Err e, c, []))
  /\ (nullish password = false ->
      (exists e, or_empty email = JStr e /\ trim e <> "") ->
      (exists u, or_empty username = JStr u /\ trim u <> "") ->
      changePassword T okey now password email username c = (Err wallet_modified, c, [])).
Proof.
  intros Hk Hew Hne Hcopy Hhash.
  apply String.eqb_neq in Hne.
  assert (Hlocal : localHash c = (Ok (Some (sha256 (fromBase64String ew))), c, [])).
  { apply localHash_typed. unfold local_ciphertext_hash. rewrite Hew, Hne. reflexivity. }
  assert (Htruthy : truthy (sget "encrypted_wallet" (storage c)) = true).
  { unfold sget. rewrite Hew. cbn. rewrite Hne. reflexivity. }
  enough (Hrun : exists r c' trace,
            changePassword T okey now password email username c = (r, c', trace)
            /\ c' = c /\ trace = []
            /\ (exists e, r = Err e)
            /\ (nullish password = false ->
                (exists e, or_empty email = JStr e /\ trim e <> "") ->
                (exists u, or_empty username = JStr u /\ trim u <> "") ->
                r = Err wallet_modified)).
  { destruct Hrun as (r & c' & trace & Hrun & -> & -> & [e ->] & Hstrong). split.
    - exists e. exact Hrun.
    - intros Hp He Hu. rewrite Hrun, (Hstrong Hp He Hu). reflexivity. }
  unfold changePassword.
  destruct (nullish password) eqn:Hpw.
  { eexists _, _, _. split.
    - eapply bind_run_err. unfold req. rewrite Hpw. reflexivity.
    - repeat split; eauto; discriminate. }
  destruct (or_empty email) as [b|[| |e]] eqn:Hemail.
  1-3: eexists _, _, _; (split; [ eapply bind_run; [unfold req; rewrite Hpw; reflexivity|cbn beta];
         mstep; rewrite Hk; eapply bind_run; [rewrite Htruthy; reflexivity|cbn beta];
         eapply bind_run_err; reflexivity
       | repeat split; eauto; intros _ (? & [=] & _) ]).
  destruct (or_empty username) as [b|[| |u]] eqn:Huser.
  1-3: eexists _, _, _; (split; [ eapply bind_run; [unfold req; rewrite Hpw; reflexivity|cbn beta];
         mstep; rewrite Hk; eapply bind_run; [rewrite Htruthy; reflexivity|cbn beta];
         mstep; eapply bind_run_err; reflexivity
       | repeat split; eauto; intros _ _ (? & [=] & _) ]).
  destruct (String.eqb (trim e) "" || String.eqb (trim u) "") eqn:Hweak.
  - eexists _, _, _. split.
    + eapply bind_run; [unfold req; rewrite Hpw; reflexivity|cbn beta].
      mstep. rewrite Hk. eapply bind_run; [rewrite Htruthy; reflexivity|cbn beta].
      mstep. mstep. eapply bind_run_err.
      cbn [js_trim]. rewrite Hweak, Hcopy. reflexivity.
    + repeat split; eauto. intros _ (e' & [= <-] & He) (u' & [= <-] & Hu).
      apply String.eqb_neq in He, Hu. rewrite He, Hu in Hweak. discriminate.
  - eexists _, _, _. split.
    + eapply bind_run; [unfold req; rewrite Hpw; reflexivity|cbn beta].
      mstep. rewrite Hk. eapply bind_run; [rewrite Htruthy; reflexivity|cbn beta].
      mstep. mstep. eapply bind_run; [rewrite Hweak; reflexivity|cbn beta].
      eapply bind_run; [exact Hlocal|cbn beta].
      eapply bind_run_err. rewrite Hcopy. unfold strict_eq.
      rewrite (bool_decide_eq_true_2 (JBool true = JBool true)) by reflexivity.
      cbn [toBase64]. rewrite bool_decide_eq_false_2 by congruence. reflexivity.
    + repeat split; eauto.
Qed.

(** C10. Called with a password only, on an unlocked container with a
    persisted [encrypted_wallet] whose [remote_copy] is not true,
    [changePassword] succeeds: email and username default to the empty
    string, the new key comes from the seed of two tabs followed by the
    password, the wallet object gets [weak_password = true], and the wallet
    is encrypted under the new key and saved. *)
Theorem changePassword_password_only (okey : option PrivateKey) (now pw : string)
    (c : container) :
  is_Some (private_key c) ->
  shas "encrypted_wallet" (storage c) = true ->
  storage_typed (storage c) = true ->
  sget "remote_copy" (storage c) <> JBool true ->
  let new_private_key := fromSeed (tab +:+ tab +:+ pw) in
  let wallet := wmerge (wallet_object c)
                       [("last_modified", TStr now); ("weak_password", TBool true)] in
  let ciphertext := encrypt wallet (toPublicKey new_private_key) in
  exists c',
    changePassword T okey now (JStr pw) JUndefined JUndefined c =
      (Ok (Some (Fulfilled VUndefined)), c',
       [EEncrypt wallet (toPublicKey new_private_key);
        EStore [("encrypted_wallet", JStr (toBase64String ciphertext))];
        ENotify])
    /\ private_key c' = Some new_private_key
    /\ wallet_object c' = wallet
    /\ wget "weak_password" (wallet_object c') = Some (TBool true).
Proof.
  intros [k Hk] Hhas Htyped Hcopy new_private_key wallet ciphertext.
  apply andb_true_iff in Htyped as [Hew Hrc].
  unfold ciphertext_typed in Hew. unfold remote_copy_typed in Hrc.
  unfold shas in Hhas. apply bool_decide_eq_true_1 in Hhas as [v Hv].
  rewrite Hv in Hew. destruct v as [b|[| |ew]]; try discriminate.
  apply negb_true_iff in Hew.
  assert (Hlocal : localHash c = (Ok (Some (sha256 (fromBase64String ew))), c, [])).
  { apply localHash_typed. unfold local_ciphertext_hash. rewrite Hv, Hew. reflexivity. }
  assert (Htruthy : truthy (sget "encrypted_wallet" (storage c)) = true).
  { unfold sget. rewrite Hv. cbn. rewrite Hew. reflexivity. }
  assert (Hfalsy : truthy (sget "remote_copy" (storage c)) = false
                   /\ strict_eq (sget "remote_copy" (storage c)) (JBool true) = false).
  { unfold sget, strict_eq in *. destruct (storage c !! "remote_copy") as [[[|]|?]|];
      try discriminate; cbn in *; try congruence; split; reflexivity. }
  destruct Hfalsy as [Hfalsy Hnot].
  enough (Hrun : exists r c' trace,
            changePassword T okey now (JStr pw) JUndefined JUndefined c = (r, c', trace)
            /\ r = Ok (Some (Fulfilled VUndefined))
            /\ trace = [EEncrypt wallet (toPublicKey new_private_key);
                        EStore [("encrypted_wallet", JStr (toBase64String ciphertext))];
                        ENotify]
            /\ private_key c' = Some new_private_key
            /\ wallet_object c' = wallet).
  { destruct Hrun as (r & c' & trace & Hrun & -> & -> & Hkey & Hw).
    exists c'. repeat split; try assumption. rewrite Hw. apply wget_wset. }
  eexists _, _, _. split.
  - unfold changePassword. mstep. mstep. rewrite Hk.
    eapply bind_run; [rewrite Htruthy; reflexivity|cbn beta].
    mstep. mstep. cbn [or_empty js_trim].
    rewrite !trim_empty, !toLowerCase_empty.
    eapply bind_run; [rewrite Hfalsy; reflexivity|cbn beta].
    eapply bind_run; [exact Hlocal|cbn beta].
    rewrite Hnot. mstep. mstep. mstep. mstep.
    eapply bind_run.
    { apply promise_run. mstep. mstep. mstep. mstep.
      rewrite orb_true_r. mstep. mstep. reflexivity. }
    reflexivity.
  - repeat split.
Qed.

(** C5, as the code has it. In the remote path, with [old_private_key] bound
    nowhere, the returned promise is rejected with a ReferenceError after the
    new ciphertext has been saved locally: nothing is signed, the transport's
    [changePassword] is not called, and the container keeps the old key. *)
Theorem changePassword_remote_reference_error (now : string) (password : jsval)
    (email username : string) (c : container) (k : PrivateKey) (ew : string) :
  private_key c = Some k ->
  api c = true ->
  storage c !! "encrypted_wallet" = Some (JStr ew) -> ew <> "" ->
  sget "remote_copy" (storage c) = JBool true ->
  sget "remote_hash" (storage c) = JStr (toBase64String (sha256 (fromBase64String ew))) ->
  nullish password = false ->
  trim email <> "" -> trim username <> "" ->
  let new_private_key :=
    fromSeed (toLowerCase (trim email) +:+ tab +:+ toLowerCase (trim username) +:+ tab
              +:+ to_string password) in
  let wallet := wmerge (wallet_object c)
                       [("last_modified", TStr now); ("weak_password", TBool false)] in
  let ciphertext := encrypt wallet (toPublicKey new_private_key) in
  exists c',
    changePassword T None now password (JStr email) (JStr username) c =
      (Ok (Some (RejectedWith (ReferenceError "old_private_key"))), c',
       [EEncrypt wallet (toPublicKey new_private_key);
        EStore [("encrypted_wallet", JStr (toBase64String ciphertext))]]
       ++ (if hasSubscriptionId T "fetchWallet" (publicKeyString (toPublicKey k))
           then [EUnsubscribe (toPublicKey k)] else []))%list
    /\ private_key c' = Some k
    /\ storage c' !! "encrypted_wallet" = Some (JStr (toBase64String ciphertext))
    /\ notify c' = true.
Proof.
  intros Hk Hapi Hew Hne Hcopy Hhash Hpw He Hu new_private_key wallet ciphertext.
  apply String.eqb_neq in Hne, He, Hu.
  assert (Hlocal : localHash c = (Ok (Some (sha256 (fromBase64String ew))), c, [])).
  { apply localHash_typed. unfold local_ciphertext_hash. rewrite Hew, Hne. reflexivity. }
  assert (Htruthy : truthy (sget "encrypted_wallet" (storage c)) = true).
  { unfold sget. rewrite Hew. cbn. rewrite Hne. reflexivity. }
  enough (Hrun : exists r c' trace,
            changePassword T None now password (JStr email) (JStr username) c = (r, c', trace)
            /\ r = Ok (Some (RejectedWith (ReferenceError "old_private_key")))
            /\ trace = ([EEncrypt wallet (toPublicKey new_private_key);
                         EStore [("encrypted_wallet", JStr (toBase64String ciphertext))]]
                        ++ (if hasSubscriptionId T "fetchWallet" (publicKeyString (toPublicKey k))
                            then [EUnsubscribe (toPublicKey k)] else []))%list
            /\ private_key c' = Some k
            /\ storage c' !! "encrypted_wallet" = Some (JStr (toBase64String ciphertext))
            /\ notify c' = true).
  { destruct Hrun as (r & c' & trace & Hrun & -> & -> & Hrest). eauto. }
  eexists _, _, _. split.
  - unfold changePassword.
    eapply bind_run; [unfold req; rewrite Hpw; reflexivity|cbn beta].
    mstep. rewrite Hk.
    eapply bind_run; [rewrite Htruthy; reflexivity|cbn beta].
    mstep. mstep. cbn [or_empty js_trim].
    eapply bind_run; [rewrite He, Hu; reflexivity|cbn beta].
    eapply bind_run; [exact Hlocal|cbn beta].
    rewrite Hcopy, Hhash. unfold strict_eq.
    rewrite (bool_decide_eq_true_2 (JBool true = JBool true)) by reflexivity.
    cbn [toBase64]. rewrite bool_decide_eq_true_2 by reflexivity. cbn [negb].
    mstep. mstep. mstep. mstep.
    eapply bind_run.
    { apply promise_run. mstep. mstep. mstep. mstep.
      cbn [api set_notify set_local_status set_storage set_wallet_object].
      rewrite Hapi. cbn [negb orb].
      eapply bind_run.
      { instantiate (3 := if hasSubscriptionId T "fetchWallet" (publicKeyString (toPublicKey k))
                          then Some (api_fetchWalletUnsubscribe T (toPublicKey k)) else None).
        instantiate (1 := if hasSubscriptionId T "fetchWallet" (publicKeyString (toPublicKey k))
                          then [EUnsubscribe (toPublicKey k)] else []).
        destruct (hasSubscriptionId T "fetchWallet" (publicKeyString (toPublicKey k)));
          reflexivity. }
      cbn beta. eapply bind_run_err. reflexivity. }
    reflexivity.
  - split; [reflexivity|]. rewrite He, Hu. cbn [orb].
    split; [destruct (hasSubscriptionId T _ _); reflexivity|].
    split; [exact Hk|]. split; [|reflexivity].
    cbn. apply lookup_insert_eq.
Qed.

End Properties.

(** * The statements at work on the small instance *)

Lemma setState_locked_witness :
  setState Toy.offline Toy.now [("k", TNum 1)] Toy.locked
  = (Err (Error "wallet_locked"), Toy.locked, []).
Proof. apply (@setState_locked Toy.crypto). reflexivity. Defined.

Lemma setState_unchanged_noop_witness :
  setState Toy.offline Toy.now [("chain_id", TStr "chainA")]
           (Toy.unlocked (JBool false) JUndefined)
  = (Ok (Fulfilled VUndefined), Toy.unlocked (JBool false) JUndefined, []).
Proof.
  apply (@setState_unchanged_noop Toy.crypto).
  - eexists. reflexivity.
  - reflexivity.
  - reflexivity.
Defined.

Lemma deleteRemoteWallet_clears_witness :
  exists c',
    deleteRemoteWallet Toy.offline Toy.key (HashValue JUndefined)
                       (Toy.unlocked (JBool false) (JStr "#X"))
    = (Ok (Fulfilled VUndefined), c',
       [EDeleteWallet (Toy.hash_of "X") (Toy.sign (Toy.hash_of "X") Toy.key);
        EStore [("remote_hash", JUndefined); ("remote_created_date", JUndefined);
                ("remote_updated_date", JUndefined)]])
    /\ storage c' !! "remote_hash" = None
    /\ storage c' !! "encrypted_wallet" = Some (JStr "X").
Proof.
  destruct (@deleteRemoteWallet_clears Toy.crypto Toy.offline Toy.key (HashValue JUndefined)
              (Toy.unlocked (JBool false) (JStr "#X")) (Toy.hash_of "X"))
    as (c' & Hrun & Hcleared & Hkept & _).
  - reflexivity.
  - vm_compute. reflexivity.
  - reflexivity.
  - exists c'. split; [exact Hrun|]. split.
    + apply Hcleared. apply list_elem_of_here.
    + rewrite Hkept; [vm_compute; reflexivity|].
      refine (bool_decide_unpack _ _). vm_compute. exact I.
Defined.

Lemma fetchWallet_conflict_witness :
  (exists c',
     fetchWallet Toy.offline (Toy.reply (Text "OK") (Text "#Y")) Toy.key
                 (Toy.unlocked (JBool true) (JStr "#W"))
     = (Err (Error "WalletWebSocket(1) Conflict, both server and local wallet modified"),
        c', [EStore [("remote_hash", JStr "#Y")]])
     /\ remote_status c' = Text "Conflict")
  /\ (exists c',
        fetchWalletCallback Toy.offline (Toy.reply Undefined (Text "#Y")) Toy.key
                            (Toy.unlocked (JBool true) (JStr "#W"))
        = (Ok (RejectedWith
                 (Error "WalletWebSocket(1) Conflict, both server and local wallet modified")),
           c', [EStore [("remote_hash", JStr "#Y")]; EStatusText "OK"; ENotify])
        /\ remote_status c' = Text "Conflict").
Proof.
  split.
  - destruct (@fetchWallet_conflict Toy.crypto Toy.offline
                (Toy.reply (Text "OK") (Text "#Y")) Toy.key
                (Toy.unlocked (JBool true) (JStr "#W")) "X" "#Y")
      as [(c' & Hrun & Hstatus & _) _].
    + vm_compute. reflexivity.
    + discriminate.
    + reflexivity.
    + vm_compute. reflexivity.
    + vm_compute. discriminate.
    + vm_compute. discriminate.
    + vm_compute. discriminate.
    + reflexivity.
    + exists c'. split; [exact Hrun|exact Hstatus].
  - destruct (@fetchWallet_conflict Toy.crypto Toy.offline
                (Toy.reply Undefined (Text "#Y")) Toy.key
                (Toy.unlocked (JBool true) (JStr "#W")) "X" "#Y")
      as [_ (c' & Hrun & Hstatus)].
    + vm_compute. reflexivity.
    + discriminate.
    + reflexivity.
    + vm_compute. reflexivity.
    + vm_compute. discriminate.
    + vm_compute. discriminate.
    + vm_compute. discriminate.
    + reflexivity.
    + exists c'. split; [exact Hrun|exact Hstatus].
Defined.

(** C1, as stated, fails: the server reports a wallet, [remote_copy] is true,
    a local wallet is persisted, the local hash differs from the persisted
    [remote_hash] and that one from the server hash, but the local hash is
    the server hash. The handler returns without a conflict. *)
Lemma fetchWallet_conflict_counterexample :
  let c := Toy.unlocked (JBool true) (JStr "#W") in
  let sw := Toy.reply (Text "Not Modified") (Text "#X") in
  let run := fetchWallet Toy.offline sw Toy.key c in
  text_nullish (local_hash sw) = false
  /\ sget "remote_copy" (storage c) = JBool true
  /\ sget "encrypted_wallet" (storage c) = JStr "X"
  /\ JText (local_hash_text (H := Toy.crypto) (storage c)) <> sget "remote_hash" (storage c)
  /\ sget "remote_hash" (storage c) <> JText (local_hash sw)
  /\ run.1.1 = Ok None
  /\ remote_status run.1.2 = Text "Not Modified"
  /\ run.2 = [EStore [("remote_hash", JStr "#X")]].
Proof. vm_compute. repeat split; discriminate. Qed.

Lemma changePassword_wallet_modified_witness :
  changePassword Toy.offline None Toy.now (JStr "pw2") (JStr "a@x") (JStr "alice")
                 (Toy.unlocked (JBool true) (JStr "#W"))
  = (Err wallet_modified, Toy.unlocked (JBool true) (JStr "#W"), []).
Proof.
  apply (@changePassword_wallet_modified Toy.crypto Toy.offline None Toy.now
           (JStr "pw2") (JStr "a@x") (JStr "alice")
           (Toy.unlocked (JBool true) (JStr "#W")) Toy.key "X").
  - reflexivity.
  - vm_compute. reflexivity.
  - discriminate.
  - vm_compute. reflexivity.
  - vm_compute. discriminate.
  - reflexivity.
  - exists "a@x". split; [reflexivity|vm_compute; discriminate].
  - exists "alice". split; [reflexivity|vm_compute; discriminate].
Defined.

(** C4, as stated, fails: on an unlocked container with a persisted wallet,
    [remote_copy] true and a stale [remote_hash], a call with a password only
    is refused by the weak-password assertion, not with [wallet_modified]. *)
Lemma changePassword_wallet_modified_counterexample :
  let c := Toy.unlocked (JBool true) (JStr "#W") in
  private_key c = Some Toy.key
  /\ sget "encrypted_wallet" (storage c) = JStr "X"
  /\ sget "remote_copy" (storage c) = JBool true
  /\ sget "remote_hash" (storage c) <> toBase64 (H := Toy.crypto) (Some (Toy.hash_of "X"))
  /\ changePassword Toy.offline None Toy.now (JStr "pw2") JUndefined JUndefined c
     = (Err (AssertionError "Remote copies are enabled, but an email or username is missing from this wallet's encryption key."),
        c, [])
  /\ changePassword Toy.offline None Toy.now (JStr "pw2") JUndefined JUndefined c
     <> (Err wallet_modified, c, []).
Proof. vm_compute. repeat split; discriminate. Qed.

Lemma changePassword_password_only_witness :
  exists c',
    changePassword Toy.offline None Toy.now (JStr "pw2") JUndefined JUndefined
                   (Toy.unlocked (JBool false) JUndefined)
    = (Ok (Some (Fulfilled VUndefined)), c',
       [EEncrypt (wmerge Toy.wallet [("last_modified", TStr Toy.now);
                                     ("weak_password", TBool true)])
                 (Toy.public (Toy.seed (tab +:+ tab +:+ "pw2")));
        EStore [("encrypted_wallet", JStr ("pub:" +:+ tab +:+ tab +:+ "pw2****"))];
        ENotify])
    /\ private_key c' = Some (Toy.seed (tab +:+ tab +:+ "pw2"))
    /\ wget "weak_password" (wallet_object c') = Some (TBool true).
Proof.
  destruct (@changePassword_password_only Toy.crypto Toy.offline None Toy.now "pw2"
              (Toy.unlocked (JBool false) JUndefined))
    as (c' & Hrun & Hkey & _ & Hweak).
  - eexists. reflexivity.
  - vm_compute. reflexivity.
  - vm_compute. reflexivity.
  - vm_compute. discriminate.
  - exists c'. split; [exact Hrun|]. split; [exact Hkey|exact Hweak].
Defined.

Lemma changePassword_remote_reference_error_witness :
  exists c',
    changePassword Toy.offline None Toy.now (JStr "pw2") (JStr "a@x") (JStr "alice")
                   (Toy.unlocked (JBool true) (JStr "#X"))
    = (Ok (Some (RejectedWith (ReferenceError "old_private_key"))), c',
       [EEncrypt (wmerge Toy.wallet [("last_modified", TStr Toy.now);
                                     ("weak_password", TBool false)])
                 (Toy.public (Toy.seed ("a@x" +:+ tab +:+ "alice" +:+ tab +:+ "pw2")));
        EStore [("encrypted_wallet",
                 JStr ("pub:a@x" +:+ tab +:+ "alice" +:+ tab +:+ "pw2****"))]])
    /\ private_key c' = Some Toy.key.
Proof.
  destruct (@changePassword_remote_reference_error Toy.crypto Toy.offline Toy.now
              (JStr "pw2") "a@x" "alice" (Toy.unlocked (JBool true) (JStr "#X"))
              Toy.key "X")
    as (c' & Hrun & Hkey & _).
  - reflexivity.
  - reflexivity.
  - vm_compute. reflexivity.
  - discriminate.
  - vm_compute. reflexivity.
  - vm_compute. reflexivity.
  - reflexivity.
  - vm_compute. discriminate.
  - vm_compute. discriminate.
  - exists c'. split; [exact Hrun|exact Hkey].
Defined.

(** * The reconciliation engine, case by case *)

Section Reconciliation.

Context `{Crypto}.
Variable T : Transport.

Ltac step := eapply bind_run; [reflexivity|cbn beta].

(** A run is shown by running the computation step by step and comparing
    what comes out. *)
Lemma run_as {A} (x : result A * container * list event) r c t :
  (exists r' c' t', x = (r', c', t') /\ r' = r /\ c' = c /\ t' = t) -> x = (r, c, t).
Proof. intros (r' & c' & t' & -> & -> & -> & ->). reflexivity. Qed.

Ltac running := apply run_as; eexists _, _, _; split.

(** ** What a computation keeps, and what it emits *)

Section Frame.

Context (P : container -> Prop) (Q : event -> Prop).

Lemma preserves_ret {A} (a : A) : preserves P (mret a).
Proof. intros c Hc. exact Hc. Qed.

Lemma preserves_throw {A} (e : error) : preserves P (throw (A := A) e).
Proof. intros c Hc. exact Hc. Qed.

Lemma preserves_get : preserves P get.
Proof. intros c Hc. exact Hc. Qed.

Lemma preserves_emit (e : event) : preserves P (emit e).
Proof. intros c Hc. exact Hc. Qed.

Lemma preserves_modify (f : container -> container) :
  (forall c, P c -> P (f c)) -> preserves P (modify f).
Proof. intros Hf c Hc. apply Hf, Hc. Qed.

Lemma preserves_bind {A B} (m : M A) (f : A -> M B) :
  preserves P m -> (forall a, preserves P (f a)) -> preserves P (m ≫= f).
Proof.
  intros Hm Hf c Hc. specialize (Hm c Hc). unfold mbind, M_bind.
  destruct (m c) as [[[a|e] c1] t1]; cbn in *; [|exact Hm].
  specialize (Hf a c1 Hm). destruct (f a c1) as [[r c2] t2]. exact Hf.
Qed.

Lemma preserves_promise {A} (m : M A) : preserves P m -> preserves P (promise m).
Proof.
  intros Hm c Hc. specialize (Hm c Hc). unfold promise.
  destruct (m c) as [[[a|e] c1] t1]; exact Hm.
Qed.

Lemma preserves_assert (b : bool) (msg : string) : preserves P (assert b msg).
Proof. destruct b; [apply preserves_ret|apply preserves_throw]. Qed.

Lemma preserves_await {A} (p : settled A) : preserves P (await p).
Proof. destruct p; [apply preserves_ret|apply preserves_throw]. Qed.

Lemma preserves_new_Buffer (v : jsval) : preserves P (new_Buffer v).
Proof. destruct v as [b|[| |s]]; first [apply preserves_ret|apply preserves_throw]. Qed.

Lemma emits_only_ret {A} (a : A) : emits_only Q (mret a).
Proof. intros c. constructor. Qed.

Lemma emits_only_throw {A} (e : error) : emits_only Q (throw (A := A) e).
Proof. intros c. constructor. Qed.

Lemma emits_only_get : emits_only Q get.
Proof. intros c. constructor. Qed.

Lemma emits_only_modify (f : container -> container) : emits_only Q (modify f).
Proof. intros c. constructor. Qed.

Lemma emits_only_emit (e : event) : Q e -> emits_only Q (emit e).
Proof. intros He c. repeat constructor. exact He. Qed.

Lemma emits_only_bind {A B} (m : M A) (f : A -> M B) :
  emits_only Q m -> (forall a, emits_only Q (f a)) -> emits_only Q (m ≫= f).
Proof.
  intros Hm Hf c. specialize (Hm c). unfold mbind, M_bind.
  destruct (m c) as [[[a|e] c1] t1]; cbn in *; [|exact Hm].
  specialize (Hf a c1). destruct (f a c1) as [[r c2] t2]. cbn in *.
  apply Forall_app. split; assumption.
Qed.

Lemma emits_only_promise {A} (m : M A) : emits_only Q m -> emits_only Q (promise m).
Proof.
  intros Hm c. specialize (Hm c). unfold promise.
  destruct (m c) as [[[a|e] c1] t1]; exact Hm.
Qed.

Lemma emits_only_assert (b : bool) (msg : string) : emits_only Q (assert b msg).
Proof. destruct b; [apply emits_only_ret|apply emits_only_throw]. Qed.

Lemma emits_only_await {A} (p : settled A) : emits_only Q (await p).
Proof. destruct p; [apply emits_only_ret|apply emits_only_throw]. Qed.

Lemma emits_only_new_Buffer (v : jsval) : emits_only Q (new_Buffer v).
Proof. destruct v as [b|[| |s]]; first [apply emits_only_ret|apply emits_only_throw]. Qed.

Lemma emits_only_localHash : emits_only Q localHash.
Proof.
  unfold localHash. apply emits_only_bind; [apply emits_only_get|]. intros c.
  destruct (negb _); [apply emits_only_ret|].
  apply emits_only_bind; [apply emits_only_new_Buffer|]. intros b. apply emits_only_ret.
Qed.

Lemma preserves_localHash : preserves P localHash.
Proof.
  unfold localHash. apply preserves_bind; [apply preserves_get|]. intros c.
  destruct (negb _); [apply preserves_ret|].
  apply preserves_bind; [apply preserves_new_Buffer|]. intros b. apply preserves_ret.
Qed.

End Frame.

Ltac frame_step :=
  first
    [ apply preserves_localHash | apply preserves_new_Buffer
    | apply emits_only_localHash | apply emits_only_new_Buffer
    | apply preserves_bind; [|intros ?]
    | apply preserves_ret | apply preserves_throw | apply preserves_get
    | apply preserves_emit | apply preserves_assert | apply preserves_await
    | apply preserves_promise
    | apply emits_only_bind; [|intros ?]
    | apply emits_only_ret | apply emits_only_throw | apply emits_only_get
    | apply emits_only_modify | apply emits_only_assert | apply emits_only_await
    | apply emits_only_promise
    | match goal with
      | |- preserves _ (if ?b then _ else _) => destruct b
      | |- preserves _ (match ?x with _ => _ end) => destruct x
      | |- emits_only _ (if ?b then _ else _) => destruct b
      | |- emits_only _ (match ?x with _ => _ end) => destruct x
      end ].

Lemma storage_merge_lookup_ne (partial : list (string * jsval)) (s : gmap string jsval)
    (k : string) :
  k ∉ map fst partial -> storage_merge partial s !! k = s !! k.
Proof.
  unfold storage_merge. revert s.
  induction partial as [|[k' v] partial IH]; intros s Hk; [reflexivity|].
  cbn in Hk. apply not_elem_of_cons in Hk as [Hne Hk].
  cbn [fold_left fst snd]. rewrite IH by exact Hk.
  destruct v as [b|[| |t]].
  - apply lookup_insert_ne. congruence.
  - apply lookup_delete_ne. congruence.
  - apply lookup_insert_ne. congruence.
  - apply lookup_insert_ne. congruence.
Qed.

Ltac not_in_keys :=
  cbn [map fst]; rewrite ?not_elem_of_cons; repeat split;
  first [discriminate | apply not_elem_of_nil].

Lemma preserves_storage_setState (P : container -> Prop) (partial : list (string * jsval)) :
  (forall c, P c -> P (set_storage (storage_merge partial (storage c)) c)) ->
  preserves P (storage_setState partial).
Proof.
  intros HP. unfold storage_setState.
  apply preserves_bind; [apply preserves_modify, HP|]. intros ?. apply preserves_emit.
Qed.

Lemma emits_only_storage_setState (Q : event -> Prop) (partial : list (string * jsval)) :
  Q (EStore partial) -> emits_only Q (storage_setState partial).
Proof.
  intros HQ. unfold storage_setState.
  apply emits_only_bind; [apply emits_only_modify|]. intros ?. apply emits_only_emit, HQ.
Qed.

(** ** [updateWallet] *)

Lemma updateWallet_runs (key : PrivateKey) (c : container) :
  exists p c' rest,
    updateWallet T (Some key) c =
      (Ok p, c',
       EEncrypt (wallet_object c) (toPublicKey key)
       :: EStore [("encrypted_wallet",
                   JStr (toBase64String (encrypt (wallet_object c) (toPublicKey key))))]
       :: rest)
    /\ locally_saved (wallet_object c) (toPublicKey key) c'
    /\ same_session c c'
    /\ same_connection c c'.
Proof.
  set (P := fun c' => locally_saved (wallet_object c) (toPublicKey key) c'
                      /\ same_session c c' /\ same_connection c c').
  enough (exists r c' t,
            updateWallet T (Some key) c = (r, c', t)
            /\ (exists p, r = Ok p)
            /\ (exists rest, t = EEncrypt (wallet_object c) (toPublicKey key)
                        :: EStore [("encrypted_wallet",
                             JStr (toBase64String (encrypt (wallet_object c) (toPublicKey key))))]
                        :: rest)
            /\ P c') as (r & c' & t & Hrun & [p ->] & [rest ->] & HP).
  { exists p, c', rest. split; [exact Hrun|exact HP]. }
  eexists _, _, _. split.
  - unfold updateWallet. step. step. apply promise_run.
    step. step. step. apply run_eta.
  - split; [eexists; reflexivity|]. split; [eexists; reflexivity|].
    match goal with
    | |- P (snd (fst (?m ?c1))) => enough (preserves P m) as Hm; [apply (Hm c1)|]
    end.
    + unfold P, locally_saved, same_session, same_connection. cbn.
      rewrite lookup_insert_eq. tauto.
    + repeat first
        [ apply preserves_storage_setState;
          intros ? ((Hew & ? & ?) & ? & ?);
          unfold P, locally_saved, same_session, same_connection in *;
          cbn [storage set_storage local_status notify wallet_object private_key api instance];
          rewrite storage_merge_lookup_ne by not_in_keys; tauto
        | apply preserves_modify;
          intros ? ((Hew & ? & ?) & ? & ?); unfold P, locally_saved; cbn; tauto
        | frame_step ].
Qed.

(** X1. Whatever the server answers, [updateWallet] with a key does not
    throw but returns a promise; its first two effects are the encryption of
    the wallet object for the key's public key and the write of that
    ciphertext to [encrypted_wallet]; and when it is over this ciphertext is
    still the persisted one, [local_status] is null and the notify flag is
    raised, while the wallet object, the key and the connection are as
    before. *)
Theorem updateWallet_saves_locally_first (key : PrivateKey) (c : container) :
  exists p c' rest,
    updateWallet T (Some key) c =
      (Ok p, c',
       EEncrypt (wallet_object c) (toPublicKey key)
       :: EStore [("encrypted_wallet",
                   JStr (toBase64String (encrypt (wallet_object c) (toPublicKey key))))]
       :: rest)
    /\ locally_saved (wallet_object c) (toPublicKey key) c'
    /\ same_session c c'
    /\ same_connection c c'.
Proof. apply updateWallet_runs. Qed.



Lemma updateWallet_local_run (key : PrivateKey) (c : container) :
  api c = false
  \/ sget "remote_copy" (storage c) <> JBool true
  \/ (nullish (sget "remote_token" (storage c)) = true /\ remote_status c = Text "No Content") ->
  updateWallet T (Some key) c =
    (Ok (Fulfilled (VWallet (wallet_object c))), saved_locally key c,
     [EEncrypt (wallet_object c) (toPublicKey key);
      EStore [("encrypted_wallet",
               JStr (toBase64String (encrypt (wallet_object c) (toPublicKey key))))]]).
Proof.
  intros Hlocal. running.
  - unfold updateWallet. step. step. apply promise_run.
    step. step. step. step.
    cbn [api set_notify set_local_status set_storage storage remote_status].
    eapply bind_run.
    { instantiate (1 := []). instantiate (1 := saved_locally key c).
      destruct (negb (api c) || negb (strict_eq (sget "remote_copy" (storage c)) (JBool true)))
        eqn:Hoff; [reflexivity|].
      destruct (nullish (sget "remote_token" (storage c))
                && bool_decide (remote_status c = Text "No Content")) eqn:Hnone; [reflexivity|].
      exfalso. apply orb_false_iff in Hoff as [Hapi Hcopy].
      apply negb_false_iff in Hapi, Hcopy. apply bool_decide_eq_true_1 in Hcopy.
      destruct Hlocal as [Hl | [Hl | [Hl Hs]]]; [congruence..|].
      rewrite Hl, Hs, bool_decide_eq_true_2 in Hnone by reflexivity. discriminate. }
    cbn beta. step. reflexivity.
  - split; [reflexivity|]. split; reflexivity.
Qed.

(** X2. Without a transport, or when [remote_copy] is not true, or when no
    token is persisted and [remote_status] is ["No Content"], [updateWallet]
    saves locally and stops there: the only effects are the encryption and
    the write of [encrypted_wallet], no request goes to the server, and the
    promise is fulfilled with the wallet object. *)
Theorem updateWallet_local_only (key : PrivateKey) (c : container) :
  api c = false
  \/ sget "remote_copy" (storage c) <> JBool true
  \/ (nullish (sget "remote_token" (storage c)) = true /\ remote_status c = Text "No Content") ->
  updateWallet T (Some key) c =
    (Ok (Fulfilled (VWallet (wallet_object c))), saved_locally key c,
     [EEncrypt (wallet_object c) (toPublicKey key);
      EStore [("encrypted_wallet",
               JStr (toBase64String (encrypt (wallet_object c) (toPublicKey key))))]]).
Proof. apply updateWallet_local_run. Qed.


(** X3. When the server answers a [saveWallet] with a status other than
    ["OK"] (a conflict), the promise of [updateWallet] is rejected with the
    "Unexpected WalletApi.saveWallet status" error, [remote_status] becomes
    the status received, and the storage state differs from the one before
    only in [encrypted_wallet], which holds the new ciphertext: [remote_hash]
    is the old one. *)
Theorem updateWallet_save_refused (key : PrivateKey) (c : container) (remote_hash : string)
    (json : server_wallet) :
  api c = true ->
  sget "remote_copy" (storage c) = JBool true ->
  sget "remote_hash" (storage c) = JStr remote_hash -> remote_hash <> "" ->
  remote_status c = Text "OK" \/ remote_status c = Text "Not Modified" ->
  let ciphertext := encrypt (wallet_object c) (toPublicKey key) in
  let signature := signBufferSha256 (sha256 ciphertext) key in
  api_saveWallet T (fromBase64String remote_hash) ciphertext signature = Fulfilled json ->
  statusText json <> Text "OK" ->
  updateWallet T (Some key) c =
    (Ok (RejectedWith (Error (instance c +:+ ":Unexpected WalletApi.saveWallet status: "
                              +:+ text_to_string (statusText json)))),
     set_remote_status (statusText json) (saved_locally key c),
     [EEncrypt (wallet_object c) (toPublicKey key);
      EStore [("encrypted_wallet", JStr (toBase64String ciphertext))];
      ESaveWallet (fromBase64String remote_hash) ciphertext signature]).
Proof.
  intros Hapi Hcopy Hold Hne Hstatus ciphertext signature Hreply Hrefused.
  apply String.eqb_neq in Hne.
  assert (Hearly : nullish (sget "remote_token" (storage c)) &&
                   bool_decide (remote_status c = Text "No Content") = false).
  { rewrite bool_decide_eq_false_2; [apply andb_false_r|].
    destruct Hstatus as [-> | ->]; discriminate. }
  assert (Hregex : regex_test ["OK"; "Not Modified"] (text_to_string (remote_status c)) = true).
  { destruct Hstatus as [-> | ->]; reflexivity. }
  running.
  - unfold updateWallet. step. step. apply promise_run.
    step. step. step. step.
    cbn [api set_notify set_local_status set_storage storage remote_status].
    rewrite Hapi, Hcopy. unfold strict_eq.
    rewrite (bool_decide_eq_true_2 (JBool true = JBool true)) by reflexivity.
    cbn [negb orb]. rewrite Hearly.
    cbn [storage_merge fold_left fst snd].
    rewrite !sget_insert_ne by discriminate.
    rewrite Hold. cbn [nullish text_nullish andb]. rewrite andb_false_r.
    eapply bind_run_err.
    eapply bind_run; [cbn [truthy text_truthy]; rewrite Hne; reflexivity|cbn beta].
    eapply bind_run; [rewrite Hregex; reflexivity|cbn beta].
    step. step. fold ciphertext signature. rewrite Hreply.
    step. rewrite bool_decide_eq_false_2 by exact Hrefused.
    step. step. step. reflexivity.
  - split; [reflexivity|]. split; reflexivity.
Qed.

Lemma updateWallet_written (key : PrivateKey) (c c' : container) (v : value)
    (t : list event) :
  let ciphertext := encrypt (wallet_object c) (toPublicKey key) in
  fromBase64String (toBase64String ciphertext) = ciphertext ->
  toBase64String ciphertext <> "" ->
  updateWallet T (Some key) c = (Ok (Fulfilled v), c', t) ->
  existsb server_write t = true ->
  local_ciphertext_hash (storage c') = Some (sha256 ciphertext)
  /\ sget "remote_hash" (storage c') = toBase64 (local_ciphertext_hash (storage c'))
  /\ remote_status c' = Text "Not Modified".
Proof.
  intros ciphertext Hround Hne. unfold updateWallet. run.
  unfold storage_setState. run. cbn [storage_merge fold_left fst snd].
  fold ciphertext.
  cbn [api set_notify set_local_status set_storage storage remote_status].
  destruct (negb (api c) || negb (strict_eq (sget "remote_copy" (storage c)) (JBool true))).
  { cbn. intros [= <- <- <-]. discriminate. }
  destruct (nullish (sget "remote_token" (storage c))
              && bool_decide (remote_status c = Text "No Content")).
  { cbn. intros [= <- <- <-]. discriminate. }
  rewrite !sget_insert_ne by discriminate.
  destruct (negb (nullish (sget "remote_token" (storage c))) &&
            nullish (sget "remote_hash" (storage c))).
  - destruct (loose_eq (remote_status c) (Text "No Content")); [|discriminate].
    cbn [app].
    destruct (api_createWallet T _ _ _) as [json|e]; [|discriminate].
    destruct (loose_eq (local_hash json) _) eqn:Hhash; [|discriminate].
    destruct (text_truthy (created json)) eqn:Hcreated; [|discriminate].
    destruct (text_truthy_Text _ Hcreated) as (date & Hdate & _).
    cbn. intros [= <- <- <-] _. cbn.
    match goal with
    | |- local_ciphertext_hash ?s = _ /\ _ =>
        assert (Hlocal : local_ciphertext_hash s = Some (sha256 ciphertext))
    end.
    { apply local_ciphertext_hash_insert; [exact Hround|exact Hne|].
      rewrite Hdate. by simplify_map_eq. }
    split; [exact Hlocal|]. split; [|reflexivity].
    rewrite Hlocal. unfold sget. rewrite Hdate. by simplify_map_eq.
  - destruct (truthy (sget "remote_hash" (storage c))); [|discriminate].
    destruct (regex_test _ _); [|discriminate].
    destruct (sget "remote_hash" (storage c)) as [b|[| |rh]]; try discriminate.
    cbn [new_Buffer]. run. cbn [app].
    match goal with
    | |- context [api_saveWallet T ?a ?b ?s] =>
        destruct (api_saveWallet T a b s) as [json|e]; [|discriminate]
    end.
    case_bool_decide; [|discriminate].
    destruct (loose_eq (local_hash json) _) eqn:Hhash; [|discriminate].
    destruct (text_truthy (updated json)) eqn:Hupdated; [|discriminate].
    destruct (text_truthy_Text _ Hupdated) as (date & Hdate & _).
    cbn. intros [= <- <- <-] _. cbn.
    match goal with
    | |- local_ciphertext_hash ?s = _ /\ _ =>
        assert (Hlocal : local_ciphertext_hash s = Some (sha256 ciphertext))
    end.
    { apply local_ciphertext_hash_insert; [exact Hround|exact Hne|].
      rewrite Hdate. by simplify_map_eq. }
    split; [exact Hlocal|]. split; [|reflexivity].
    rewrite Hlocal. unfold sget. rewrite Hdate. by simplify_map_eq.
Qed.

(** X4. Whenever [updateWallet] is fulfilled after a [createWallet] or a
    [saveWallet] request, the persisted [remote_hash] is the base64 of the
    local ciphertext hash, that hash is the hash of the ciphertext just
    written, and [remote_status] is ["Not Modified"] (for a ciphertext that
    base64 carries faithfully). *)
Theorem updateWallet_remote_hash (key : PrivateKey) (c c' : container) (v : value)
    (t : list event) :
  let ciphertext := encrypt (wallet_object c) (toPublicKey key) in
  fromBase64String (toBase64String ciphertext) = ciphertext ->
  toBase64String ciphertext <> "" ->
  updateWallet T (Some key) c = (Ok (Fulfilled v), c', t) ->
  existsb server_write t = true ->
  local_ciphertext_hash (storage c') = Some (sha256 ciphertext)
  /\ sget "remote_hash" (storage c') = toBase64 (local_ciphertext_hash (storage c'))
  /\ remote_status c' = Text "Not Modified".
Proof. exact (updateWallet_written key c c' v t). Qed.


(** ** [fetchWallet] *)

Lemma fetch_status_valid (sw : server_wallet) (s : gmap string jsval) :
  status_accepted (statusText sw) = true ->
  regex_test ["OK"; "No Content"; "Not Modified"]
             (text_to_string (fetch_status_text s sw)) = true.
Proof.
  unfold fetch_status_text, status_accepted, synthesized_status.
  destruct (text_truthy (statusText sw)); intros Hstatus; [exact Hstatus|].
  destruct (text_nullish _); [reflexivity|]. case_bool_decide; reflexivity.
Qed.

(** Runs the fetch handler up to its decision. *)
Ltac fetch_prefix sw c Htyped Hstatus :=
  unfold fetchWallet; step;
  (eapply bind_run; [apply fetch_local_hash, Htyped|cbn beta]);
  step;
  (eapply bind_run; [apply fetch_status|cbn beta zeta]);
  fold (synthesized_status (storage c) sw); fold (fetch_status_text (storage c) sw);
  step; rewrite (fetch_status_valid sw (storage c) Hstatus); step;
  (eapply bind_run; [apply fetch_remote_status|cbn beta]);
  cbn [remote_status set_storage]; fold (fetched sw c);
  step.

Lemma fetched_storage (sw : server_wallet) (c : container) :
  storage (fetched sw c) = storage_merge [("remote_hash", JText (local_hash sw))] (storage c).
Proof. unfold fetched. cbn zeta. destruct (loose_eq _ _); reflexivity. Qed.

Lemma fetched_remote_copy (sw : server_wallet) (c : container) :
  sget "remote_copy" (storage (fetched sw c)) = sget "remote_copy" (storage c).
Proof.
  rewrite fetched_storage. unfold sget.
  rewrite storage_merge_lookup_ne; [reflexivity|].
  cbn [map fst]. rewrite ?not_elem_of_cons. repeat split;
    first [discriminate | apply not_elem_of_nil].
Qed.

Lemma local_hash_text_has_local (s : gmap string jsval) (h : string) :
  local_hash_text s = Text h -> shas "encrypted_wallet" s = true.
Proof.
  unfold local_hash_text, local_ciphertext_hash, shas.
  destruct (s !! "encrypted_wallet") as [v|]; [|discriminate].
  intros _. apply bool_decide_eq_true_2. eauto.
Qed.

Lemma local_hash_text_typed (s : gmap string jsval) (h : string) :
  local_hash_text s = Text h -> ciphertext_typed s = true.
Proof.
  unfold local_hash_text, local_ciphertext_hash, ciphertext_typed.
  destruct (s !! "encrypted_wallet") as [[b|[| |ew]]|]; try discriminate.
  destruct (String.eqb ew ""); [discriminate|reflexivity].
Qed.

Lemma not_false (v : jsval) : v <> JBool false -> strict_eq v (JBool false) = false.
Proof. intros Hv. unfold strict_eq. apply bool_decide_eq_false_2, Hv. Qed.

(** X5. When the server hash is the local ciphertext hash and [remote_copy]
    is not false, the fetch handler returns [undefined] after the write of
    [remote_hash] (and the status assignment of a push event): it encrypts,
    decrypts and sends nothing, whatever [remote_hash] held before. *)
Theorem fetchWallet_in_sync (sw : server_wallet) (key : PrivateKey) (c : container)
    (h : string) :
  local_hash_text (storage c) = Text h ->
  local_hash sw = Text h ->
  status_accepted (statusText sw) = true ->
  sget "remote_copy" (storage c) <> JBool false ->
  fetchWallet T sw key c = (Ok None, set_notify true (fetched sw c), fetch_trace sw c).
Proof.
  intros Hlocal Hremote Hstatus Hcopy.
  pose proof (local_hash_text_typed _ _ Hlocal) as Htyped.
  running.
  - fetch_prefix sw c Htyped Hstatus.
    rewrite fetched_remote_copy, (not_false _ Hcopy), andb_false_r.
    rewrite (local_hash_text_has_local _ _ Hlocal), Hremote. cbn [text_nullish negb andb].
    step. rewrite Hlocal. unfold strict_eq. rewrite bool_decide_eq_true_2 by reflexivity.
    reflexivity.
  - split; [reflexivity|]. split; [reflexivity|].
    unfold fetch_trace. destruct (text_truthy (statusText sw)); reflexivity.
Qed.


Lemma saveServerWallet_run (sw : server_wallet) (key : PrivateKey) (c : container)
    (data : string) :
  encrypted_data sw = Text data ->
  saveServerWallet sw key c =
    match decrypt (fromBase64String data) key with
    | Some w =>
        (Ok (Fulfilled VUndefined), pulled sw w c,
         [EDecrypt (fromBase64String data) key;
          EStore [("remote_token", JNull);
                  ("remote_hash", JText (local_hash sw));
                  ("encrypted_wallet", JStr data);
                  ("remote_updated_date", JText (updated sw));
                  ("remote_created_date", JText (created sw))]])
    | None => (Ok (RejectedWith DecryptError), c, [EDecrypt (fromBase64String data) key])
    end.
Proof.
  intros Hdata. unfold saveServerWallet, pulled. rewrite Hdata. cbn [new_Buffer].
  destruct (decrypt (fromBase64String data) key) as [w|] eqn:Hw.
  - running.
    + step. step. apply promise_run. rewrite Hw. step. step. step. step. reflexivity.
    + split; [reflexivity|]. split; reflexivity.
  - running.
    + step. step. apply promise_run. rewrite Hw. reflexivity.
    + split; [reflexivity|]. split; reflexivity.
Qed.

Lemma pulled_storage (sw : server_wallet) (w : wmap) (c : container) (nh data : string) :
  local_hash sw = Text nh -> encrypted_data sw = Text data ->
  storage (pulled sw w c) !! "encrypted_wallet" = Some (JStr data)
  /\ storage (pulled sw w c) !! "remote_hash" = Some (JStr nh)
  /\ storage (pulled sw w c) !! "remote_token" = Some JNull.
Proof.
  intros Hnh Hdata. unfold pulled. cbn. rewrite Hnh, Hdata.
  destruct (updated sw) as [| |u], (created sw) as [| |d]; repeat split; by simplify_map_eq.
Qed.

Lemma fetchWallet_pull_run (sw : server_wallet) (key : PrivateKey) (c : container)
    (nh data : string) (w : wmap) :
  storage c !! "encrypted_wallet" = None ->
  local_hash sw = Text nh ->
  encrypted_data sw = Text data ->
  status_accepted (statusText sw) = true ->
  sget "remote_copy" (storage c) <> JBool false ->
  decrypt (fromBase64String data) key = Some w ->
  fetchWallet T sw key c =
    (Ok (Some (Fulfilled (VString "Not Modified"))),
     set_remote_status (Text "Not Modified") (pulled sw w (set_notify true (fetched sw c))),
     (fetch_trace sw c
      ++ [EDecrypt (fromBase64String data) key;
          EStore [("remote_token", JNull);
                  ("remote_hash", JStr nh);
                  ("encrypted_wallet", JStr data);
                  ("remote_updated_date", JText (updated sw));
                  ("remote_created_date", JText (created sw))]])%list).
Proof.
  intros Hnone Hnh Hdata Hstatus Hcopy Hw.
  assert (Htyped : ciphertext_typed (storage c) = true).
  { unfold ciphertext_typed. rewrite Hnone. reflexivity. }
  assert (Hlocal : shas "encrypted_wallet" (storage c) = false).
  { unfold shas. rewrite Hnone. apply bool_decide_eq_false_2. intros [? ?]. discriminate. }
  running.
  - fetch_prefix sw c Htyped Hstatus.
    rewrite fetched_remote_copy, (not_false _ Hcopy), andb_false_r.
    rewrite Hlocal, Hnh. cbn [text_nullish negb andb].
    step.
    eapply bind_run.
    { rewrite (saveServerWallet_run _ _ _ data Hdata), Hw. reflexivity. }
    cbn beta. eapply bind_run.
    { apply promise_run. step. step. reflexivity. }
    cbn beta. reflexivity.
  - split; [reflexivity|]. split; [reflexivity|].
    unfold fetch_trace, synthesized_status. rewrite Hnh.
    destruct (text_truthy (statusText sw)); reflexivity.
Qed.

Lemma fetched_session (sw : server_wallet) (c : container) :
  same_session c (fetched sw c) /\ same_connection c (fetched sw c).
Proof. unfold fetched. cbn zeta. destruct (loose_eq _ _); repeat split. Qed.

(** X6. Without a local wallet, when the server reports one and
    [remote_copy] is not false, the fetch handler pulls: it decrypts the
    server's ciphertext with the key, persists it with the server's hash and
    dates, replaces the wallet object by the decrypted wallet and ends with
    [remote_status] ["Not Modified"]; the key is untouched. *)
Theorem fetchWallet_pull (sw : server_wallet) (key : PrivateKey) (c : container)
    (nh data : string) (w : wmap) :
  storage c !! "encrypted_wallet" = None ->
  local_hash sw = Text nh ->
  encrypted_data sw = Text data ->
  status_accepted (statusText sw) = true ->
  sget "remote_copy" (storage c) <> JBool false ->
  decrypt (fromBase64String data) key = Some w ->
  exists c',
    fetchWallet T sw key c =
      (Ok (Some (Fulfilled (VString "Not Modified"))), c',
       (fetch_trace sw c
        ++ [EDecrypt (fromBase64String data) key;
            EStore [("remote_token", JNull);
                    ("remote_hash", JStr nh);
                    ("encrypted_wallet", JStr data);
                    ("remote_updated_date", JText (updated sw));
                    ("remote_created_date", JText (created sw))]])%list)
    /\ wallet_object c' = w
    /\ storage c' !! "encrypted_wallet" = Some (JStr data)
    /\ storage c' !! "remote_hash" = Some (JStr nh)
    /\ remote_status c' = Text "Not Modified"
    /\ local_status c' = Null
    /\ private_key c' = private_key c.
Proof.
  intros Hnone Hnh Hdata Hstatus Hcopy Hw.
  eexists. split; [apply (fetchWallet_pull_run sw key c nh data w); assumption|].
  destruct (pulled_storage sw w (set_notify true (fetched sw c)) nh data Hnh Hdata)
    as (Hew & Hrh & _).
  split; [reflexivity|]. split; [exact Hew|]. split; [exact Hrh|].
  split; [reflexivity|]. split; [reflexivity|].
  apply (fetched_session sw c).
Qed.

(** X7. When the server reports a wallet and [remote_copy] is false, the
    fetch handler asks the server to delete the wallet whose hash the server
    reported, signed with the key, and on success forgets [remote_hash] (and
    the two dates); the local [encrypted_wallet], the wallet object and the
    key stay. *)
Theorem fetchWallet_delete (sw : server_wallet) (key : PrivateKey) (c : container)
    (nh : string) :
  ciphertext_typed (storage c) = true ->
  local_hash sw = Text nh ->
  status_accepted (statusText sw) = true ->
  sget "remote_copy" (storage c) = JBool false ->
  api c = true ->
  let signature := signBufferSha256 (fromBase64String nh) key in
  api_deleteWallet T (fromBase64String nh) signature = Fulfilled tt ->
  exists c',
    fetchWallet T sw key c =
      (Ok (Some (Fulfilled VUndefined)), c',
       (fetch_trace sw c
        ++ [EDeleteWallet (fromBase64String nh) signature;
            EStore [("remote_hash", JUndefined);
                    ("remote_created_date", JUndefined);
                    ("remote_updated_date", JUndefined)]])%list)
    /\ storage c' !! "remote_hash" = None
    /\ storage c' !! "encrypted_wallet" = storage c !! "encrypted_wallet"
    /\ wallet_object c' = wallet_object c
    /\ private_key c' = private_key c.
Proof.
  intros Htyped Hnh Hstatus Hcopy Hapi signature Hreply.
  eexists. split.
  - running.
    + fetch_prefix sw c Htyped Hstatus.
      rewrite fetched_remote_copy, Hcopy, Hnh. cbn [text_nullish negb andb].
      unfold strict_eq. rewrite bool_decide_eq_true_2 by reflexivity.
      step. eapply bind_run.
      { unfold deleteRemoteWallet. step. step. step.
        replace (api (set_notify true (fetched sw c))) with true
          by (unfold fetched; cbn; destruct (loose_eq _ _); symmetry; exact Hapi).
        step. step. apply promise_run. fold signature. rewrite Hreply.
        step. step. step. reflexivity. }
      cbn beta. reflexivity.
    + split; [reflexivity|]. split; [reflexivity|].
      unfold fetch_trace, synthesized_status. rewrite Hnh.
      destruct (text_truthy (statusText sw)); reflexivity.
  - cbn [storage set_storage wallet_object private_key set_notify].
    rewrite fetched_storage.
    split; [cbn; by simplify_map_eq|].
    split.
    { rewrite !storage_merge_lookup_ne; [reflexivity|..];
        cbn [map fst]; rewrite ?not_elem_of_cons; repeat split;
        first [discriminate | apply not_elem_of_nil]. }
    unfold fetched. cbn. destruct (loose_eq _ _); split; reflexivity.
Qed.


(** X8. When the server still holds the wallet of the persisted
    [remote_hash] and the local ciphertext is another one, the fetch handler
    pushes: what it does after the write of [remote_hash] (and the status
    assignment of a push event) is [updateWallet] with the key, whose promise
    it returns. *)
Theorem fetchWallet_push (sw : server_wallet) (key : PrivateKey) (c : container)
    (lh nh : string) :
  local_hash_text (storage c) = Text lh ->
  local_hash sw = Text nh ->
  sget "remote_hash" (storage c) = JStr nh ->
  lh <> nh ->
  status_accepted (statusText sw) = true ->
  sget "remote_copy" (storage c) <> JBool false ->
  fetchWallet T sw key c =
    let '(r, c', t) := updateWallet T (Some key) (set_notify true (fetched sw c)) in
    (match r with Ok p => Ok (Some p) | Err e => Err e end, c', (fetch_trace sw c ++ t)%list).
Proof.
  intros Hlocal Hnh Hold Hdiff Hstatus Hcopy.
  pose proof (local_hash_text_typed _ _ Hlocal) as Htyped.
  destruct (updateWallet T (Some key) (set_notify true (fetched sw c))) as [[r c'] t] eqn:Hup.
  running.
  - fetch_prefix sw c Htyped Hstatus.
    rewrite fetched_remote_copy, (not_false _ Hcopy), andb_false_r.
    rewrite (local_hash_text_has_local _ _ Hlocal), Hnh. cbn [text_nullish negb andb].
    step. rewrite Hlocal, Hold. unfold strict_eq.
    rewrite (bool_decide_eq_false_2 (JStr lh = JStr nh)) by congruence.
    rewrite (bool_decide_eq_true_2 (JStr nh = JStr nh)) by reflexivity.
    cbn [negb andb].
    instantiate (1 := (t ++ [])%list). instantiate (1 := c').
    instantiate (1 := match r with Ok p => Ok (Some p) | Err e => Err e end).
    destruct r as [p|e].
    + eapply bind_run; [exact Hup|reflexivity].
    + rewrite app_nil_r. apply bind_run_err. exact Hup.
  - split; [reflexivity|]. split; [reflexivity|].
    unfold fetch_trace, synthesized_status. rewrite Hnh.
    destruct (text_truthy (statusText sw)); rewrite ?app_nil_r; reflexivity.
Qed.

(** X9. A status text that is not empty and names none of ["OK"],
    ["No Content"], ["Not Modified"] makes the fetch handler fail with the
    "Invalid status" assertion, but after it has written the server hash to
    [remote_hash]: that write is the only change, [remote_status] is
    untouched. *)
Theorem fetchWallet_invalid_status (sw : server_wallet) (key : PrivateKey) (c : container) :
  ciphertext_typed (storage c) = true ->
  status_accepted (statusText sw) = false ->
  fetchWallet T sw key c =
    (Err (AssertionError (instance c +:+ " Invalid status: "
                          +:+ text_to_string (statusText sw))),
     set_storage (storage_merge [("remote_hash", JText (local_hash sw))] (storage c)) c,
     [EStore [("remote_hash", JText (local_hash sw))]]).
Proof.
  intros Htyped Hstatus. unfold status_accepted in Hstatus.
  apply orb_false_iff in Hstatus as [Htext Hregex]. apply negb_false_iff in Htext.
  running.
  - unfold fetchWallet. step.
    eapply bind_run; [apply fetch_local_hash, Htyped|cbn beta].
    step.
    eapply bind_run; [apply fetch_status|cbn beta zeta].
    rewrite Htext. step. rewrite Hregex. apply bind_run_err. reflexivity.
  - split; [reflexivity|]. split; [reflexivity|]. rewrite Htext. reflexivity.
Qed.



(** ** What the handlers never touch *)

Ltac frame :=
  repeat first
    [ apply preserves_modify; intros ? HP; exact HP
    | apply emits_only_emit; discriminate
    | frame_step ].

Lemma updateWallet_silent (key : option PrivateKey) :
  emits_only (fun e => e <> ENotify) (updateWallet T key).
Proof. unfold updateWallet, storage_setState. frame. Qed.

Lemma fetchWalletCallback_frame (sw : server_wallet) (key : PrivateKey) (c0 : container) :
  preserves (same_connection c0) (fetchWalletCallback T sw key).
Proof.
  unfold fetchWalletCallback, fetchWallet, notifyResolve, notifySubscribers,
    deleteRemoteWallet, saveServerWallet, updateWallet, storage_setState.
  frame.
Qed.

(** X10. Whatever the server sent and whatever it answers, the fetch
    callback (push, pull, delete, conflict or failure) leaves the key and the
    connection alone: it neither locks nor unlocks the container. *)
Theorem fetchWalletCallback_keeps_connection (sw : server_wallet) (key : PrivateKey)
    (c : container) :
  same_connection c (fetchWalletCallback T sw key c).1.2.
Proof. apply fetchWalletCallback_frame. repeat split. Qed.

Lemma promise_await {A} (p : settled A) (c : container) :
  promise (await p) c = (Ok p, c, []).
Proof. destruct p; reflexivity. Qed.

Lemma notifyResolve_run (p : settled value) (c : container) :
  notifyResolve (Some p) c =
    (Ok p, set_notify false c, if notify c then [ENotify] else []).
Proof.
  unfold notifyResolve, notifySubscribers. run.
  destruct p, c as [? ? ? ? ? [|] ? ?]; reflexivity.
Qed.

(** X11. A call of [setState] that changes the tree returns a promise and
    notifies the subscribers exactly once, at the very end, whatever the
    server answers; the notify flag is then down and the wallet object is the
    merged tree with [last_modified] set. Called again with the same argument
    (one that has distinct keys and does not name [last_modified]), it does
    nothing at all. *)
Theorem setState_notifies_once (now : string) (x : wmap) (c : container) :
  is_Some (private_key c) ->
  whas "created" (wallet_object c) = true ->
  mergeDeep (wallet_object c) x <> wallet_object c ->
  exists p c' t,
    setState T now x c = (Ok p, c', (t ++ [ENotify])%list)
    /\ Forall (fun e => e <> ENotify) t
    /\ notify c' = false
    /\ wallet_object c' = wset "last_modified" (TStr now) (mergeDeep (wallet_object c) x)
    /\ (distinct_keys_map x -> "last_modified" ∉ map fst x ->
        forall now', setState T now' x c' = (Ok (Fulfilled VUndefined), c', [])).
Proof.
  intros Hkey Hcreated Hdiff. pose proof Hkey as [k Hk].
  set (w := wset "last_modified" (TStr now) (mergeDeep (wallet_object c) x)).
  set (c1 := set_wallet_object w
               (set_wallet_object (mergeDeep (wallet_object c) x)
                  (set_local_status (Text "Pending") (set_notify true c)))).
  destruct (updateWallet_runs k c1)
    as (p & c2 & rest & Hup & (_ & _ & Hnotify) & (Hw & _) & _).
  pose proof (updateWallet_silent (Some k) c1) as Hsilent. rewrite Hup in Hsilent.
  cbn [snd] in Hsilent.
  enough (exists r c' t,
            setState T now x c = (r, c', t)
            /\ r = Ok p /\ c' = set_notify false c2
            /\ t = ((EEncrypt (wallet_object c1) (toPublicKey k)
                      :: EStore [("encrypted_wallet",
                                  JStr (toBase64String
                                          (encrypt (wallet_object c1) (toPublicKey k))))]
                      :: rest) ++ [ENotify])%list)
    as (r & c' & t & Hrun & -> & -> & ->).
  { eexists _, _, _. split; [exact Hrun|]. split; [exact Hsilent|].
    split; [reflexivity|]. split; [exact Hw|].
    intros Hwf Hlm now'. exact (setState_twice T now now' x c Hkey Hcreated Hwf Hlm _ _ _ Hrun). }
  eexists _, _, _. split.
  - unfold setState. step. rewrite Hk. step. rewrite Hcreated. step.
    unfold same_map. rewrite bool_decide_eq_false_2 by congruence.
    step. step. step. step. step.
    cbn [private_key set_wallet_object set_local_status set_notify]. rewrite Hk.
    fold w. fold c1.
    eapply bind_run; [exact Hup|cbn beta].
    eapply bind_run; [apply promise_await|cbn beta].
    rewrite notifyResolve_run, Hnotify. reflexivity.
  - split; [reflexivity|]. split; [reflexivity|].
    rewrite ?app_nil_r. reflexivity.
Qed.


(** ** [changePassword] *)

(** X12. The guards of [changePassword] in the order the code has them: a
    missing password is reported first, even on a locked container; then the
    lock; then the missing local wallet. Each is thrown synchronously with
    the container unchanged and nothing done. *)
Theorem changePassword_validation (okey : option PrivateKey) (now : string)
    (password email username : jsval) (c : container) :
  (nullish password = true ->
   changePassword T okey now password email username c
   = (Err (Error "password_required"), c, []))
  /\ (nullish password = false -> private_key c = None ->
      changePassword T okey now password email username c
      = (Err (Error "Wallet is locked"), c, []))
  /\ (nullish password = false -> is_Some (private_key c) ->
      truthy (sget "encrypted_wallet" (storage c)) = false ->
      changePassword T okey now password email username c
      = (Err (Error "wallet_empty"), c, [])).
Proof.
  split; [|split].
  - intros Hpw. unfold changePassword. apply bind_run_err.
    unfold req. rewrite Hpw. reflexivity.
  - intros Hpw Hlocked. running.
    + unfold changePassword.
      eapply bind_run; [unfold req; rewrite Hpw; reflexivity|cbn beta].
      step. rewrite Hlocked. reflexivity.
    + split; [reflexivity|]. split; reflexivity.
  - intros Hpw [k Hk] Hempty. running.
    + unfold changePassword.
      eapply bind_run; [unfold req; rewrite Hpw; reflexivity|cbn beta].
      step. rewrite Hk. apply bind_run_err. rewrite Hempty. reflexivity.
    + split; [reflexivity|]. split; reflexivity.
Qed.

(** X13. With an email or a username that is blank once trimmed (or left
    out), on a container whose persisted [remote_copy] is truthy,
    [changePassword] fails with the weak-password assertion before it has
    changed or encrypted anything. *)
Theorem changePassword_weak_refused (okey : option PrivateKey) (now : string)
    (password email username : jsval) (c : container) (e u : string) :
  is_Some (private_key c) ->
  truthy (sget "encrypted_wallet" (storage c)) = true ->
  nullish password = false ->
  or_empty email = JStr e -> or_empty username = JStr u ->
  trim e = "" \/ trim u = "" ->
  truthy (sget "remote_copy" (storage c)) = true ->
  changePassword T okey now password email username c =
    (Err (AssertionError "Remote copies are enabled, but an email or username is missing from this wallet's encryption key."),
     c, []).
Proof.
  intros [k Hk] Hew Hpw He Hu Hweak Hcopy.
  assert (Hw : String.eqb (trim e) "" || String.eqb (trim u) "" = true).
  { destruct Hweak as [-> | ->]; [reflexivity|apply orb_true_r]. }
  running.
  - unfold changePassword.
    eapply bind_run; [unfold req; rewrite Hpw; reflexivity|cbn beta].
    step. rewrite Hk. eapply bind_run; [rewrite Hew; reflexivity|cbn beta].
    rewrite He, Hu. step. step. apply bind_run_err.
    rewrite Hw, Hcopy. reflexivity.
  - split; [reflexivity|]. split; reflexivity.
Qed.

(** ** Writes to the storage state *)

Lemma replay_app (t1 t2 : list event) (s : gmap string jsval) :
  replay (t1 ++ t2) s = replay t2 (replay t1 s).
Proof.
  revert s. induction t1 as [|e t1 IH]; intros s; [reflexivity|].
  destruct e; cbn [app replay]; apply IH.
Qed.

Lemma replay_unwritten (t : list event) (s : gmap string jsval) :
  Forall (fun e => is_store e = false) t -> replay t s = s.
Proof.
  induction 1 as [|e t He _ IH]; [reflexivity|].
  destruct e; try discriminate; exact IH.
Qed.

Lemma replays_ret {A} (a : A) : replays (mret a).
Proof. intros c. reflexivity. Qed.

Lemma replays_throw {A} (e : error) : replays (throw (A := A) e).
Proof. intros c. reflexivity. Qed.

Lemma replays_get : replays get.
Proof. intros c. reflexivity. Qed.

Lemma replays_emit (e : event) : is_store e = false -> replays (emit e).
Proof. intros He c. destruct e; try discriminate; reflexivity. Qed.

Lemma replays_modify (f : container -> container) :
  (forall c, storage (f c) = storage c) -> replays (modify f).
Proof. intros Hf c. apply Hf. Qed.

Lemma replays_storage_setState (partial : list (string * jsval)) :
  replays (storage_setState partial).
Proof. intros c. reflexivity. Qed.

Lemma replays_bind {A B} (m : M A) (f : A -> M B) :
  replays m -> (forall a, replays (f a)) -> replays (m ≫= f).
Proof.
  intros Hm Hf c. specialize (Hm c). unfold mbind, M_bind.
  destruct (m c) as [[[a|e] c1] t1]; cbn in *; [|exact Hm].
  specialize (Hf a c1). destruct (f a c1) as [[r c2] t2]. cbn in *.
  rewrite replay_app, <- Hm. exact Hf.
Qed.

Lemma replays_promise {A} (m : M A) : replays m -> replays (promise m).
Proof.
  intros Hm c. specialize (Hm c). unfold promise.
  destruct (m c) as [[[a|e] c1] t1]; exact Hm.
Qed.

Lemma replays_assert (b : bool) (msg : string) : replays (assert b msg).
Proof. destruct b; [apply replays_ret|apply replays_throw]. Qed.

Lemma replays_await {A} (p : settled A) : replays (await p).
Proof. destruct p; [apply replays_ret|apply replays_throw]. Qed.

Lemma replays_new_Buffer (v : jsval) : replays (new_Buffer v).
Proof. destruct v as [b|[| |s]]; first [apply replays_ret|apply replays_throw]. Qed.

Lemma replays_localHash : replays localHash.
Proof.
  unfold localHash. apply replays_bind; [apply replays_get|]. intros c.
  destruct (negb _); [apply replays_ret|].
  apply replays_bind; [apply replays_new_Buffer|]. intros b. apply replays_ret.
Qed.

Ltac replay_step :=
  first
    [ apply replays_localHash | apply replays_new_Buffer
    | apply replays_storage_setState
    | apply replays_ret | apply replays_throw | apply replays_get
    | apply replays_assert | apply replays_await
    | apply replays_emit; reflexivity
    | apply replays_modify; intros ?; reflexivity
    | apply replays_promise
    | apply replays_bind; [|intros ?]
    | match goal with
      | |- replays (if ?b then _ else _) => destruct b
      | |- replays (match ?x with _ => _ end) => destruct x
      end ].

Ltac replaying := repeat replay_step.

Lemma replays_deleteRemoteWallet (key : PrivateKey) (hash : hash_arg) :
  replays (deleteRemoteWallet T key hash).
Proof. unfold deleteRemoteWallet. replaying. Qed.

Lemma replays_saveServerWallet (sw : server_wallet) (key : PrivateKey) :
  replays (saveServerWallet sw key).
Proof. unfold saveServerWallet. replaying. Qed.

Lemma replays_updateWallet (key : option PrivateKey) : replays (updateWallet T key).
Proof. unfold updateWallet. replaying. Qed.

Lemma replays_fetchWallet (sw : server_wallet) (key : PrivateKey) :
  replays (fetchWallet T sw key).
Proof.
  unfold fetchWallet.
  repeat first
    [ apply replays_deleteRemoteWallet | apply replays_saveServerWallet
    | apply replays_updateWallet | replay_step ].
Qed.

(** ** Failing before writing *)

Lemma returns_ret {A} (a : A) : returns (mret a).
Proof. intros c. eexists. reflexivity. Qed.

Lemma returns_get : returns get.
Proof. intros c. eexists. reflexivity. Qed.

Lemma returns_emit (e : event) : returns (emit e).
Proof. intros c. eexists. reflexivity. Qed.

Lemma returns_modify (f : container -> container) : returns (modify f).
Proof. intros c. eexists. reflexivity. Qed.

Lemma returns_promise {A} (m : M A) : returns (promise m).
Proof. intros c. unfold promise. destruct (m c) as [[[a|e] c1] t1]; eexists; reflexivity. Qed.

Lemma returns_bind {A B} (m : M A) (f : A -> M B) :
  returns m -> (forall a, returns (f a)) -> returns (m ≫= f).
Proof.
  intros Hm Hf c. destruct (Hm c) as [a Ha]. unfold mbind, M_bind.
  destruct (m c) as [[r c1] t1]. cbn in Ha. subst r.
  destruct (Hf a c1) as [b Hb]. destruct (f a c1) as [[r c2] t2]. cbn in *.
  exists b. exact Hb.
Qed.

Lemma throws_unwritten_quiet {A} (m : M A) :
  emits_only (fun e => is_store e = false) m -> throws_unwritten m.
Proof. intros Hm c e _. apply Hm. Qed.

Lemma throws_unwritten_returns {A} (m : M A) : returns m -> throws_unwritten m.
Proof. intros Hm c e He. destruct (Hm c) as [a Ha]. congruence. Qed.

Lemma throws_unwritten_bind_quiet {A B} (m : M A) (f : A -> M B) :
  emits_only (fun e => is_store e = false) m ->
  (forall a, throws_unwritten (f a)) -> throws_unwritten (m ≫= f).
Proof.
  intros Hm Hf c e. specialize (Hm c). unfold mbind, M_bind.
  destruct (m c) as [[[a|e'] c1] t1]; cbn in *; [|intros _; exact Hm].
  specialize (Hf a c1 e). destruct (f a c1) as [[r c2] t2]. cbn in *.
  intros He. apply Forall_app. split; [exact Hm|exact (Hf He)].
Qed.

Lemma throws_unwritten_bind_returns {A B} (m : M A) (f : A -> M B) :
  throws_unwritten m -> (forall a, returns (f a)) -> throws_unwritten (m ≫= f).
Proof.
  intros Hm Hf c e. specialize (Hm c e). unfold mbind, M_bind.
  destruct (m c) as [[[a|e'] c1] t1]; cbn in *; [|intros [= ->]; apply Hm; reflexivity].
  destruct (Hf a c1) as [b Hb]. destruct (f a c1) as [[r c2] t2]. cbn in *.
  congruence.
Qed.

Ltac quiet := solve [repeat first [apply emits_only_emit; reflexivity | frame_step]].

Lemma returns_updateWallet (key : PrivateKey) : returns (updateWallet T (Some key)).
Proof.
  unfold updateWallet. apply returns_bind; [apply returns_get|intros ?].
  apply returns_bind; [apply returns_emit|intros ?]. apply returns_promise.
Qed.

Ltac returning :=
  solve [repeat first
           [ apply returns_updateWallet
           | apply returns_ret | apply returns_get | apply returns_emit
           | apply returns_modify | apply returns_promise
           | apply returns_bind; [|intros ?] ]].

Lemma throws_unwritten_deleteRemoteWallet (key : PrivateKey) (hash : hash_arg) :
  throws_unwritten (deleteRemoteWallet T key hash).
Proof.
  unfold deleteRemoteWallet.
  apply throws_unwritten_bind_quiet; [quiet|intros ?].
  apply throws_unwritten_bind_quiet; [quiet|intros ?].
  apply throws_unwritten_bind_quiet; [quiet|intros ?].
  apply throws_unwritten_bind_quiet; [quiet|intros ?].
  apply throws_unwritten_bind_quiet; [quiet|intros ?].
  apply throws_unwritten_returns, returns_promise.
Qed.

Lemma throws_unwritten_saveServerWallet (sw : server_wallet) (key : PrivateKey) :
  throws_unwritten (saveServerWallet sw key).
Proof.
  unfold saveServerWallet.
  apply throws_unwritten_bind_quiet; [quiet|intros ?].
  apply throws_unwritten_bind_quiet; [quiet|intros ?].
  apply throws_unwritten_returns, returns_promise.
Qed.

Ltac unwritten_step :=
  first
    [ apply throws_unwritten_bind_quiet; [quiet|intros ?]
    | match goal with
      | |- throws_unwritten (if ?b then _ else _) => destruct b
      end
    | apply throws_unwritten_bind_returns;
      [ first [ apply throws_unwritten_deleteRemoteWallet
              | apply throws_unwritten_saveServerWallet ]
      | intros ?; returning ]
    | apply throws_unwritten_returns; returning
    | apply throws_unwritten_quiet; quiet ].

(** C2. On a storage state whose [encrypted_wallet] is what the data model
    says, the first effect of every invocation of the fetch handler is the
    write of [remote_hash := server_wallet.local_hash], and the write is in
    the storage state: what the handler leaves is what its later writes, in
    order, make of the state with that hash in it, and when the handler
    throws (the status is invalid, the wallets conflict, a conversion or the
    missing transport fails) it leaves that state itself, nothing else
    written, in which the state store answers the server's hash for
    [remote_hash]. When the record carries no status text, the next effect
    is the assignment to [server_wallet.statusText] of ["No Content"] if the
    server hash is null, ["Not Modified"] if the local ciphertext hash equals
    the server hash, and ["OK"] otherwise. *)
Theorem fetchWallet_persists_first (sw : server_wallet) (key : PrivateKey) (c : container) :
  ciphertext_typed (storage c) = true ->
  let write := [("remote_hash", JText (local_hash sw))] in
  exists r c' rest,
    fetchWallet T sw key c = (r, c', EStore write :: rest)
    /\ storage c' = replay rest (storage_merge write (storage c))
    /\ (forall e, r = Err e ->
        storage c' = storage_merge write (storage c)
        /\ sget "remote_hash" (storage c') = JText (local_hash sw))
    /\ (text_truthy (statusText sw) = false ->
        exists rest', rest = EStatusText (synthesized_status (storage c) sw) :: rest').
Proof.
  intros Htyped write.
  enough (exists r c' trace,
            fetchWallet T sw key c = (r, c', trace) /\
            exists rest,
              trace = EStore write :: rest /\
              (forall e, r = Err e -> Forall (fun e => is_store e = false) rest) /\
              (text_truthy (statusText sw) = false ->
               exists rest', rest = EStatusText (synthesized_status (storage c) sw) :: rest'))
    as (r & c' & trace & Hrun & rest & -> & Herr & Hrest).
  { assert (Hreplay : storage c' = replay rest (storage_merge write (storage c))).
    { pose proof (replays_fetchWallet sw key c) as Hr. rewrite Hrun in Hr. exact Hr. }
    exists r, c', rest. split; [exact Hrun|]. split; [exact Hreplay|]. split; [|exact Hrest].
    intros e He.
    assert (Hleft : storage c' = storage_merge write (storage c)).
    { rewrite Hreplay. apply replay_unwritten, (Herr e He). }
    split; [exact Hleft|]. rewrite Hleft. apply sget_storage_merge. }
  eexists _, _, _. split.
  - unfold fetchWallet. step.
    eapply bind_run; [apply fetch_local_hash, Htyped|cbn beta].
    step.
    eapply bind_run; [apply fetch_status|cbn beta zeta].
    apply run_eta.
  - cbn [app]. eexists. split; [reflexivity|]. split.
    + intros e He. apply Forall_app. split.
      { destruct (text_truthy (statusText sw)); repeat constructor. }
      revert e He.
      match goal with
      | |- forall e, (?m ?c1).1.1 = Err e -> _ =>
          enough (throws_unwritten m) as Hm; [exact (Hm c1)|]
      end.
      repeat unwritten_step.
    + intros ->. eexists. reflexivity.
Qed.

(** ** The server writes and [remote_hash] *)




(** ** [changePassword]: the reply that never comes *)



End Reconciliation.

(** * The public methods *)

Section SessionProperties.

Context `{Crypto}.
Variable T : Transport.
Variable N : Host.

(** ** Running a public method step by step *)

Lemma session_bind_run {A B} (m : Session A) (f : A -> Session B) c a c1 t1 r c2 t2 :
  m c = (Ok a, c1, t1) ->
  f a c1 = (r, c2, t2) ->
  (m ≫= f) c = (r, c2, (t1 ++ t2)%list).
Proof. intros Hm Hf. unfold mbind, Session_bind. rewrite Hm, Hf. reflexivity. Qed.

Lemma session_bind_run_err {A B} (m : Session A) (f : A -> Session B) c e c1 t1 :
  m c = (Err e, c1, t1) -> (m ≫= f) c = (Err e, c1, t1).
Proof. intros Hm. unfold mbind, Session_bind. rewrite Hm. reflexivity. Qed.

Lemma lift_run {A} (m : M A) c r c1 t1 :
  m c = (r, c1, t1) -> lift m c = (r, c1, map Effect t1).
Proof. intros Hm. unfold lift. rewrite Hm. reflexivity. Qed.

Lemma promised_run {A} (m : Session A) c r c1 t1 :
  m c = (r, c1, t1) ->
  promised m c =
    (Ok (match r with Ok a => Fulfilled a | Err e => RejectedWith e end), c1, t1).
Proof. intros Hm. unfold promised. rewrite Hm. destruct r; reflexivity. Qed.

Lemma session_run_as {A} (x : result A * container * list session_event) r c t :
  (exists r' c' t', x = (r', c', t') /\ r' = r /\ c' = c /\ t' = t) -> x = (r, c, t).
Proof. intros (r' & c' & t' & -> & -> & -> & ->). reflexivity. Qed.

Ltac step := eapply session_bind_run; [reflexivity|cbn beta].
Ltac running := apply session_run_as; eexists _, _, _; split.

Ltac not_in_keys :=
  cbn [map fst]; rewrite ?not_elem_of_cons; repeat split;
  first [discriminate | apply not_elem_of_nil].

Lemma localHash_run (c : container) :
  ciphertext_typed (storage c) = true ->
  localHash c = (Ok (local_ciphertext_hash (storage c)), c, []).
Proof.
  unfold ciphertext_typed, localHash, local_ciphertext_hash, sget. run.
  destruct (storage c !! "encrypted_wallet") as [[b|[| |ew]]|]; try discriminate;
    try reflexivity.
  cbn. destruct (String.eqb ew ""); [discriminate|reflexivity].
Qed.

(** ** [sync] *)

(** X16. With a subscription in place and a [remote_status] that holds
    neither ["No Content"] nor ["Not Modified"] (["Conflict"], say),
    [getState] throws the assertion of [sync] synchronously, before anything
    is done: it does not return a rejected promise. *)
Theorem getState_unsettled_status (c : container) (k : PrivateKey) :
  private_key c = Some k ->
  api c = true ->
  noSubscriptionId N "fetchWallet" (publicKeyString (toPublicKey k)) = false ->
  regex_test ["No Content"; "Not Modified"] (text_to_string (remote_status c)) = false ->
  getState T N c =
    (Err (AssertionError ("Expecting No Content or Not Modified, got "
                          +:+ text_to_string (remote_status c))),
     c, []).
Proof.
  intros Hk Hapi Hsub Hregex. running.
  - unfold getState. step. rewrite Hk. apply session_bind_run_err.
    unfold sync. step. rewrite Hapi, Hsub. cbn [negb].
    step. apply session_bind_run_err. rewrite Hregex. reflexivity.
  - split; [reflexivity|]. split; reflexivity.
Qed.


Lemma fetchWalletCallback_returns (sw : server_wallet) (key : PrivateKey) (c : container) :
  exists p c' t, fetchWalletCallback T sw key c = (Ok p, c', t).
Proof.
  unfold fetchWalletCallback.
  match goal with
  | |- context [promise ?m] => destruct (promise m c) as [[r c1] t1] eqn:Hp
  end.
  assert (exists p, r = Ok p) as [p ->].
  { unfold promise in Hp.
    match type of Hp with
    | match ?x with _ => _ end = _ => destruct x as [[[a|e] ?] ?]
    end; injection Hp as <- _ _; eauto. }
  destruct (negb (text_truthy (statusText sw))).
  - eexists _, _, _. eapply bind_run; [exact Hp|cbn beta]. apply notifyResolve_run.
  - eexists _, _, _. eapply bind_run; [exact Hp|cbn beta]. reflexivity.
Qed.

Lemma sync_subscribes_run (key : PrivateKey) (c : container) :
  api c = true ->
  noSubscriptionId N "fetchWallet" (publicKeyString (toPublicKey key)) = true ->
  ciphertext_typed (storage c) = true ->
  let request := EFetchWallet (toPublicKey key) (local_ciphertext_hash (storage c)) in
  sync T N (Some key) c =
    match api_fetchWallet N (toPublicKey key) (local_ciphertext_hash (storage c)) with
    | RejectedWith e => (Ok (RejectedWith e), c, [request])
    | Fulfilled server_wallet =>
        let '(r, c', t) := fetchWalletCallback T server_wallet key c in
        (r, c', request :: map Effect t)
    end.
Proof.
  intros Hapi Hnone Htyped request.
  destruct (api_fetchWallet N _ _) as [sw|e] eqn:Hreply.
  - destruct (fetchWalletCallback_returns sw key c) as (p & c' & t & Hcb). rewrite Hcb.
    running.
    + unfold sync. step. rewrite Hapi, Hnone. cbn [negb].
      apply (promised_run _ _ (match p with Fulfilled v => Ok v | RejectedWith e => Err e end)).
      eapply session_bind_run; [apply lift_run, localHash_run, Htyped|cbn beta].
      step. rewrite Hreply. step.
      eapply session_bind_run; [apply lift_run, Hcb|cbn beta].
      destruct p; reflexivity.
    + split; [destruct p; reflexivity|]. split; [reflexivity|].
      cbn. rewrite app_nil_r. reflexivity.
  - running.
    + unfold sync. step. rewrite Hapi, Hnone. cbn [negb].
      apply (promised_run _ _ (Err e)).
      eapply session_bind_run; [apply lift_run, localHash_run, Htyped|cbn beta].
      step. rewrite Hreply. apply session_bind_run_err. reflexivity.
    + split; [reflexivity|]. split; reflexivity.
Qed.

(** X15. On an unlocked container with a transport and no subscription for
    the key, [sync] opens one: it sends the public key and the local
    ciphertext hash, and its promise is the one of the fetch callback run on
    the record the server answers with, or is rejected with the error of the
    request, nothing else having happened. *)
Theorem sync_subscribes (key : PrivateKey) (c : container) :
  api c = true ->
  noSubscriptionId N "fetchWallet" (publicKeyString (toPublicKey key)) = true ->
  ciphertext_typed (storage c) = true ->
  let request := EFetchWallet (toPublicKey key) (local_ciphertext_hash (storage c)) in
  sync T N (Some key) c =
    match api_fetchWallet N (toPublicKey key) (local_ciphertext_hash (storage c)) with
    | RejectedWith e => (Ok (RejectedWith e), c, [request])
    | Fulfilled server_wallet =>
        let '(r, c', t) := fetchWalletCallback T server_wallet key c in
        (r, c', request :: map Effect t)
    end.
Proof. apply sync_subscribes_run. Qed.



(** X17. With a subscription in place and a settled status, [getState]
    runs [updateWallet]: the wallet object is encrypted and persisted anew
    (and sent to the server, if that is what [updateWallet] does), the
    subscribers are notified once, and the promise is fulfilled with the
    wallet object or rejected with the error of [updateWallet]. *)
Theorem getState_reconciles (c : container) (k : PrivateKey) :
  private_key c = Some k ->
  api c = true ->
  noSubscriptionId N "fetchWallet" (publicKeyString (toPublicKey k)) = false ->
  remote_status c = Text "No Content"
  \/ (remote_status c = Text "Not Modified"
      /\ sget "remote_copy" (storage c) <> JBool false) ->
  exists p c1 rest,
    updateWallet T (Some k) c = (Ok p, c1, rest)
    /\ getState T N c =
         (Ok (Answer (match p with
                      | Fulfilled _ => Fulfilled (VWallet (wallet_object c))
                      | RejectedWith e => RejectedWith e
                      end)),
          set_notify false c1, (map Effect rest ++ [Effect ENotify])%list)
    /\ locally_saved (wallet_object c) (toPublicKey k) c1.
Proof.
  intros Hk Hapi Hsub Hstatus.
  destruct (updateWallet_runs T k c) as (p & c1 & rest & Hup & Hsaved & (Hw & _) & _).
  eexists p, c1, _. split; [exact Hup|]. split; [|exact Hsaved].
  assert (Hregex : regex_test ["No Content"; "Not Modified"]
                     (text_to_string (remote_status c)) = true).
  { destruct Hstatus as [-> | [-> _]]; reflexivity. }
  assert (Hdelete : bool_decide (remote_status c = Text "Not Modified")
                    && strict_eq (sget "remote_copy" (storage c)) (JBool false) = false).
  { destruct Hstatus as [-> | [_ Hcopy]]; [reflexivity|].
    rewrite (not_false _ Hcopy). apply andb_false_r. }
  destruct Hsaved as (_ & _ & Hnotify).
  running.
  - unfold getState. step. rewrite Hk.
    eapply session_bind_run.
    { unfold sync. step. rewrite Hapi, Hsub. cbn [negb]. step.
      eapply session_bind_run; [rewrite Hregex; reflexivity|cbn beta].
      rewrite Hdelete. apply lift_run, Hup. }
    cbn beta. eapply session_bind_run.
    { apply (promised_run _ _ (match p with
                               | Fulfilled _ => Ok (VWallet (wallet_object c))
                               | RejectedWith e => Err e
                               end)).
      destruct p as [v|e].
      - step. step. rewrite Hw. reflexivity.
      - apply session_bind_run_err. reflexivity. }
    cbn beta. eapply session_bind_run; [apply lift_run, notifyResolve_run|cbn beta].
    reflexivity.
  - split; [destruct p; reflexivity|]. split; [reflexivity|].
    rewrite Hnotify. destruct p; cbn; rewrite ?app_nil_r; reflexivity.
Qed.


(** ** [keepRemoteCopy] *)

(** X18. [keepRemoteCopy] with the configuration that is already persisted
    does nothing and returns a fulfilled promise; asked to keep a copy on a
    container without [remote_url] it throws the configuration error
    synchronously, nothing having changed. *)
Theorem keepRemoteCopy_guards (remote_copy remote_token : jsval) (c : container) :
  let copy := match remote_copy with JUndefined => JBool true | _ => remote_copy end in
  let token := or_stored "remote_token" c remote_token in
  (copy = sget "remote_copy" (storage c) -> token = sget "remote_token" (storage c) ->
   keepRemoteCopy T N remote_copy remote_token c = (Ok (Fulfilled VUndefined), c, []))
  /\ (copy = JBool true -> sget "remote_copy" (storage c) <> JBool true ->
      truthy (sget "remote_url" (storage c)) = false ->
      keepRemoteCopy T N remote_copy remote_token c =
        (Err (Error (instance c +:+ ":configuration_error, remote_copy without remote_url")),
         c, [])).
Proof.
  intros copy token. split.
  - intros Hcopy Htoken. running.
    + unfold keepRemoteCopy. step. fold copy. fold (or_stored "remote_token" c remote_token).
      fold token. rewrite <- Hcopy, <- Htoken. unfold strict_eq.
      rewrite !bool_decide_eq_true_2 by reflexivity. reflexivity.
    + split; [reflexivity|]. split; reflexivity.
  - intros Hcopy Hstored Hurl. running.
    + unfold keepRemoteCopy. step. fold copy. rewrite Hcopy. unfold strict_eq at 1.
      rewrite bool_decide_eq_false_2 by congruence. cbn [andb].
      apply session_bind_run_err. unfold strict_eq.
      rewrite bool_decide_eq_true_2 by reflexivity. rewrite Hurl. reflexivity.
    + split; [reflexivity|]. split; reflexivity.
Qed.

(** X19. On a locked container with a server configured, [keepRemoteCopy]
    with [true] persists the configuration, notifies the subscribers once
    and sends nothing: the upload waits for a login. *)
Theorem keepRemoteCopy_deferred (remote_token : jsval) (c : container) :
  private_key c = None ->
  sget "remote_copy" (storage c) <> JBool true ->
  truthy (sget "remote_url" (storage c)) = true ->
  tree_truthy (wget "weak_password" (wallet_object c)) = false ->
  let state := remote_configuration (JBool true) (or_stored "remote_token" c remote_token) in
  keepRemoteCopy T N (JBool true) remote_token c =
    (Ok (Fulfilled VUndefined),
     set_notify false (set_storage (storage_merge state (storage c)) c),
     [Effect (EStore state); Effect ENotify]).
Proof.
  intros Hlocked Hstored Hurl Hweak state. running.
  - unfold keepRemoteCopy. step. unfold strict_eq at 1.
    rewrite bool_decide_eq_false_2 by congruence. cbn [andb].
    eapply session_bind_run.
    { unfold strict_eq. rewrite bool_decide_eq_true_2 by reflexivity.
      rewrite Hurl. reflexivity. }
    cbn beta. eapply session_bind_run.
    { unfold strict_eq. rewrite bool_decide_eq_true_2 by reflexivity.
      rewrite Hlocked. rewrite bool_decide_eq_false_2 by (intros [? ?]; discriminate).
      cbn [andb negb]. rewrite Hweak. reflexivity. }
    cbn beta. step.
    fold (or_stored "remote_token" c remote_token).
    fold (remote_configuration (JBool true) (or_stored "remote_token" c remote_token)).
    fold state. step. step.
    cbn [private_key set_storage set_notify]. rewrite Hlocked.
    eapply session_bind_run; [reflexivity|cbn beta].
    apply lift_run, notifyResolve_run.
  - split; [reflexivity|]. split; reflexivity.
Qed.


Lemma deleteRemoteWallet_run (key : PrivateKey) (hash : hash_arg) (c : container) (h : bytes) :
  api c = true ->
  hash_to_sign (storage c) hash = Some h ->
  deleteRemoteWallet T key hash c =
    match api_deleteWallet T h (signBufferSha256 h key) with
    | Fulfilled _ =>
        (Ok (Fulfilled VUndefined),
         set_storage (storage_merge [("remote_hash", JUndefined);
                                     ("remote_created_date", JUndefined);
                                     ("remote_updated_date", JUndefined)] (storage c))
                     (set_notify true c),
         [EDeleteWallet h (signBufferSha256 h key);
          EStore [("remote_hash", JUndefined);
                  ("remote_created_date", JUndefined);
                  ("remote_updated_date", JUndefined)]])
    | RejectedWith e =>
        (Ok (RejectedWith e), c, [EDeleteWallet h (signBufferSha256 h key)])
    end.
Proof.
  intros Hapi Hhash. unfold deleteRemoteWallet.
  destruct hash as [b|[b|[| |s]]]; cbn in Hhash; try discriminate.
  - injection Hhash as <-. run. rewrite Hapi. cbn.
    destruct (api_deleteWallet T _ _) as [[]|e]; reflexivity.
  - run. rewrite (localHash_typed _ _ Hhash). cbn. rewrite Hapi. cbn.
    destruct (api_deleteWallet T _ _) as [[]|e]; reflexivity.
  - injection Hhash as <-. run. cbn. rewrite Hapi. cbn.
    destruct (api_deleteWallet T _ _) as [[]|e]; reflexivity.
Qed.

(** X20. On an unlocked, subscribed container in the state
    ["Not Modified"], [keepRemoteCopy] with [false] persists
    [remote_copy = false], asks the server to delete the wallet of the local
    ciphertext hash, signed with the key, forgets [remote_hash] and the
    dates when that succeeds, and notifies once; the local
    [encrypted_wallet], the wallet object and the key stay. *)
Theorem keepRemoteCopy_false_deletes (remote_token : jsval) (c : container)
    (k : PrivateKey) (ew : string) :
  private_key c = Some k ->
  api c = true ->
  noSubscriptionId N "fetchWallet" (publicKeyString (toPublicKey k)) = false ->
  remote_status c = Text "Not Modified" ->
  storage c !! "encrypted_wallet" = Some (JStr ew) -> ew <> "" ->
  sget "remote_copy" (storage c) <> JBool false ->
  let hash := sha256 (fromBase64String ew) in
  let signature := signBufferSha256 hash k in
  let state := remote_configuration (JBool false) (or_stored "remote_token" c remote_token) in
  api_deleteWallet T hash signature = Fulfilled tt ->
  exists c',
    keepRemoteCopy T N (JBool false) remote_token c =
      (Ok (Fulfilled VUndefined), c',
       [Effect (EStore state);
        Effect (EDeleteWallet hash signature);
        Effect (EStore [("remote_hash", JUndefined);
                        ("remote_created_date", JUndefined);
                        ("remote_updated_date", JUndefined)]);
        Effect ENotify])
    /\ storage c' !! "remote_copy" = Some (JBool false)
    /\ storage c' !! "remote_hash" = None
    /\ storage c' !! "encrypted_wallet" = Some (JStr ew)
    /\ wallet_object c' = wallet_object c
    /\ private_key c' = Some k.
Proof.
  intros Hk Hapi Hsub Hstatus Hew Hne Hcopy hash signature state Hreply.
  apply String.eqb_neq in Hne.
  set (c1 := set_storage (storage_merge state (storage c)) (set_notify true c)).
  assert (Hstate : storage c1 !! "remote_copy" = Some (JBool false)
                   /\ storage c1 !! "encrypted_wallet" = Some (JStr ew)).
  { unfold c1, state, remote_configuration, or_stored. cbn [storage set_storage].
    unfold strict_eq. rewrite (bool_decide_eq_false_2 (JBool false = JNull)) by discriminate.
    cbn [negb app].
    destruct (match remote_token with JUndefined => _ | _ => _ end) as [b|[| |s]];
      cbn; split; by simplify_map_eq. }
  destruct Hstate as [Hcopy1 Hew1].
  assert (Hhash : hash_to_sign (storage c1) (HashValue JUndefined) = Some hash).
  { unfold hash_to_sign, local_ciphertext_hash. rewrite Hew1, Hne. reflexivity. }
  pose proof (deleteRemoteWallet_run k (HashValue JUndefined) c1 hash Hapi Hhash) as Hdel.
  fold signature in Hdel. rewrite Hreply in Hdel.
  eexists. split.
  - running.
    + unfold keepRemoteCopy. step. unfold strict_eq at 1.
      rewrite bool_decide_eq_false_2 by congruence. cbn [andb].
      eapply session_bind_run; [reflexivity|cbn beta].
      eapply session_bind_run; [reflexivity|cbn beta].
      step.
      fold (or_stored "remote_token" c remote_token).
      fold (remote_configuration (JBool false) (or_stored "remote_token" c remote_token)).
      fold state. step.
      match goal with |- _ ?x = _ => change x with c1 end.
      step. replace (private_key c1) with (Some k) by (symmetry; exact Hk).
      eapply session_bind_run.
      { unfold sync. step. replace (api c1) with true by (symmetry; exact Hapi).
        rewrite Hsub. cbn [negb]. step.
        replace (remote_status c1) with (Text "Not Modified") by (symmetry; exact Hstatus).
        step. rewrite bool_decide_eq_true_2 by reflexivity.
        unfold sget. rewrite Hcopy1. cbn [default from_option id]. unfold strict_eq.
        rewrite bool_decide_eq_true_2 by reflexivity. cbn [andb].
        apply lift_run, Hdel. }
      cbn beta. apply lift_run, notifyResolve_run.
    + split; [reflexivity|]. split; reflexivity.
  - cbn [storage set_storage set_notify wallet_object private_key].
    split; [rewrite storage_merge_lookup_ne by not_in_keys; exact Hcopy1|].
    split; [cbn; by simplify_map_eq|].
    split; [rewrite storage_merge_lookup_ne by not_in_keys; exact Hew1|].
    split; [reflexivity|exact Hk].
Qed.


(** ** [useBackupServer] and [logout] *)

Lemma loose_eq_val_refl (v : jsval) : loose_eq_val N v v = true.
Proof.
  destruct v as [[|]|[| |s]]; try reflexivity. cbn. apply String.eqb_refl.
Qed.

Lemma notifications_app (t1 t2 : list session_event) :
  notifications (t1 ++ t2) = notifications t1 + notifications t2.
Proof.
  induction t1 as [|e t1 IH]; [reflexivity|].
  destruct e as [[]| | |]; cbn; rewrite IH; reflexivity.
Qed.

Lemma notifyResolve_any (p : option (settled value)) (c : container) :
  notifyResolve p c =
    (Ok (default (Fulfilled VUndefined) p), set_notify false c,
     if notify c then [ENotify] else []).
Proof.
  unfold notifyResolve, notifySubscribers. run.
  destruct p as [[v|e]|], c as [? ? ? ? ? [|] ? ?]; reflexivity.
Qed.

Lemma useBackupServer_default (c : container) :
  exists p c' t,
    useBackupServer N JUndefined c = (Ok p, c', t)
    /\ private_key c' = private_key c /\ wallet_object c' = wallet_object c
    /\ remote_status c' = remote_status c
    /\ storage c' = storage c
    /\ notify c' = false
    /\ notifications t = (if notify c then 1 else 0).
Proof.
  unfold useBackupServer.
  set (url := sget "remote_url" (storage c)).
  eexists _, _, _. split.
  - step.
    eapply session_bind_run.
    { instantiate (1 := if api c then [EClose] else []). instantiate (1 := c).
      instantiate (1 := if api c then Some (ws_close N) else None).
      destruct (api c); reflexivity. }
    cbn beta. eapply session_bind_run.
    { instantiate (1 := if negb (nullish url) then [EConnect url] else []).
      instantiate (1 := if negb (nullish url)
                        then set_connection true (ws_instance N url) c
                        else set_connection false "null" c).
      fold url. destruct (negb (nullish url)); reflexivity. }
    cbn beta. fold url. rewrite loose_eq_val_refl. cbn [negb]. step.
    apply lift_run, notifyResolve_any.
  - destruct (api c), (negb (nullish url)); cbn [fst snd];
      repeat split; try reflexivity;
      rewrite ?notifications_app; cbn; destruct (notify c); reflexivity.
Qed.


(** X21. Whatever the state and whatever the server answers, [logout]
    returns a promise and leaves the container locked, with an empty wallet
    object, [remote_status] null and the storage state as it was; the
    subscribers are called once if a notification was pending and not at all
    otherwise. *)
Theorem logout_locks (c : container) :
  exists p c' t,
    logout T N c = (Ok p, c', t)
    /\ private_key c' = None /\ wallet_object c' = [] /\ remote_status c' = Null
    /\ storage c' = storage c
    /\ notify c' = false
    /\ notifications t = (if notify c then 1 else 0).
Proof.
  set (c0 := set_private_key None (set_remote_status Null (set_wallet_object [] c))).
  set (subscribed := match private_key c with
                     | Some k => api c && hasSubscriptionId T "fetchWallet"
                                            (publicKeyString (toPublicKey k))
                     | None => false
                     end).
  set (unsub := match private_key c with
                | Some k => if subscribed then api_fetchWalletUnsubscribe T (toPublicKey k)
                            else Fulfilled tt
                | None => Fulfilled tt
                end).
  set (asked := match private_key c with
                | Some k => if subscribed then [Effect (EUnsubscribe (toPublicKey k))] else []
                | None => []
                end).
  assert (Hasked : notifications asked = 0).
  { unfold asked. destruct (private_key c), subscribed; reflexivity. }
  assert (Hunsub : (match option_map toPublicKey (private_key c) with
                    | Some public_key =>
                        if api c && hasSubscriptionId T "fetchWallet" (publicKeyString public_key)
                        then perform (Effect (EUnsubscribe public_key));;
                             mret (api_fetchWalletUnsubscribe T public_key)
                        else mret (Fulfilled tt)
                    | None => mret (Fulfilled tt)
                    end) c0 = (Ok unsub, c0, asked)).
  { unfold unsub, asked, subscribed. destruct (private_key c) as [k|]; [|reflexivity].
    cbn [option_map]. destruct (api c && _); reflexivity. }
  destruct (useBackupServer_default c0) as (p & c1 & t & Hrun & Hk & Hw & Hs & Hst & Hn & Hcount).
  destruct unsub as [[]|e].
  - eexists _, _, _. split.
    + unfold logout. step. step. step. step. fold c0.
      eapply session_bind_run; [exact Hunsub|cbn beta].
      eapply session_bind_run.
      { apply (promised_run _ _ (match p with Fulfilled v => Ok v | RejectedWith e => Err e end)).
        step. eapply session_bind_run; [exact Hrun|cbn beta].
        destruct p; reflexivity. }
      cbn beta. apply lift_run, notifyResolve_run.
    + cbn [private_key wallet_object remote_status storage notify set_notify].
      rewrite Hk, Hw, Hs, Hst, Hn. repeat split; try reflexivity.
      rewrite !notifications_app, Hasked, Hcount.
      destruct p; cbn; destruct (notify c); reflexivity.
  - eexists _, _, _. split.
    + unfold logout. step. step. step. step. fold c0.
      eapply session_bind_run; [exact Hunsub|cbn beta].
      eapply session_bind_run.
      { apply (promised_run _ _ (Err e)). apply session_bind_run_err. reflexivity. }
      cbn beta. apply lift_run, notifyResolve_run.
    + repeat split; try reflexivity.
      rewrite !notifications_app, Hasked. cbn. destruct (notify c); reflexivity.
Qed.


(** ** [login] *)

(** X24. [login] asks for the email, the username and the password in that
    order: the first that is missing is thrown as "<field>_required",
    synchronously, before the notify flag or anything else is touched. *)
Theorem login_required (now : string) (email username password chain_id : jsval)
    (c : container) :
  (nullish email = true ->
   login T N now email username password chain_id c = (Err (Error "email_required"), c, []))
  /\ (nullish email = false -> nullish username = true ->
      login T N now email username password chain_id c
      = (Err (Error "username_required"), c, []))
  /\ (nullish email = false -> nullish username = false -> nullish password = true ->
      login T N now email username password chain_id c
      = (Err (Error "password_required"), c, [])).
Proof.
  split; [|split].
  - intros He. unfold login. apply session_bind_run_err.
    unfold req. rewrite He. reflexivity.
  - intros He Hu. running.
    + unfold login. eapply session_bind_run; [unfold req; rewrite He; reflexivity|cbn beta].
      apply session_bind_run_err. unfold req. rewrite Hu. reflexivity.
    + split; [reflexivity|]. split; reflexivity.
  - intros He Hu Hp. running.
    + unfold login. eapply session_bind_run; [unfold req; rewrite He; reflexivity|cbn beta].
      eapply session_bind_run; [unfold req; rewrite Hu; reflexivity|cbn beta].
      apply session_bind_run_err. unfold req. rewrite Hp. reflexivity.
    + split; [reflexivity|]. split; reflexivity.
Qed.

(** Runs [login] up to the look at the local wallet. *)
Ltac login_prefix Hp :=
  unfold login;
  (eapply session_bind_run; [reflexivity|cbn beta]);
  (eapply session_bind_run; [reflexivity|cbn beta]);
  (eapply session_bind_run; [unfold req; rewrite Hp; reflexivity|cbn beta]);
  step; step; step; step.

(** X25. With a local wallet, a [login] whose key does not decrypt it, or
    whose chain id is not the one of the decrypted wallet, returns a rejected
    promise after the one decryption: the wallet object, the key and the
    storage state are as before, nobody is notified, and only the notify
    flag stays raised. *)
Theorem login_refused (now : string) (email username : string) (password chain_id : jsval)
    (c : container) (ew : string) :
  nullish password = false ->
  storage c !! "encrypted_wallet" = Some (JStr ew) -> ew <> "" ->
  let key := fromSeed (key_seed (trim email) (trim username) password) in
  let asked := [Effect (EDecrypt (fromBase64String ew) key)] in
  let chain_id' := match chain_id with JUndefined => JNull | _ => chain_id end in
  (decrypt (fromBase64String ew) key = None ->
   login T N now (JStr email) (JStr username) password chain_id c
   = (Ok (RejectedWith DecryptError), set_notify true c, asked))
  /\ (forall w,
        decrypt (fromBase64String ew) key = Some w ->
        truthy chain_id' = true ->
        tree_strict_eq chain_id' (wget "chain_id" w) = false ->
        login T N now (JStr email) (JStr username) password chain_id c
        = (Ok (RejectedWith (chain_mismatch N (wget "chain_id" w) chain_id')),
           set_notify true c, asked)).
Proof.
  intros Hp Hew Hne key asked chain_id'. apply String.eqb_neq in Hne.
  assert (Htruthy : truthy (sget "encrypted_wallet" (storage c)) = true).
  { unfold sget. rewrite Hew. cbn. rewrite Hne. reflexivity. }
  assert (Hbuffer : sget "encrypted_wallet" (storage c) = JStr ew).
  { unfold sget. rewrite Hew. reflexivity. }
  split.
  - intros Hw. running.
    + login_prefix Hp.
      cbn [storage set_notify]. rewrite Htruthy, Hbuffer. cbn [new_Buffer].
      step. step. fold key.
      apply (promised_run _ _ (Err DecryptError)). rewrite Hw. reflexivity.
    + split; [reflexivity|]. split; reflexivity.
  - intros w Hw Hchain Hdiff. running.
    + login_prefix Hp.
      cbn [storage set_notify]. rewrite Htruthy, Hbuffer. cbn [new_Buffer].
      step. step. fold key.
      apply (promised_run _ _ (Err (chain_mismatch N (wget "chain_id" w) chain_id'))).
      rewrite Hw. apply session_bind_run_err. fold chain_id'.
      rewrite Hchain, Hdiff. reflexivity.
    + split; [reflexivity|]. split; reflexivity.
Qed.


(** X26. The first login without a transport, on an empty store and an
    empty wallet object: the wallet object becomes the four default fields,
    the container is unlocked with the key of the normalised credentials,
    and the subscribers are notified once; nothing is persisted, the storage
    state is as before. [verifyPassword] with the same credentials then
    answers true. *)
Theorem login_first_offline (now : string) (email username : string)
    (password chain_id : jsval) (c : container) :
  nullish password = false ->
  truthy (sget "encrypted_wallet" (storage c)) = false ->
  wallet_object c = [] ->
  api c = false ->
  let weak_password := String.eqb (trim email) "" || String.eqb (trim username) "" in
  negb weak_password || negb (truthy (sget "remote_copy" (storage c))) = true ->
  let key := fromSeed (key_seed (trim email) (trim username) password) in
  let wallet := [("chain_id", match chain_id with
                              | JBool b => TBool b
                              | JStr s => TStr s
                              | _ => TNull
                              end);
                 ("created", TStr now);
                 ("last_modified", TStr now);
                 ("weak_password", TBool weak_password)] in
  let c' := set_notify false (set_private_key (Some key) (set_wallet_object wallet c)) in
  login T N now (JStr email) (JStr username) password chain_id c
  = (Ok (Fulfilled VUndefined), c', [Effect ENotify])
  /\ storage c' = storage c
  /\ verifyPassword N (JStr email) (JStr username) password c' = (Ok (Answer true), c', []).
Proof.
  intros Hp Hew Hempty Hapi weak_password Hweak key wallet c'.
  split; [|split; [reflexivity|]].
  - running.
    + login_prefix Hp.
      cbn [storage set_notify wallet_object]. rewrite Hew, Hempty.
      eapply session_bind_run; [fold weak_password; rewrite Hweak; reflexivity|cbn beta].
      cbn [wempty negb]. step.
      eapply session_bind_run.
      { unfold sync. step. cbn [api set_wallet_object set_notify]. rewrite Hapi. reflexivity. }
      cbn beta.
      apply (promised_run _ _ (Ok VUndefined)).
      step. step. cbn [wallet_object set_wallet_object set_notify].
      rewrite Hempty. cbn [wmerge fold_left].
      set (defaults := [("chain_id", _); _; _; _]).
      assert (Hhas : whas "chain_id" defaults = true) by reflexivity.
      assert (Hsame : truthy match chain_id with JUndefined => JNull | _ => chain_id end = true ->
                      tree_strict_eq match chain_id with JUndefined => JNull | _ => chain_id end
                                     (wget "chain_id" defaults) = true).
      { destruct chain_id as [[|]|[| |id]]; try discriminate; try reflexivity.
        intros _. cbn. apply String.eqb_refl. }
      rewrite Hhas. cbn [negb].
      eapply session_bind_run; [reflexivity|cbn beta].
      match goal with
      | |- (?m ≫= _) _ = _ =>
          assert (Hm : m = mret tt);
          [rewrite andb_true_r;
           destruct (truthy match chain_id with JUndefined => JNull | _ => chain_id end);
           [rewrite Hsame by reflexivity|]; reflexivity
          |rewrite Hm]
      end.
      step. step.
      eapply session_bind_run; [apply lift_run, notifyResolve_any|cbn beta].
      reflexivity.
    + split; [reflexivity|]. split; [|reflexivity].
      unfold c', wallet. destruct chain_id as [[|]|[| |id]]; reflexivity.
  - unfold verifyPassword. run. cbn. unfold req. rewrite Hp. cbn.
    fold key. rewrite String.eqb_refl. reflexivity.
Qed.


(** ** Saving, logging out and logging in again *)

Lemma wget_None (k : string) (m : wmap) : wget k m = None <-> k ∉ map fst m.
Proof.
  induction m as [|[k' v] m IH]; cbn.
  - split; [intros _; apply not_elem_of_nil|reflexivity].
  - rewrite not_elem_of_cons. destruct (String.eqb_spec k k') as [->|Hne].
    + split; [discriminate|]. intros [Hk _]. contradiction.
    + rewrite IH. tauto.
Qed.

Lemma wupdate_new (k : string) (f : tree -> tree) (v : tree) (m : wmap) :
  k ∉ map fst m -> wupdate k f v m = (m ++ [(k, v)])%list.
Proof.
  induction m as [|[k' e] m IH]; cbn; [reflexivity|].
  rewrite not_elem_of_cons. intros [Hne Hk].
  apply String.eqb_neq in Hne. rewrite Hne, IH by exact Hk. reflexivity.
Qed.

Lemma wupdate_keys (k : string) (f : tree -> tree) (v : tree) (m : wmap) :
  map fst (wupdate k f v m) = (map fst m ++ (if whas k m then [] else [k]))%list.
Proof.
  unfold whas. induction m as [|[k' e] m IH]; cbn; [reflexivity|].
  destruct (String.eqb k k') eqn:Hk; cbn.
  - rewrite app_nil_r. reflexivity.
  - rewrite IH. reflexivity.
Qed.

Lemma wupdate_NoDup (k : string) (f : tree -> tree) (v : tree) (m : wmap) :
  NoDup (map fst m) -> NoDup (map fst (wupdate k f v m)).
Proof.
  intros Hm. rewrite wupdate_keys. unfold whas.
  destruct (wget k m) eqn:Hk; [rewrite app_nil_r; exact Hm|].
  apply NoDup_app. split; [exact Hm|]. split; [|apply NoDup_singleton].
  intros x Hx Hin. apply list_elem_of_singleton in Hin. subst x.
  apply wget_None in Hk. contradiction.
Qed.

Lemma mergeDeep_NoDup (m x : wmap) : NoDup (map fst m) -> NoDup (map fst (mergeDeep m x)).
Proof.
  unfold mergeDeep. revert m. induction x as [|[k v] x IH]; intros m Hm; [exact Hm|].
  cbn. apply IH, wupdate_NoDup, Hm.
Qed.

(** Merging a decrypted wallet into the empty wallet object gives that
    wallet. *)
Lemma mergeDeep_into_empty (w : wmap) : NoDup (map fst w) -> mergeDeep [] w = w.
Proof.
  enough (forall pre, NoDup (map fst (pre ++ w)) -> mergeDeep pre w = (pre ++ w)%list) as Hgen
    by exact (Hgen []).
  unfold mergeDeep. induction w as [|[k v] w IH]; intros pre Hnd.
  - rewrite app_nil_r. reflexivity.
  - cbn [fold_left fst snd].
    assert (Hk : k ∉ map fst pre).
    { rewrite map_app in Hnd. apply NoDup_app in Hnd as (_ & Hdisj & _).
      intros Hin. apply (Hdisj k Hin). cbn. apply list_elem_of_here. }
    rewrite wupdate_new by exact Hk.
    rewrite IH; rewrite <- app_assoc; [reflexivity|exact Hnd].
Qed.

Lemma setState_offline_run (now : string) (x : wmap) (c : container) (k : PrivateKey) :
  private_key c = Some k ->
  whas "created" (wallet_object c) = true ->
  mergeDeep (wallet_object c) x <> wallet_object c ->
  api c = false ->
  let wallet := wset "last_modified" (TStr now) (mergeDeep (wallet_object c) x) in
  let ciphertext := JStr (toBase64String (encrypt wallet (toPublicKey k))) in
  setState T now x c =
    (Ok (Fulfilled (VWallet wallet)),
     set_notify false
       (set_local_status Null
          (set_storage (<["encrypted_wallet" := ciphertext]> (storage c))
             (set_wallet_object wallet c))),
     [EEncrypt wallet (toPublicKey k); EStore [("encrypted_wallet", ciphertext)]; ENotify]).
Proof.
  intros Hk Hcreated Hdiff Hapi wallet ciphertext.
  set (c1 := set_wallet_object wallet
               (set_wallet_object (mergeDeep (wallet_object c) x)
                  (set_local_status (Text "Pending") (set_notify true c)))).
  pose proof (updateWallet_local_run T k c1 (or_introl Hapi)) as Hup.
  apply run_as. eexists _, _, _. split.
  - unfold setState. eapply bind_run; [reflexivity|cbn beta]. rewrite Hk.
    eapply bind_run; [reflexivity|cbn beta]. rewrite Hcreated.
    eapply bind_run; [reflexivity|cbn beta].
    unfold same_map. rewrite bool_decide_eq_false_2 by congruence.
    do 5 (eapply bind_run; [reflexivity|cbn beta]).
    cbn [private_key set_wallet_object set_local_status set_notify]. rewrite Hk.
    fold wallet. fold c1.
    eapply bind_run; [exact Hup|cbn beta].
    eapply bind_run; [apply promise_await|cbn beta].
    apply notifyResolve_run.
  - split; [reflexivity|]. split; reflexivity.
Qed.

Lemma logout_offline_run (c : container) :
  api c = false ->
  nullish (sget "remote_url" (storage c)) = true ->
  logout T N c =
    (Ok (Fulfilled VUndefined),
     set_connection false "null"
       (set_notify false
          (set_private_key None (set_remote_status Null (set_wallet_object [] c)))),
     if notify c then [Effect ENotify] else []).
Proof.
  intros Hapi Hurl. running.
  - unfold logout. step. step. step. step.
    eapply session_bind_run.
    { instantiate (1 := []). instantiate (2 := Fulfilled tt).
      destruct (private_key c); [|reflexivity]. cbn [option_map]. rewrite Hapi. reflexivity. }
    cbn beta. eapply session_bind_run.
    { apply (promised_run _ _ (Ok VUndefined)). step.
      eapply session_bind_run.
      { unfold useBackupServer. step.
        cbn [api storage set_private_key set_remote_status set_wallet_object].
        rewrite Hapi. step. rewrite Hurl. cbn [negb].
        eapply session_bind_run; [reflexivity|cbn beta].
        rewrite loose_eq_val_refl. cbn [negb]. step.
        apply lift_run, notifyResolve_any. }
      cbn beta. reflexivity. }
    cbn beta. apply lift_run, notifyResolve_run.
  - split; [reflexivity|]. split; [reflexivity|].
    cbn. destruct (notify c); reflexivity.
Qed.

Lemma login_local_offline_run (now : string) (email username : string)
    (password chain_id : jsval) (c : container) (ew : string) (w : wmap) :
  nullish password = false ->
  storage c !! "encrypted_wallet" = Some (JStr ew) -> ew <> "" ->
  let key := fromSeed (key_seed (trim email) (trim username) password) in
  let chain_id' := match chain_id with JUndefined => JNull | _ => chain_id end in
  decrypt (fromBase64String ew) key = Some w ->
  truthy chain_id' && negb (tree_strict_eq chain_id' (wget "chain_id" w)) = false ->
  api c = false ->
  login T N now (JStr email) (JStr username) password chain_id c =
    (Ok (Fulfilled VUndefined),
     set_notify false
       (set_private_key (Some key) (set_wallet_object (mergeDeep (wallet_object c) w) c)),
     [Effect (EDecrypt (fromBase64String ew) key); Effect ENotify]).
Proof.
  intros Hp Hew Hne key chain_id' Hw Hchain Hapi. apply String.eqb_neq in Hne.
  assert (Htruthy : truthy (sget "encrypted_wallet" (storage c)) = true).
  { unfold sget. rewrite Hew. cbn. rewrite Hne. reflexivity. }
  assert (Hbuffer : sget "encrypted_wallet" (storage c) = JStr ew).
  { unfold sget. rewrite Hew. reflexivity. }
  running.
  - login_prefix Hp.
    cbn [storage set_notify]. rewrite Htruthy, Hbuffer. cbn [new_Buffer].
    step. step. fold key.
    apply (promised_run _ _ (Ok VUndefined)).
    rewrite Hw. fold chain_id'. rewrite Hchain. step. step. step. step.
    eapply session_bind_run.
    { unfold sync. step.
      cbn [api set_notify set_private_key set_wallet_object]. rewrite Hapi. reflexivity. }
    cbn beta. eapply session_bind_run; [apply lift_run, notifyResolve_run|cbn beta].
    reflexivity.
  - split; [reflexivity|]. split; reflexivity.
Qed.


(** X29. Without a server, what [setState] saved comes back: after a
    [setState] that changed the tree and a [logout], which empties the
    wallet object and locks, a [login] with the same credentials is
    fulfilled and leaves the wallet object that [setState] left (for a
    decryption that inverts the encryption, a base64 that carries the
    ciphertext, and a tree whose top-level keys are distinct). *)
Theorem setState_logout_login (now now' : string) (x : wmap) (email username : string)
    (password : jsval) (c : container) :
  let key := fromSeed (key_seed (trim email) (trim username) password) in
  nullish password = false ->
  private_key c = Some key ->
  api c = false ->
  nullish (sget "remote_url" (storage c)) = true ->
  whas "created" (wallet_object c) = true ->
  mergeDeep (wallet_object c) x <> wallet_object c ->
  NoDup (map fst (wallet_object c)) ->
  let wallet := wset "last_modified" (TStr now) (mergeDeep (wallet_object c) x) in
  let ciphertext := encrypt wallet (toPublicKey key) in
  fromBase64String (toBase64String ciphertext) = ciphertext ->
  toBase64String ciphertext <> "" ->
  decrypt ciphertext key = Some wallet ->
  let saved := (setState T now x c).1.2 in
  let locked := (logout T N saved).1.2 in
  wallet_object saved = wallet
  /\ private_key locked = None
  /\ wallet_object locked = []
  /\ exists c' t,
       login T N now' (JStr email) (JStr username) password JUndefined locked
       = (Ok (Fulfilled VUndefined), c', t)
       /\ wallet_object c' = wallet
       /\ private_key c' = Some key.
Proof.
  intros key Hp Hk Hapi Hurl Hcreated Hdiff Hnd wallet ciphertext Hround Hne Hdecrypt
    saved locked.
  assert (Hsaved : saved = set_notify false
                             (set_local_status Null
                                (set_storage (<["encrypted_wallet" :=
                                                  JStr (toBase64String ciphertext)]> (storage c))
                                   (set_wallet_object wallet c)))).
  { unfold saved. rewrite (setState_offline_run now x c key Hk Hcreated Hdiff Hapi).
    reflexivity. }
  assert (Hlocked : locked = set_connection false "null"
                               (set_notify false
                                  (set_private_key None
                                     (set_remote_status Null (set_wallet_object [] saved))))).
  { unfold locked. rewrite logout_offline_run; [reflexivity|..].
    - rewrite Hsaved. exact Hapi.
    - rewrite Hsaved. cbn [storage set_notify set_local_status set_storage].
      rewrite sget_insert_ne by discriminate. exact Hurl. }
  split; [rewrite Hsaved; reflexivity|].
  split; [rewrite Hlocked; reflexivity|].
  split; [rewrite Hlocked; reflexivity|].
  eexists _, _. split.
  - apply (login_local_offline_run now' email username password JUndefined locked
             (toBase64String ciphertext) wallet Hp).
    + rewrite Hlocked, Hsaved. cbn. apply lookup_insert_eq.
    + exact Hne.
    + fold key. rewrite Hround. exact Hdecrypt.
    + reflexivity.
    + rewrite Hlocked. reflexivity.
  - cbn [wallet_object private_key set_notify set_private_key set_wallet_object].
    split; [|reflexivity].
    rewrite Hlocked. cbn [wallet_object set_connection set_notify set_private_key
                            set_remote_status set_wallet_object].
    apply mergeDeep_into_empty. unfold wallet, wset.
    apply wupdate_NoDup, mergeDeep_NoDup, Hnd.
Qed.


(** ** Logging in to a wallet that is on the server *)

Lemma fetchWalletCallback_initial (sw : server_wallet) (key : PrivateKey) (c : container)
    (p : settled value) (c' : container) (t : list event) :
  text_truthy (statusText sw) = true ->
  fetchWallet T sw key c = (Ok (Some p), c', t) ->
  fetchWalletCallback T sw key c = (Ok p, c', t).
Proof.
  intros Htext Hrun. unfold fetchWalletCallback. rewrite Htext. cbn [negb].
  apply run_as. eexists _, _, _. split.
  - eapply bind_run.
    { apply (promise_run _ _ (match p with Fulfilled v => Ok v | RejectedWith e => Err e end)).
      eapply bind_run; [exact Hrun|cbn beta]. destruct p; reflexivity. }
    cbn beta. reflexivity.
  - split; [destruct p; reflexivity|]. split; [reflexivity|].
    destruct p; rewrite ?app_nil_r; reflexivity.
Qed.

(** X28. A login on an empty store with a transport, when the server
    answers the first fetch with a wallet that the key decrypts: the wallet
    object becomes the server's wallet, its ciphertext and hash are
    persisted, [remote_status] is ["Not Modified"], the container is
    unlocked, and the subscribers are notified once, at the end. *)
Theorem login_pulls_server_wallet (now : string) (email username : string)
    (password chain_id : jsval) (c : container) (sw : server_wallet)
    (nh data : string) (w : wmap) :
  nullish password = false ->
  storage c !! "encrypted_wallet" = None ->
  wallet_object c = [] ->
  api c = true ->
  sget "remote_copy" (storage c) <> JBool false ->
  let weak_password := String.eqb (trim email) "" || String.eqb (trim username) "" in
  negb weak_password || negb (truthy (sget "remote_copy" (storage c))) = true ->
  let key := fromSeed (key_seed (trim email) (trim username) password) in
  let chain_id' := match chain_id with JUndefined => JNull | _ => chain_id end in
  noSubscriptionId N "fetchWallet" (publicKeyString (toPublicKey key)) = true ->
  api_fetchWallet N (toPublicKey key) None = Fulfilled sw ->
  statusText sw = Text "OK" ->
  local_hash sw = Text nh ->
  encrypted_data sw = Text data ->
  decrypt (fromBase64String data) key = Some w ->
  whas "chain_id" w = true ->
  truthy chain_id' && negb (tree_strict_eq chain_id' (wget "chain_id" w)) = false ->
  exists c',
    login T N now (JStr email) (JStr username) password chain_id c =
      (Ok (Fulfilled VUndefined), c',
       [EFetchWallet (toPublicKey key) None;
        Effect (EStore [("remote_hash", JStr nh)]);
        Effect (EDecrypt (fromBase64String data) key);
        Effect (EStore [("remote_token", JNull);
                        ("remote_hash", JStr nh);
                        ("encrypted_wallet", JStr data);
                        ("remote_updated_date", JText (updated sw));
                        ("remote_created_date", JText (created sw))]);
        Effect ENotify])
    /\ wallet_object c' = w
    /\ private_key c' = Some key
    /\ storage c' !! "encrypted_wallet" = Some (JStr data)
    /\ storage c' !! "remote_hash" = Some (JStr nh)
    /\ remote_status c' = Text "Not Modified".
Proof.
  intros Hp Hnone Hempty Hapi Hcopy weak_password Hweak key chain_id' Hsub Hreply
    Hstatus Hnh Hdata Hw Hhas Hchain.
  assert (Hew : truthy (sget "encrypted_wallet" (storage c)) = false).
  { unfold sget. rewrite Hnone. reflexivity. }
  set (defaults := [("chain_id", match chain_id' with
                                 | JBool b => TBool b
                                 | JStr s => TStr s
                                 | _ => TNull
                                 end);
                    ("created", TStr now); ("last_modified", TStr now);
                    ("weak_password", TBool weak_password)]).
  set (c1 := set_wallet_object defaults (set_notify true c)).
  set (c2 := set_remote_status (Text "Not Modified")
               (pulled sw w (set_notify true (fetched sw c1)))).
  assert (Haccepted : status_accepted (statusText sw) = true) by (rewrite Hstatus; reflexivity).
  assert (Htext : text_truthy (statusText sw) = true) by (rewrite Hstatus; reflexivity).
  assert (Hsync : sync T N (Some key) c1 =
                    (Ok (Fulfilled (VString "Not Modified")), c2,
                     EFetchWallet (toPublicKey key) None
                     :: map Effect
                          (fetch_trace sw c1
                           ++ [EDecrypt (fromBase64String data) key;
                               EStore [("remote_token", JNull);
                                       ("remote_hash", JStr nh);
                                       ("encrypted_wallet", JStr data);
                                       ("remote_updated_date", JText (updated sw));
                                       ("remote_created_date", JText (created sw))]]))).
  { rewrite sync_subscribes_run.
    - unfold local_ciphertext_hash. cbn [storage c1 set_wallet_object set_notify].
      rewrite Hnone, Hreply.
      rewrite (fetchWalletCallback_initial sw key c1 _ _ _ Htext
                 (fetchWallet_pull_run T sw key c1 nh data w Hnone Hnh Hdata Haccepted Hcopy Hw)).
      reflexivity.
    - exact Hapi.
    - exact Hsub.
    - unfold ciphertext_typed. cbn [storage c1 set_wallet_object set_notify].
      rewrite Hnone. reflexivity. }
  destruct (pulled_storage sw w (set_notify true (fetched sw c1)) nh data Hnh Hdata)
    as (Hew2 & Hrh2 & _).
  exists (set_notify false (set_private_key (Some key) c2)). split.
  - running.
    + login_prefix Hp.
      cbn [storage set_notify wallet_object]. rewrite Hew, Hempty.
      eapply session_bind_run; [fold weak_password; rewrite Hweak; reflexivity|cbn beta].
      cbn [wempty negb]. step.
      cbn [wallet_object set_notify]. rewrite Hempty. cbn [wmerge fold_left].
      match goal with |- _ ?x = _ => change x with c1 end.
      eapply session_bind_run; [exact Hsync|cbn beta].
      apply (promised_run _ _ (Ok VUndefined)).
      step. step.
      replace (wallet_object c2) with w by reflexivity.
      rewrite Hhas. cbn [negb].
      eapply session_bind_run; [reflexivity|cbn beta].
      rewrite andb_true_r.
      eapply session_bind_run.
      { instantiate (1 := []). instantiate (1 := c2). instantiate (1 := tt).
        fold chain_id'. destruct (truthy chain_id'); [|reflexivity].
        cbn [andb] in Hchain. rewrite Hchain. reflexivity. }
      cbn beta. step.
      eapply session_bind_run; [apply lift_run, notifyResolve_any|cbn beta].
      reflexivity.
    + split; [reflexivity|]. split; [reflexivity|].
      unfold fetch_trace. rewrite Htext, Hnh. reflexivity.
  - cbn [wallet_object private_key storage remote_status set_notify set_private_key].
    split; [reflexivity|]. split; [reflexivity|].
    split; [exact Hew2|]. split; [exact Hrh2|reflexivity].
Qed.


(** ** A new container, and one without a server *)

(** X23. A new container is locked and empty, over the storage state it
    was given, with a transport exactly when a [remote_url] is persisted;
    [setState] and [changePassword] throw on it, [getState] and
    [verifyPassword] answer with a promise rejected with the string
    "Wallet is locked". *)
Theorem constructor_locked (storage0 : gmap string jsval) :
  let c := (constructor N storage0).1 in
  private_key c = None
  /\ wallet_object c = []
  /\ storage c = storage0
  /\ api c = truthy (sget "remote_url" storage0)
  /\ (forall now x, setState T now x c = (Err (Error "wallet_locked"), c, []))
  /\ getState T N c = (Ok (RejectedString "Wallet is locked"), c, [])
  /\ (forall email username password,
        verifyPassword N email username password c
        = (Ok (RejectedString "Wallet is locked"), c, []))
  /\ (forall okey now password email username,
        nullish password = false ->
        changePassword T okey now password email username c
        = (Err (Error "Wallet is locked"), c, [])).
Proof.
  intros c.
  assert (Hk : private_key c = None).
  { unfold c, constructor. destruct (truthy _); reflexivity. }
  split; [exact Hk|].
  split; [unfold c, constructor; destruct (truthy _); reflexivity|].
  split; [unfold c, constructor; destruct (truthy _); reflexivity|].
  split; [unfold c, constructor; destruct (truthy _); reflexivity|].
  split; [|split; [|split]].
  - intros now x. unfold setState. run. rewrite Hk. reflexivity.
  - unfold getState. unfold mbind, Session_bind, lift, get. rewrite Hk. reflexivity.
  - intros email username password. unfold verifyPassword. run. rewrite Hk. reflexivity.
  - intros okey now password email username Hp. apply run_as. eexists _, _, _. split.
    + unfold changePassword.
      eapply bind_run; [unfold req; rewrite Hp; reflexivity|cbn beta].
      eapply bind_run; [reflexivity|cbn beta]. rewrite Hk. reflexivity.
    + split; [reflexivity|]. split; reflexivity.
Qed.

(** X22. [useBackupServer] with [null] leaves the container without a
    transport, so that [sync] does nothing from then on; it persists
    [remote_url = null] and notifies when a URL was persisted, and leaves the
    wallet object and the key alone. *)
Theorem useBackupServer_disconnects (c : container) :
  let stored := sget "remote_url" (storage c) in
  exists p c' t,
    useBackupServer N JNull c = (Ok p, c', t)
    /\ api c' = false
    /\ storage c' = (if nullish stored then storage c
                     else <["remote_url" := JNull]> (storage c))
    /\ same_session c c'
    /\ notifications t = (if notify c || negb (nullish stored) then 1 else 0)
    /\ forall key, sync T N key c' = (Ok (Fulfilled VUndefined), c', []).
Proof.
  intros stored.
  assert (Hloose : loose_eq_val N JNull stored = nullish stored).
  { destruct stored as [b|[| |s]]; reflexivity. }
  set (c1 := set_connection false "null" c).
  set (c2 := if nullish stored then c1
             else set_storage (<["remote_url" := JNull]> (storage c)) (set_notify true c1)).
  exists (default (Fulfilled VUndefined) (if api c then Some (ws_close N) else None)),
         (set_notify false c2),
         ((if api c then [EClose] else [])
          ++ (if nullish stored then [] else [Effect (EStore [("remote_url", JNull)])])
          ++ map Effect (if notify c2 then [ENotify] else []))%list.
  split.
  - running.
    + unfold useBackupServer. step.
      eapply session_bind_run.
      { instantiate (1 := if api c then [EClose] else []). instantiate (1 := c).
        instantiate (1 := if api c then Some (ws_close N) else None).
        destruct (api c); reflexivity. }
      cbn beta. cbn [nullish text_nullish negb]. step. fold c1.
      eapply session_bind_run.
      { instantiate (1 := if nullish stored then []
                          else [Effect (EStore [("remote_url", JNull)])]).
        instantiate (1 := c2). instantiate (1 := tt).
        fold stored. rewrite Hloose. unfold c2. destruct (nullish stored); reflexivity. }
      cbn beta. apply lift_run, notifyResolve_any.
    + split; [reflexivity|]. split; reflexivity.
  - assert (Hc2 : api c2 = false /\ same_session c c2
                  /\ notify c2 = (notify c || negb (nullish stored))
                  /\ storage c2 = (if nullish stored then storage c
                                   else <["remote_url" := JNull]> (storage c))).
    { unfold c2. destruct (nullish stored); cbn; repeat split;
        rewrite ?orb_true_r, ?orb_false_r; reflexivity. }
    destruct Hc2 as (Hapi & Hsession & Hnotify & Hstorage).
    split; [exact Hapi|]. split; [exact Hstorage|]. split; [exact Hsession|].
    split.
    { rewrite !notifications_app, Hnotify.
      destruct (api c), (nullish stored), (notify c); reflexivity. }
    intros key. unfold sync. unfold mbind, Session_bind, lift, get.
    cbn [api set_notify]. rewrite Hapi. destruct key; reflexivity.
Qed.

(** X27. A login without a transport and without a local wallet, on a
    wallet object that already holds entries: the defaults are added under
    the entries present, which win, and the result is encrypted and
    persisted before the container is unlocked and the subscribers are
    notified once. *)
Theorem login_prepopulated_offline (now : string) (email username : string)
    (password chain_id : jsval) (c : container) :
  nullish password = false ->
  truthy (sget "encrypted_wallet" (storage c)) = false ->
  wallet_object c <> [] ->
  api c = false ->
  let weak_password := String.eqb (trim email) "" || String.eqb (trim username) "" in
  negb weak_password || negb (truthy (sget "remote_copy" (storage c))) = true ->
  let key := fromSeed (key_seed (trim email) (trim username) password) in
  let defaults := [("chain_id", match chain_id with
                                | JBool b => TBool b
                                | JStr s => TStr s
                                | _ => TNull
                                end);
                   ("created", TStr now);
                   ("last_modified", TStr now);
                   ("weak_password", TBool weak_password)] in
  let wallet := wmerge defaults (wallet_object c) in
  let ciphertext := JStr (toBase64String (encrypt wallet (toPublicKey key))) in
  login T N now (JStr email) (JStr username) password chain_id c =
    (Ok (Fulfilled VUndefined),
     set_notify false
       (set_private_key (Some key)
          (set_local_status Null
             (set_storage (<["encrypted_wallet" := ciphertext]> (storage c))
                (set_wallet_object wallet c)))),
     [Effect (EEncrypt wallet (toPublicKey key));
      Effect (EStore [("encrypted_wallet", ciphertext)]);
      Effect ENotify]).
Proof.
  intros Hp Hew Hfull Hapi weak_password Hweak key defaults wallet ciphertext.
  assert (Hpre : wempty (wallet_object c) = false).
  { destruct (wallet_object c); [contradiction|reflexivity]. }
  set (c1 := set_wallet_object wallet (set_notify true c)).
  pose proof (updateWallet_local_run T key c1 (or_introl Hapi)) as Hup.
  running.
  - login_prefix Hp.
    cbn [storage set_notify wallet_object]. rewrite Hew, Hpre.
    eapply session_bind_run; [fold weak_password; rewrite Hweak; reflexivity|cbn beta].
    cbn [negb]. step.
    match goal with |- _ ?x = _ => assert (Hx : x = c1) end.
    { unfold c1, wallet, defaults. destruct chain_id as [[|]|[| |id]]; reflexivity. }
    rewrite Hx.
    eapply session_bind_run; [apply lift_run, Hup|cbn beta].
    apply (promised_run _ _ (Ok VUndefined)).
    step.
    eapply session_bind_run.
    { unfold sync. step. cbn [api saved_locally set_notify set_local_status set_storage c1
                                set_wallet_object]. rewrite Hapi. reflexivity. }
    cbn beta. step. step.
    eapply session_bind_run; [apply lift_run, notifyResolve_any|cbn beta].
    reflexivity.
  - split; [reflexivity|]. split; reflexivity.
Qed.

End SessionProperties.

(** * The further statements at work on the second instance *)

Lemma updateWallet_local_only_witness :
  exists c',
    updateWallet Demo.server (Some Demo.key) (Demo.unlocked [] Null false)
    = (Ok (Fulfilled (VWallet Toy.wallet)), c',
       [EEncrypt Toy.wallet (@toPublicKey Demo.crypto Demo.key);
        EStore [("encrypted_wallet", JStr Demo.ciphertext)]])
    /\ storage c' !! "encrypted_wallet" = Some (JStr Demo.ciphertext).
Proof.
  eexists. split.
  - apply (@updateWallet_local_only Demo.crypto Demo.server Demo.key
             (Demo.unlocked [] Null false)).
    left. reflexivity.
  - vm_compute. reflexivity.
Defined.

Lemma updateWallet_save_refused_witness :
  let c := Demo.unlocked [("remote_copy", JBool true); ("remote_hash", JStr "#old")]
                         (Text "Not Modified") true in
  exists c' t,
    updateWallet (Demo.transport "Conflict" (RejectedWith (TransportError "closed")) true)
                 (Some Demo.key) c
    = (Ok (RejectedWith (Error "1:Unexpected WalletApi.saveWallet status: Conflict")), c', t)
    /\ remote_status c' = Text "Conflict"
    /\ sget "remote_hash" (storage c') = JStr "#old"
    /\ sget "encrypted_wallet" (storage c') = JStr Demo.ciphertext.
Proof.
  intros c. eexists _, _. split.
  - apply (@updateWallet_save_refused Demo.crypto
             (Demo.transport "Conflict" (RejectedWith (TransportError "closed")) true)
             Demo.key c "#old"
             (Demo.acknowledged "Conflict"
                (@encrypt Demo.crypto Toy.wallet (@toPublicKey Demo.crypto Demo.key)))).
    + reflexivity.
    + vm_compute. reflexivity.
    + vm_compute. reflexivity.
    + discriminate.
    + right. reflexivity.
    + reflexivity.
    + discriminate.
  - vm_compute. repeat split.
Defined.

Lemma updateWallet_remote_hash_witness :
  let c := Demo.unlocked [("remote_copy", JBool true); ("remote_hash", JStr "#old")]
                         (Text "Not Modified") true in
  let run := updateWallet Demo.server (Some Demo.key) c in
  run.1.1 = Ok (Fulfilled (VWallet Toy.wallet))
  /\ sget "remote_hash" (storage run.1.2) = JStr ("#" +:+ Demo.ciphertext)
  /\ remote_status run.1.2 = Text "Not Modified".
Proof.
  intros c run.
  destruct (@updateWallet_remote_hash Demo.crypto Demo.server Demo.key c run.1.2
              (VWallet Toy.wallet) run.2) as (Hlocal & Hremote & Hstatus).
  - vm_compute. reflexivity.
  - vm_compute. discriminate.
  - vm_compute. reflexivity.
  - vm_compute. reflexivity.
  - split; [vm_compute; reflexivity|]. split; [|exact Hstatus].
    rewrite Hremote, Hlocal. vm_compute. reflexivity.
Defined.

Lemma fetchWallet_in_sync_witness :
  let c := Demo.unlocked [("remote_copy", JBool true); ("remote_hash", JStr "#old")]
                         (Text "OK") true in
  let sw := Toy.reply Undefined (Text ("#" +:+ Demo.ciphertext)) in
  exists c',
    fetchWallet Demo.server sw Demo.key c
    = (Ok None, c',
       [EStore [("remote_hash", JStr ("#" +:+ Demo.ciphertext))]; EStatusText "Not Modified"])
    /\ remote_status c' = Text "Not Modified".
Proof.
  intros c sw. eexists. split.
  - rewrite (@fetchWallet_in_sync Demo.crypto Demo.server sw Demo.key c
               ("#" +:+ Demo.ciphertext)).
    + vm_compute. reflexivity.
    + vm_compute. reflexivity.
    + reflexivity.
    + reflexivity.
    + vm_compute. discriminate.
  - vm_compute. reflexivity.
Defined.

Lemma fetchWallet_pull_witness :
  exists c' t,
    fetchWallet Demo.server Demo.remote Demo.key (Demo.fresh [("remote_copy", JBool true)] true)
    = (Ok (Some (Fulfilled (VString "Not Modified"))), c', t)
    /\ wallet_object c' = Toy.wallet
    /\ storage c' !! "encrypted_wallet" = Some (JStr Demo.ciphertext).
Proof.
  destruct (@fetchWallet_pull Demo.crypto Demo.server Demo.remote Demo.key
              (Demo.fresh [("remote_copy", JBool true)] true)
              ("#" +:+ Demo.ciphertext) Demo.ciphertext Toy.wallet)
    as (c' & Hrun & Hw & Hew & _).
  - vm_compute. reflexivity.
  - reflexivity.
  - reflexivity.
  - reflexivity.
  - vm_compute. discriminate.
  - vm_compute. reflexivity.
  - eexists c', _. split; [exact Hrun|]. split; [exact Hw|exact Hew].
Defined.

Lemma fetchWallet_delete_witness :
  let c := Demo.unlocked [("remote_copy", JBool false)] (Text "Not Modified") true in
  exists c' t,
    fetchWallet Demo.server Demo.remote Demo.key c
    = (Ok (Some (Fulfilled VUndefined)), c', t)
    /\ storage c' !! "remote_hash" = None
    /\ storage c' !! "encrypted_wallet" = Some (JStr Demo.ciphertext).
Proof.
  intros c.
  destruct (@fetchWallet_delete Demo.crypto Demo.server Demo.remote Demo.key c
              ("#" +:+ Demo.ciphertext))
    as (c' & Hrun & Hrh & Hew & _).
  - vm_compute. reflexivity.
  - reflexivity.
  - reflexivity.
  - vm_compute. reflexivity.
  - reflexivity.
  - reflexivity.
  - eexists c', _. split; [exact Hrun|]. split; [exact Hrh|].
    rewrite Hew. vm_compute. reflexivity.
Defined.

Lemma fetchWallet_push_witness :
  let c := Demo.unlocked [("remote_copy", JBool true); ("remote_hash", JStr "#old")]
                         (Text "Not Modified") true in
  let run := fetchWallet Demo.server (Toy.reply Undefined (Text "#old")) Demo.key c in
  run.1.1 = Ok (Some (Fulfilled (VWallet Toy.wallet)))
  /\ sget "remote_hash" (storage run.1.2) = JStr ("#" +:+ Demo.ciphertext).
Proof.
  intros c run. unfold run.
  rewrite (@fetchWallet_push Demo.crypto Demo.server (Toy.reply Undefined (Text "#old"))
             Demo.key c ("#" +:+ Demo.ciphertext) "#old").
  - vm_compute. split; reflexivity.
  - vm_compute. reflexivity.
  - reflexivity.
  - vm_compute. reflexivity.
  - vm_compute. discriminate.
  - reflexivity.
  - vm_compute. discriminate.
Defined.

Lemma fetchWallet_invalid_status_witness :
  let c := Demo.unlocked [] (Text "Not Modified") true in
  exists c',
    fetchWallet Demo.server (Toy.reply (Text "Gone") (Text "#new")) Demo.key c
    = (Err (AssertionError "1 Invalid status: Gone"), c',
       [EStore [("remote_hash", JStr "#new")]])
    /\ remote_status c' = Text "Not Modified"
    /\ sget "remote_hash" (storage c') = JStr "#new".
Proof.
  intros c. eexists. split.
  - apply (@fetchWallet_invalid_status Demo.crypto Demo.server
             (Toy.reply (Text "Gone") (Text "#new")) Demo.key c).
    + vm_compute. reflexivity.
    + reflexivity.
  - vm_compute. split; reflexivity.
Defined.

Lemma setState_notifies_once_witness :
  exists p c' t,
    setState Demo.server Toy.now [("k", TNum 1)] (Demo.unlocked [] Null false)
    = (Ok p, c', (t ++ [ENotify])%list)
    /\ notify c' = false
    /\ wallet_object c' = Demo.edited
    /\ setState Demo.server Demo.date [("k", TNum 1)] c' = (Ok (Fulfilled VUndefined), c', []).
Proof.
  destruct (@setState_notifies_once Demo.crypto Demo.server Toy.now [("k", TNum 1)]
              (Demo.unlocked [] Null false))
    as (p & c' & t & Hrun & _ & Hnotify & Hw & Hagain).
  - eexists. reflexivity.
  - reflexivity.
  - vm_compute. discriminate.
  - exists p, c', t. split; [exact Hrun|]. split; [exact Hnotify|].
    split; [rewrite Hw; vm_compute; reflexivity|].
    apply Hagain.
    + split; [apply NoDup_singleton|]. cbn. auto.
    + cbn. intros Hin. apply list_elem_of_singleton in Hin. discriminate.
Defined.

Lemma changePassword_validation_witness :
  let c := Demo.unlocked [] Null false in
  changePassword Demo.server None Toy.now JNull (JStr "a@x") (JStr "alice") c
  = (Err (Error "password_required"), c, [])
  /\ changePassword Demo.server None Toy.now (JStr "pw2") (JStr "a@x") (JStr "alice")
                    (Demo.fresh [] false)
     = (Err (Error "Wallet is locked"), Demo.fresh [] false, [])
  /\ changePassword Demo.server None Toy.now (JStr "pw2") (JStr "a@x") (JStr "alice")
                    (set_storage ∅ c)
     = (Err (Error "wallet_empty"), set_storage ∅ c, []).
Proof.
  intros c. split; [|split].
  - apply (@changePassword_validation Demo.crypto Demo.server). reflexivity.
  - apply (@changePassword_validation Demo.crypto Demo.server); reflexivity.
  - apply (@changePassword_validation Demo.crypto Demo.server);
      [reflexivity|eexists; reflexivity|reflexivity].
Defined.

Lemma changePassword_weak_refused_witness :
  let c := Demo.unlocked [("remote_copy", JBool true)] (Text "Not Modified") true in
  changePassword Demo.server None Toy.now (JStr "pw2") (JStr (" " +:+ Latin1.nbsp)) JUndefined c
  = (Err (AssertionError "Remote copies are enabled, but an email or username is missing from this wallet's encryption key."),
     c, []).
Proof.
  intros c.
  apply (@changePassword_weak_refused Demo.crypto Demo.server None Toy.now
           (JStr "pw2") (JStr (" " +:+ Latin1.nbsp)) JUndefined c (" " +:+ Latin1.nbsp) "").
  - eexists. reflexivity.
  - vm_compute. reflexivity.
  - reflexivity.
  - reflexivity.
  - reflexivity.
  - left. vm_compute. reflexivity.
  - vm_compute. reflexivity.
Defined.

Lemma sync_subscribes_witness :
  let c := set_private_key (Some Demo.key) (Demo.fresh [("remote_copy", JBool true)] true) in
  let run := sync Demo.server (Demo.host (Fulfilled Demo.remote) false) (Some Demo.key) c in
  run.1.1 = Ok (Fulfilled (VString "Not Modified"))
  /\ wallet_object run.1.2 = Toy.wallet
  /\ head run.2 = Some (EFetchWallet (@toPublicKey Demo.crypto Demo.key) None).
Proof.
  intros c run. unfold run.
  rewrite (@sync_subscribes Demo.crypto Demo.server (Demo.host (Fulfilled Demo.remote) false)
             Demo.key c).
  - vm_compute. repeat split.
  - reflexivity.
  - reflexivity.
  - vm_compute. reflexivity.
Defined.

Lemma getState_unsettled_status_witness :
  let c := Demo.unlocked [("remote_copy", JBool true)] (Text "Conflict") true in
  getState Demo.server (Demo.host (Fulfilled Demo.remote) true) c
  = (Err (AssertionError "Expecting No Content or Not Modified, got Conflict"), c, []).
Proof.
  intros c.
  apply (@getState_unsettled_status Demo.crypto Demo.server
           (Demo.host (Fulfilled Demo.remote) true) c Demo.key); reflexivity.
Defined.

Lemma getState_reconciles_witness :
  let c := Demo.unlocked [("remote_copy", JBool true); ("remote_hash", JStr "#old")]
                         (Text "Not Modified") true in
  exists c' t,
    getState Demo.server (Demo.host (Fulfilled Demo.remote) true) c
    = (Ok (Answer (Fulfilled (VWallet Toy.wallet))), c', t)
    /\ notify c' = false.
Proof.
  intros c.
  destruct (@getState_reconciles Demo.crypto Demo.server
              (Demo.host (Fulfilled Demo.remote) true) c Demo.key)
    as (p & c1 & rest & Hup & Hget & _).
  - reflexivity.
  - reflexivity.
  - reflexivity.
  - right. split; [reflexivity|]. vm_compute. discriminate.
  - assert (Hp : p = Fulfilled (VWallet Toy.wallet)).
    { vm_compute in Hup. injection Hup as <- _ _. reflexivity. }
    subst p. eexists _, _. split; [exact Hget|reflexivity].
Defined.

Lemma keepRemoteCopy_guards_witness :
  let N := Demo.host (Fulfilled Demo.remote) true in
  let c := Demo.unlocked [("remote_copy", JBool true)] (Text "Not Modified") true in
  keepRemoteCopy Demo.server N JUndefined JUndefined c = (Ok (Fulfilled VUndefined), c, [])
  /\ keepRemoteCopy Demo.server N (JBool true) (JStr "token") (Demo.fresh [] false)
     = (Err (Error "1:configuration_error, remote_copy without remote_url"),
        Demo.fresh [] false, []).
Proof.
  intros N c. split.
  - apply (@keepRemoteCopy_guards Demo.crypto Demo.server N JUndefined JUndefined c).
    + vm_compute. reflexivity.
    + reflexivity.
  - apply (@keepRemoteCopy_guards Demo.crypto Demo.server N (JBool true) (JStr "token")
             (Demo.fresh [] false)).
    + reflexivity.
    + vm_compute. discriminate.
    + reflexivity.
Defined.

Lemma keepRemoteCopy_deferred_witness :
  let c := Demo.fresh [("remote_url", JStr "ws://backup")] true in
  exists c',
    keepRemoteCopy Demo.server (Demo.host (Fulfilled Demo.remote) false)
                   (JBool true) (JStr "token") c
    = (Ok (Fulfilled VUndefined), c',
       [Effect (EStore [("remote_copy", JBool true); ("remote_token", JStr "token")]);
        Effect ENotify])
    /\ sget "remote_copy" (storage c') = JBool true
    /\ private_key c' = None.
Proof.
  intros c. eexists. split.
  - apply (@keepRemoteCopy_deferred Demo.crypto Demo.server
             (Demo.host (Fulfilled Demo.remote) false) (JStr "token") c).
    + reflexivity.
    + vm_compute. discriminate.
    + reflexivity.
    + reflexivity.
  - vm_compute. split; reflexivity.
Defined.

Lemma keepRemoteCopy_false_deletes_witness :
  let c := Demo.unlocked [("remote_copy", JBool true);
                          ("remote_hash", JStr ("#" +:+ Demo.ciphertext))]
                         (Text "Not Modified") true in
  exists c' t,
    keepRemoteCopy Demo.server (Demo.host (Fulfilled Demo.remote) true) (JBool false) JUndefined c
    = (Ok (Fulfilled VUndefined), c', t)
    /\ storage c' !! "remote_copy" = Some (JBool false)
    /\ storage c' !! "remote_hash" = None
    /\ storage c' !! "encrypted_wallet" = Some (JStr Demo.ciphertext).
Proof.
  intros c.
  destruct (@keepRemoteCopy_false_deletes Demo.crypto Demo.server
              (Demo.host (Fulfilled Demo.remote) true) JUndefined c Demo.key Demo.ciphertext)
    as (c' & Hrun & Hcopy & Hrh & Hew & _).
  - reflexivity.
  - reflexivity.
  - reflexivity.
  - reflexivity.
  - vm_compute. reflexivity.
  - vm_compute. discriminate.
  - vm_compute. discriminate.
  - reflexivity.
  - eexists c', _. split; [exact Hrun|]. split; [exact Hcopy|]. split; [exact Hrh|exact Hew].
Defined.

Lemma login_required_witness :
  let c := Demo.fresh [] false in
  login Demo.server Demo.offline Toy.now JUndefined (JStr "alice") (JStr "pw") JNull c
  = (Err (Error "email_required"), c, [])
  /\ login Demo.server Demo.offline Toy.now (JStr "a@x") JNull (JStr "pw") JNull c
     = (Err (Error "username_required"), c, [])
  /\ login Demo.server Demo.offline Toy.now (JStr "a@x") (JStr "alice") JUndefined JNull c
     = (Err (Error "password_required"), c, []).
Proof.
  intros c. split; [|split].
  - apply (@login_required Demo.crypto Demo.server Demo.offline). reflexivity.
  - apply (@login_required Demo.crypto Demo.server Demo.offline); reflexivity.
  - apply (@login_required Demo.crypto Demo.server Demo.offline); reflexivity.
Defined.

Lemma login_refused_witness :
  let c := Demo.fresh [("encrypted_wallet", JStr Demo.ciphertext)] false in
  (exists t,
     login Demo.server Demo.offline Toy.now (JStr "a@x") (JStr "alice") (JStr "guess") JNull c
     = (Ok (RejectedWith DecryptError), set_notify true c, t))
  /\ (exists t,
        login Demo.server Demo.offline Toy.now (JStr "A@x ") (JStr "alice") (JStr "pw")
              (JStr "chainB") c
        = (Ok (RejectedWith
                 (Error "Missmatched chain id, wallet has chainA but login is expecting chainB")),
           set_notify true c, t)).
Proof.
  intros c. split.
  - eexists.
    apply (@login_refused Demo.crypto Demo.server Demo.offline Toy.now "a@x" "alice"
             (JStr "guess") JNull c Demo.ciphertext).
    + reflexivity.
    + vm_compute. reflexivity.
    + vm_compute. discriminate.
    + vm_compute. reflexivity.
  - eexists.
    apply (@login_refused Demo.crypto Demo.server Demo.offline Toy.now "A@x " "alice"
             (JStr "pw") (JStr "chainB") c Demo.ciphertext) with (w := Toy.wallet).
    + reflexivity.
    + vm_compute. reflexivity.
    + vm_compute. discriminate.
    + vm_compute. reflexivity.
    + reflexivity.
    + reflexivity.
Defined.

Lemma login_first_offline_witness :
  let c := (constructor Demo.offline ∅).1 in
  exists c',
    login Demo.server Demo.offline Toy.now (JStr "a@x") (JStr "alice") (JStr "pw")
          (JStr "chainA") c
    = (Ok (Fulfilled VUndefined), c', [Effect ENotify])
    /\ wget "chain_id" (wallet_object c') = Some (TStr "chainA")
    /\ private_key c' = Some Demo.key
    /\ storage c' = ∅
    /\ verifyPassword Demo.offline (JStr " A@X") (JStr "Alice ") (JStr "pw") c'
       = (Ok (Answer true), c', []).
Proof.
  intros c.
  destruct (@login_first_offline Demo.crypto Demo.server Demo.offline Toy.now "a@x" "alice"
              (JStr "pw") (JStr "chainA") c)
    as (Hrun & Hstorage & _).
  - reflexivity.
  - reflexivity.
  - reflexivity.
  - reflexivity.
  - reflexivity.
  - eexists. split; [exact Hrun|]. vm_compute. repeat split.
Defined.

Lemma login_prepopulated_offline_witness :
  let c := set_wallet_object [("k", TNum 1); ("created", TStr Demo.date)] (Demo.fresh [] false) in
  exists c',
    login Demo.server Demo.offline Toy.now (JStr "a@x") (JStr "alice") (JStr "pw") JUndefined c
    = (Ok (Fulfilled VUndefined), c',
       [Effect (EEncrypt [("chain_id", TNull); ("created", TStr Demo.date);
                          ("last_modified", TStr Toy.now); ("weak_password", TBool false);
                          ("k", TNum 1)]
                         (@toPublicKey Demo.crypto Demo.key));
        Effect (EStore [("encrypted_wallet",
                         JStr ("pub:a@x" +:+ tab +:+ "alice" +:+ tab +:+ "pw*****"))]);
        Effect ENotify])
    /\ private_key c' = Some Demo.key.
Proof.
  intros c. eexists. split.
  - apply (@login_prepopulated_offline Demo.crypto Demo.server Demo.offline Toy.now
             "a@x" "alice" (JStr "pw") JUndefined c).
    + reflexivity.
    + reflexivity.
    + discriminate.
    + reflexivity.
    + reflexivity.
  - reflexivity.
Defined.

Lemma login_pulls_server_wallet_witness :
  let c := Demo.fresh [("remote_copy", JBool true)] true in
  exists c' t,
    login Demo.server (Demo.host (Fulfilled Demo.remote) false) Toy.now
          (JStr "a@x") (JStr "alice") (JStr "pw") (JStr "chainA") c
    = (Ok (Fulfilled VUndefined), c', t)
    /\ wallet_object c' = Toy.wallet
    /\ private_key c' = Some Demo.key
    /\ storage c' !! "encrypted_wallet" = Some (JStr Demo.ciphertext)
    /\ remote_status c' = Text "Not Modified".
Proof.
  intros c.
  destruct (@login_pulls_server_wallet Demo.crypto Demo.server
              (Demo.host (Fulfilled Demo.remote) false) Toy.now "a@x" "alice"
              (JStr "pw") (JStr "chainA") c Demo.remote
              ("#" +:+ Demo.ciphertext) Demo.ciphertext Toy.wallet)
    as (c' & Hrun & Hw & Hk & Hew & _ & Hstatus).
  - reflexivity.
  - vm_compute. reflexivity.
  - reflexivity.
  - reflexivity.
  - vm_compute. discriminate.
  - reflexivity.
  - reflexivity.
  - reflexivity.
  - reflexivity.
  - reflexivity.
  - reflexivity.
  - vm_compute. reflexivity.
  - reflexivity.
  - reflexivity.
  - eexists c', _. split; [exact Hrun|]. split; [exact Hw|]. split; [exact Hk|].
    split; [exact Hew|exact Hstatus].
Defined.

Lemma setState_logout_login_witness :
  let c := Demo.unlocked [] Null false in
  let saved := (setState Demo.server Toy.now [("k", TNum 1)] c).1.2 in
  let locked := (logout Demo.server Demo.offline saved).1.2 in
  wallet_object saved = Demo.edited
  /\ private_key locked = None
  /\ exists c' t,
       login Demo.server Demo.offline Demo.date (JStr "a@x") (JStr "alice") (JStr "pw")
             JUndefined locked
       = (Ok (Fulfilled VUndefined), c', t)
       /\ wallet_object c' = Demo.edited
       /\ private_key c' = Some Demo.key.
Proof.
  intros c saved locked.
  destruct (@setState_logout_login Demo.crypto Demo.server Demo.offline Toy.now Demo.date
              [("k", TNum 1)] "a@x" "alice" (JStr "pw") c)
    as (Hsaved & Hlocked & _ & c' & t & Hrun & Hw & Hk).
  - reflexivity.
  - reflexivity.
  - reflexivity.
  - reflexivity.
  - reflexivity.
  - vm_compute. discriminate.
  - refine (bool_decide_unpack _ _). vm_compute. exact I.
  - vm_compute. reflexivity.
  - vm_compute. discriminate.
  - vm_compute. reflexivity.
  - split; [exact Hsaved|]. split; [exact Hlocked|].
    exists c', t. split; [exact Hrun|]. split; [exact Hw|exact Hk].
Defined.

Lemma fetchWallet_persists_first_witness :
  let c := Toy.unlocked (JBool true) (JStr "#X") in
  let write := [("remote_hash", JStr "#X")] in
  exists r c' rest,
    fetchWallet Toy.offline (Toy.reply Undefined (Text "#X")) Toy.key c
    = (r, c', EStore write :: EStatusText "Not Modified" :: rest)
    /\ storage c' = replay rest (storage_merge write (storage c)).
Proof.
  intros c write.
  destruct (@fetchWallet_persists_first Toy.crypto Toy.offline
              (Toy.reply Undefined (Text "#X")) Toy.key c)
    as (r & c' & rest & Hrun & Hreplay & _ & Hstatus).
  - vm_compute. reflexivity.
  - destruct Hstatus as (rest' & ->); [reflexivity|].
    exists r, c', rest'. split; [exact Hrun|exact Hreplay].
Defined.


